(** * terraform-provider-wormly: the request executor and its callers

    A shallow embedding of [internal/client/client.go] (the rate-limited,
    retrying request executor), of the period decoder
    [ScheduledDowntimePeriod.UnmarshalJSON], of the operations of the client
    on hosts, HTTP sensors, scheduled downtime periods and the global alert
    mute, and of the provider's host, period and sensor resources as far as
    they parse and store identifiers and call the client, followed by the
    properties proved about them.

    Go values are modelled as follows.
    - [int], [int64] and [time.Duration] are [Z] (nanoseconds for durations);
    - [float64] is [spec_float] at precision 53 and exponent bound 1024, with
      round-to-nearest-even multiplication and conversion;
    - [string] is [string], [map[string]string] is [gmap string string];
    - an [error] interface value is a term of [Go.error], one constructor per
      dynamic type, and [option Go.error] where [nil] is possible;
    - the rate limiter, the HTTP transport and the logger are effects: the
      first two are answered by a [World], all three are recorded in a trace
      of [event]s carried by a writer monad;
    - an attribute value of the plugin framework is a [tf.attr]: null,
      unknown or known; the client interface of a resource is a record of
      functions, and the calls a resource makes are listed in its response. *)

From Stdlib Require Import ZArith String Ascii List Bool Lia DecimalString.
From Stdlib Require Import Floats.SpecFloat.
From Stdlib Require DecimalPos.
From stdpp Require Import base option strings gmap list.

Local Open Scope string_scope.
Local Open Scope Z_scope.

#[local] Set Warnings "-register-all".

(** ** Part I. Go's standard library, as far as the client uses it *)

Module Go.

(** [strconv.Itoa], also the rendering of [%d]. *)
Definition Itoa (z : Z) : string := NilZero.string_of_int (Z.to_int z).

(** [strconv.Quote] on printable ASCII text: the text between double quotes,
    with a backslash before each double quote and each backslash. *)
Fixpoint quoteBody (s : string) : string :=
  match s with
  | EmptyString => EmptyString
  | String a s' =>
      if (Ascii.eqb a (ascii_of_nat 34) || Ascii.eqb a (ascii_of_nat 92))%bool
      then String (ascii_of_nat 92) (String a (quoteBody s'))
      else String a (quoteBody s')
  end.

Definition Quote (s : string) : string :=
  String (ascii_of_nat 34) (quoteBody s ++ String (ascii_of_nat 34) EmptyString).

(** *** syscall.Errno (linux) *)

Definition EINTR : Z := 4.
Definition EAGAIN : Z := 11.
Definition EWOULDBLOCK : Z := 11.
Definition ENFILE : Z := 23.
Definition EMFILE : Z := 24.
Definition ECONNABORTED : Z := 103.
Definition ECONNRESET : Z := 104.
Definition ETIMEDOUT : Z := 110.
Definition ECONNREFUSED : Z := 111.

(** [func (e Errno) Timeout() bool] *)
Definition Errno_Timeout (e : Z) : bool :=
  (e =? EAGAIN) || (e =? EWOULDBLOCK) || (e =? ETIMEDOUT).

(** [func (e Errno) Temporary() bool] *)
Definition Errno_Temporary (e : Z) : bool :=
  (e =? EINTR) || (e =? EMFILE) || (e =? ENFILE) || Errno_Timeout e.

(** [func (e Errno) Error() string]: the message table, abridged to the codes
    named above; a code without an entry prints as [errno N]. *)
Definition Errno_Error (e : Z) : string :=
  if e =? EINTR then "interrupted system call"
  else if e =? EAGAIN then "resource temporarily unavailable"
  else if e =? ENFILE then "too many open files in system"
  else if e =? EMFILE then "too many open files"
  else if e =? ECONNABORTED then "software caused connection abort"
  else if e =? ECONNRESET then "connection reset by peer"
  else if e =? ETIMEDOUT then "connection timed out"
  else if e =? ECONNREFUSED then "connection refused"
  else "errno " ++ Itoa e.

(** *** Error values

    One constructor per dynamic type that can sit in an [error] interface
    value here. [customError] stands for a value of any other type: its
    message, and the result of its [Timeout()] and [Temporary()] methods
    where it has them ([None]: no such method). *)
Inductive error : Type :=
| errorString (s : string)
    (* errors.New(s); fmt.Errorf without a %w operand *)
| wrapError (msg : string) (err : error)
    (* fmt.Errorf with one %w operand: the formatted text and the operand *)
| customError (msg : string) (timeout temporary : option bool)
| Errno (e : Z)
    (* syscall.Errno *)
| SyscallError (Syscall : string) (Err : error)
    (* *os.SyscallError *)
| DNSError (Err Name Server : string) (IsTimeout IsTemporary : bool)
    (* *net.DNSError *)
| OpError (Op Net : string) (Err : error)
    (* *net.OpError with nil Source and Addr *)
| URLError (Op URL : string) (Err : error)
    (* *url.Error *)
| NumError (Func Num : string) (Err : error).
    (* *strconv.NumError *)

(** [t, ok := e.(interface{ Timeout() bool }); ok && t.Timeout()] *)
Definition okAnd (m : option bool) : bool :=
  match m with Some b => b | None => false end.

(** The [Timeout()] method of the dynamic type, [None] where the type has
    none. *)
Fixpoint Timeout (e : error) : option bool :=
  match e with
  | errorString _ => None
  | wrapError _ _ => None
  | customError _ t _ => t
  | Errno n => Some (Errno_Timeout n)
  | SyscallError _ inner => Some (okAnd (Timeout inner))
  | DNSError _ _ _ isTimeout _ => Some isTimeout
  | OpError _ _ inner =>
      match inner with
      | SyscallError _ ne => Some (okAnd (Timeout ne))
      | _ => Some (okAnd (Timeout inner))
      end
  | URLError _ _ inner => Some (okAnd (Timeout inner))
  | NumError _ _ _ => None
  end.

(** [isConnError] of package net. *)
Definition isConnError (e : error) : bool :=
  match e with
  | Errno n => (n =? ECONNRESET) || (n =? ECONNABORTED)
  | _ => false
  end.

(** The [Temporary()] method of the dynamic type. *)
Fixpoint Temporary (e : error) : option bool :=
  match e with
  | errorString _ => None
  | wrapError _ _ => None
  | customError _ _ t => t
  | Errno n => Some (Errno_Temporary n)
  | SyscallError _ _ => None
  | DNSError _ _ _ isTimeout isTemporary => Some (isTimeout || isTemporary)
  | OpError op _ inner =>
      if (String.eqb op "accept" && isConnError inner)%bool then Some true
      else
        match inner with
        | SyscallError _ ne => Some (okAnd (Temporary ne))
        | _ => Some (okAnd (Temporary inner))
        end
  | URLError _ _ inner => Some (okAnd (Temporary inner))
  | NumError _ _ _ => None
  end.

(** The [Error()] method. *)
Fixpoint Error (e : error) : string :=
  match e with
  | errorString s => s
  | wrapError msg _ => msg
  | customError msg _ _ => msg
  | Errno n => Errno_Error n
  | SyscallError call inner => call ++ ": " ++ Error inner
  | DNSError err name server _ _ =>
      "lookup " ++ name
        ++ (if String.eqb server "" then "" else " on " ++ server)
        ++ ": " ++ err
  | OpError op net inner =>
      op ++ (if String.eqb net "" then "" else " " ++ net)
         ++ ": " ++ Error inner
  | URLError op url inner => op ++ " " ++ Quote url ++ ": " ++ Error inner
  | NumError fn num inner =>
      "strconv." ++ fn ++ ": parsing " ++ Quote num ++ ": " ++ Error inner
  end.

(** [_, ok := err.(net.Error)]: the dynamic type has [Error()], [Timeout()]
    and [Temporary()]. *)
Definition isNetError (e : error) : bool :=
  match Timeout e, Temporary e with
  | Some _, Some _ => true
  | _, _ => false
  end.

(** [fmt.Errorf(prefix + "%w", err)] *)
Definition Errorf_w (prefix : string) (err : option error) : error :=
  match err with
  | Some e => wrapError (prefix ++ Error e) e
  | None => errorString (prefix ++ "%!w(<nil>)")
  end.

(** *** strconv.Atoi *)

Definition ErrSyntax : error := errorString "invalid syntax".
Definition ErrRange : error := errorString "value out of range".

Definition digitOf (a : ascii) : option Z :=
  let n := Z.of_nat (nat_of_ascii a) in
  if (48 <=? n) && (n <=? 57) then Some (n - 48) else None.

Inductive scan : Type :=
| scanOk (n : Z)
| scanSyntax
| scanRange.

(** The digit loop of [ParseUint(s, 10, 64)]: it stops at the first byte that
    is not a digit, and at the first step that leaves 64 bits. *)
Fixpoint scanDigits (s : string) (n : Z) : scan :=
  match s with
  | EmptyString => scanOk n
  | String a s' =>
      match digitOf a with
      | None => scanSyntax
      | Some d =>
          if n >=? (2 ^ 64 - 1) / 10 + 1 then scanRange
          else
            let n1 := n * 10 + d in
            if n1 >? 2 ^ 64 - 1 then scanRange else scanDigits s' n1
      end
  end.

(** [strconv.Atoi] on a 64-bit platform: the value and the error. The short
    path of Atoi for fewer than 19 bytes gives the same results as the
    ParseInt path that is written out here. *)
Definition Atoi (s0 : string) : Z * option error :=
  match s0 with
  | EmptyString => (0, Some (NumError "Atoi" s0 ErrSyntax))
  | String a rest =>
      let plus := Ascii.eqb a (ascii_of_nat 43) in
      let neg := Ascii.eqb a (ascii_of_nat 45) in
      let s := if (plus || neg)%bool then rest else s0 in
      match s with
      | EmptyString => (0, Some (NumError "Atoi" s0 ErrSyntax))
      | _ =>
          match scanDigits s 0 with
          | scanSyntax => (0, Some (NumError "Atoi" s0 ErrSyntax))
          | scanRange =>
              if neg then (- 2 ^ 63, Some (NumError "Atoi" s0 ErrRange))
              else (2 ^ 63 - 1, Some (NumError "Atoi" s0 ErrRange))
          | scanOk un =>
              if (negb neg && (un >=? 2 ^ 63))%bool
              then (2 ^ 63 - 1, Some (NumError "Atoi" s0 ErrRange))
              else if (neg && (un >? 2 ^ 63))%bool
              then (- 2 ^ 63, Some (NumError "Atoi" s0 ErrRange))
              else (if neg then - un else un, None)
          end
      end
  end.

(** A numeral: the string written with the decimal digits [ds], most
    significant first, and the number it writes. *)
Definition digitChar (d : Z) : ascii := ascii_of_nat (Z.to_nat (48 + d)).

Fixpoint digitsString (ds : list Z) : string :=
  match ds with
  | [] => EmptyString
  | d :: ds' => String (digitChar d) (digitsString ds')
  end.

Fixpoint digitsValueFrom (n : Z) (ds : list Z) : Z :=
  match ds with
  | [] => n
  | d :: ds' => digitsValueFrom (n * 10 + d) ds'
  end.

Definition digitsValue (ds : list Z) : Z := digitsValueFrom 0 ds.

Definition isDigit (d : Z) : Prop := 0 <= d <= 9.

(** [strings.Contains] *)
Fixpoint hasPrefix (p s : string) : bool :=
  match p, s with
  | EmptyString, _ => true
  | String a p', String b s' => (Ascii.eqb a b && hasPrefix p' s')%bool
  | String _ _, EmptyString => false
  end.

Fixpoint Contains (s substr : string) : bool :=
  (hasPrefix substr s
   || match s with
      | EmptyString => false
      | String _ s' => Contains s' substr
      end)%bool.

(** [strings.Split(s, sep)] for a separator of one byte: the pieces of [s]
    between the occurrences of [sep], in order; a text without [sep] is its
    only piece. *)
Fixpoint Split (s : string) (sep : ascii) : list string :=
  match s with
  | EmptyString => [EmptyString]
  | String a s' =>
      if Ascii.eqb a sep then EmptyString :: Split s' sep
      else
        match Split s' sep with
        | x :: xs => String a x :: xs
        | [] => [String a EmptyString]
        end
  end.

(** The digits of a decimal numeral, most significant first. *)
Fixpoint uintDigits (d : Decimal.uint) : list Z :=
  match d with
  | Decimal.Nil => []
  | Decimal.D0 d' => 0 :: uintDigits d'
  | Decimal.D1 d' => 1 :: uintDigits d'
  | Decimal.D2 d' => 2 :: uintDigits d'
  | Decimal.D3 d' => 3 :: uintDigits d'
  | Decimal.D4 d' => 4 :: uintDigits d'
  | Decimal.D5 d' => 5 :: uintDigits d'
  | Decimal.D6 d' => 6 :: uintDigits d'
  | Decimal.D7 d' => 7 :: uintDigits d'
  | Decimal.D8 d' => 8 :: uintDigits d'
  | Decimal.D9 d' => 9 :: uintDigits d'
  end.

(** *** float64 *)

Definition float64 : Type := spec_float.

Definition prec : Z := 53.
Definition emax : Z := 1024.

(** [float64(n)] for an integer [n]: rounded to nearest, ties to even. *)
Definition float64_of_int (n : Z) : float64 := binary_normalize prec emax n 0 false.

(** [x * y] on float64. *)
Definition float64_mul (x y : float64) : float64 := SFmul prec emax x y.

(** The integer part of a finite float, rounding toward zero. *)
Definition truncate (f : float64) : option Z :=
  match f with
  | S754_zero _ => Some 0
  | S754_finite s m e =>
      Some (cond_Zopp s (if e >=? 0 then Z.pos m * 2 ^ e
                         else Z.pos m / 2 ^ (- e)))
  | S754_infinity _ => None
  | S754_nan => None
  end.

Definition minInt64 : Z := - 2 ^ 63.
Definition maxInt64 : Z := 2 ^ 63 - 1.

(** [int64(f)], [int(f)] and [time.Duration(f)]: truncation toward zero.
    Where the value does not fit, Go leaves the result to the implementation;
    the value written here is the one amd64 gives. *)
Definition int64_of_float64 (f : float64) : Z :=
  match truncate f with
  | Some z => if (minInt64 <=? z) && (z <=? maxInt64) then z else minInt64
  | None => minInt64
  end.

End Go.

(** ** Part II. Package client: the request executor *)

Module client.
Import Go.

(** [time.Duration]: nanoseconds. *)
Definition Duration : Type := Z.
Definition Millisecond : Duration := 1000000.

(** The fields of [Client] that are plain data. The transport, the limiter
    and the logger are effects, see [World] and [event]. *)
Record Client : Type := mkClient {
  apiKey : string;
  baseURL : string;
  userAgent : string;
  maxRetries : Z;
  initialBackoff : Duration;
  backoffMultiplier : float64;
  maxBackoff : Duration;
  debugEnabled : bool
}.

(** [*http.Request]: the header maps a canonical key to its first value;
    [Form] is the form data of the body before [Encode()]. *)
Record Request : Type := mkRequest {
  Method : string;
  URL : string;
  Header : gmap string string;
  Form : gmap string string
}.

(** [req.Header.Get] and [req.Header.Set]. *)
Definition Header_Get (r : Request) (k : string) : string :=
  default "" (Header r !! k).

Definition Header_Set (r : Request) (k v : string) : Request :=
  mkRequest (Method r) (URL r) (<[k := v]> (Header r)) (Form r).

(** [*http.Response]: [Body] is what [io.ReadAll(resp.Body)] returns as
    bytes, [BodyErr] what it returns as error. *)
Record Response : Type := mkResponse {
  StatusCode : Z;
  Status : string;
  Body : string;
  BodyErr : option error
}.

(** What one call of [c.httpClient.Do(req)] returns. *)
Inductive roundTrip : Type :=
| rtErr (err : error)
| rtResp (resp : Response).

(** The environment of one logical call.
    - [limiterWait]: what [c.limiter.Wait(ctx)] returns: [Some err] when the
      context is cancelled or expires before a token is granted, [None]
      once the token is granted;
    - [parseURL]: the error of [http.NewRequestWithContext] for a base URL;
    - [roundTrips n]: what the [n]-th call of the transport returns,
      counted from 0. *)
Record World : Type := mkWorld {
  limiterWait : option error;
  parseURL : string -> option error;
  roundTrips : nat -> roundTrip
}.

(** An argument of a logger call. *)
Inductive logArg : Type :=
| argInt (n : Z)
| argString (s : string)
| argError (e : error)
| argDuration (d : Duration)
| argParams (m : gmap string string).

(** The effects of a call, in the order they happen. *)
Inductive event : Type :=
| EvWait                                   (* c.limiter.Wait(ctx) *)
| EvLog (format : string) (args : list logArg)   (* c.logger.Printf *)
| EvDo (req : Request)                     (* c.httpClient.Do(req) *)
| EvSleep (d : Duration)                   (* time.Sleep(d) *)
| EvClose                                  (* resp.Body.Close() *)
| EvReadAll                                (* io.ReadAll(resp.Body) *)
| EvUnmarshal (data : string).             (* json.Unmarshal(data, result) *)

(** A computation with effects: the trace it leaves and its value. *)
Definition M (A : Type) : Type := (list event * A)%type.

Definition ret {A : Type} (a : A) : M A := ([], a).

Definition bind {A B : Type} (m : M A) (k : A -> M B) : M B :=
  let r := k (snd m) in ((fst m ++ fst r)%list, snd r).

Definition tell (e : event) : M unit := ([e], tt).

Notation "x <- m ;; k" := (bind m (fun x => k))
  (at level 100, m at next level, right associativity).
Notation "m ;;; k" := (bind m (fun _ => k))
  (at level 100, right associativity).

(** [if c.debugEnabled { c.logger.Printf(format, args...) }] *)
Definition debugf (c : Client) (format : string) (args : list logArg) : M unit :=
  if debugEnabled c then tell (EvLog format args) else ret tt.

(** A Go result pair [(value, error)] of which exactly one side is set. *)
Inductive result (A : Type) : Type :=
| Ok (a : A)
| Err (e : error).
Arguments Ok {A} a.
Arguments Err {A} e.

(** [calculateNextBackoff] *)
Definition calculateNextBackoff (c : Client) (current : Duration) : Duration :=
  let next := int64_of_float64
                (float64_mul (float64_of_int current) (backoffMultiplier c)) in
  if next >? maxBackoff c then maxBackoff c else next.

(** [isTransientNetworkError]: the three type tests in the order of the
    source. A [*url.Error] and a [*net.OpError] have [Timeout()] and
    [Temporary()], so they are taken by the first test. *)
Fixpoint isTransientNetworkErr (err : error) : bool :=
  if isNetError err then okAnd (Timeout err)
  else
    match err with
    | URLError _ _ inner => isTransientNetworkErr inner
    | OpError _ _ (Errno n) =>
        if (n =? ECONNREFUSED) || (n =? ECONNRESET) || (n =? ETIMEDOUT)
        then true else false
    | _ => false
    end.

Definition isTransientNetworkError (err : option error) : bool :=
  match err with
  | None => false
  | Some e => isTransientNetworkErr e
  end.

(** [isTransientHTTPError] *)
Definition isTransientHTTPError (statusCode : Z) : bool :=
  if (statusCode =? 429) || (statusCode =? 500) || (statusCode =? 502)
     || (statusCode =? 503) || (statusCode =? 504)
  then true else false.

(** [fmt.Errorf("HTTP %d: %s", resp.StatusCode, resp.Status)] *)
Definition httpStatusError (resp : Response) : error :=
  errorString ("HTTP " ++ Itoa (StatusCode resp) ++ ": " ++ Status resp).

(** [fmt.Errorf("request failed after %d retries: %w", c.maxRetries, lastErr)] *)
Definition retriesExhausted (c : Client) (lastErr : option error) : error :=
  Errorf_w ("request failed after " ++ Itoa (maxRetries c) ++ " retries: ") lastErr.

(** The loop of [Do]. The loop variable [attempt] runs from 0 while
    [attempt <= c.maxRetries]; [remaining] is the number of iterations left,
    [maxRetries + 1 - attempt], so the loop is left through its condition
    exactly when [remaining] is 0. Every iteration calls the transport once,
    so the call made at [attempt] is call number [attempt]. *)
Fixpoint doLoop (c : Client) (w : World) (req : Request)
    (remaining : nat) (attempt : Z) (backoff : Duration)
    (lastErr : option error) : M (result Response) :=
  match remaining with
  | O => ret (Err (retriesExhausted c lastErr))
  | S remaining' =>
      debugf c "Attempt %d: Making request to %s"
        [argInt attempt; argString (URL req)] ;;;
      tell (EvDo req) ;;;
      match roundTrips w (Z.to_nat attempt) with
      | rtErr err =>
          if isTransientNetworkError (Some err) then
            if attempt <? maxRetries c then
              debugf c "Transient network error: %v. Retrying in %v"
                [argError err; argDuration backoff] ;;;
              tell (EvSleep backoff) ;;;
              doLoop c w req remaining' (attempt + 1)
                (calculateNextBackoff c backoff) (Some err)
            else ret (Err err)
          else ret (Err err)
      | rtResp resp =>
          if isTransientHTTPError (StatusCode resp) then
            tell EvClose ;;;
            let lastErr' := httpStatusError resp in
            if attempt <? maxRetries c then
              debugf c "Transient HTTP error: %v. Retrying in %v"
                [argError lastErr'; argDuration backoff] ;;;
              tell (EvSleep backoff) ;;;
              doLoop c w req remaining' (attempt + 1)
                (calculateNextBackoff c backoff) (Some lastErr')
            else ret (Err lastErr')
          else ret (Ok resp)
      end
  end.

(** The header defaults of [Do]: set only where the caller left none. *)
Definition injectHeaders (c : Client) (req : Request) : Request :=
  let req1 := if String.eqb (Header_Get req "Authorization") ""
              then Header_Set req "Authorization" ("Bearer " ++ apiKey c)
              else req in
  let req2 := if String.eqb (Header_Get req1 "User-Agent") ""
              then Header_Set req1 "User-Agent" (userAgent c)
              else req1 in
  if String.eqb (Header_Get req2 "Content-Type") ""
  then Header_Set req2 "Content-Type" "application/json"
  else req2.

(** [Client.Do]: the limiter, the header defaults, then the loop. *)
Definition Do (c : Client) (w : World) (req : Request) : M (result Response) :=
  tell EvWait ;;;
  match limiterWait w with
  | Some err => ret (Err (Errorf_w "rate limiter wait failed: " (Some err)))
  | None =>
      doLoop c w (injectHeaders c req)
        (Z.to_nat (maxRetries c + 1)) 0 (initialBackoff c) None
  end.

(** The form data of [makeFormRequest]: the three fixed keys, then every
    caller parameter set over them. *)
Definition formData (c : Client) (command : string)
    (params : gmap string string) : gmap string string :=
  params ∪ <["cmd" := command]> (<["key" := apiKey c]> (<["response" := "json"]> ∅)).

(** The request of [makeFormRequest] once [http.NewRequestWithContext] has
    succeeded, with its two headers set. *)
Definition formRequest (c : Client) (command : string)
    (params : gmap string string) : Request :=
  Header_Set
    (Header_Set (mkRequest "POST" (baseURL c) ∅ (formData c command params))
       "Content-Type" "application/x-www-form-urlencoded")
    "User-Agent" (userAgent c).

Section FormRequest.

(** The result target: [T] is the type the caller's pointer points to and
    [unmarshal data v] is [json.Unmarshal(data, result)] on a target holding
    [v]: the value the target holds afterwards, and the error. A [nil]
    target is [None]. *)
Context {T : Type}.
Variable unmarshal : string -> T -> T * option error.

(** The part of an iteration of [makeFormRequest] after both transient
    checks. [resp.Body.Close()] is deferred, so it runs last. *)
Definition formFinish (c : Client) (resp : Response) (result : option T)
    : M (option T * option error) :=
  if (StatusCode resp <? 200) || (StatusCode resp >=? 300) then
    tell EvReadAll ;;;
    debugf c "API request failed with status %d: %s"
      [argInt (StatusCode resp); argString (Body resp)] ;;;
    tell EvClose ;;;
    ret (result,
         Some (errorString ("API request failed with status "
                              ++ Itoa (StatusCode resp) ++ ": " ++ Body resp)))
  else
    match result with
    | Some v =>
        tell EvReadAll ;;;
        match BodyErr resp with
        | Some err =>
            tell EvClose ;;;
            ret (result, Some (Errorf_w "failed to read response body: " (Some err)))
        | None =>
            debugf c "Wormly API response: %s" [argString (Body resp)] ;;;
            tell (EvUnmarshal (Body resp)) ;;;
            match unmarshal (Body resp) v with
            | (v', Some err) =>
                tell EvClose ;;;
                ret (Some v', Some (Errorf_w "failed to decode response: " (Some err)))
            | (v', None) =>
                tell EvClose ;;;
                ret (Some v', None)
            end
        end
    | None =>
        tell EvClose ;;;
        ret (None, None)
    end.

(** What an iteration of [makeFormRequest] ends with when the outcome of
    its round trip is not transient. *)
Definition formOutcome (c : Client) (rt : roundTrip) (result : option T)
    : M (option T * option error) :=
  match rt with
  | rtErr err => ret (result, Some err)
  | rtResp resp => formFinish c resp result
  end.

(** The loop of [makeFormRequest]; [remaining] as in [doLoop]. *)
Fixpoint formLoop (c : Client) (w : World) (command : string) (req : Request)
    (result : option T) (remaining : nat) (attempt : Z) (backoff : Duration)
    (lastErr : option error) : M (option T * option error) :=
  match remaining with
  | O => ret (result, Some (retriesExhausted c lastErr))
  | S remaining' =>
      debugf c "Attempt %d: Making form request to %s with command %s"
        [argInt attempt; argString (baseURL c); argString command] ;;;
      tell (EvDo req) ;;;
      match roundTrips w (Z.to_nat attempt) with
      | rtErr err =>
          if isTransientNetworkError (Some err) then
            if attempt <? maxRetries c then
              debugf c "Transient network error: %v. Retrying in %v"
                [argError err; argDuration backoff] ;;;
              tell (EvSleep backoff) ;;;
              formLoop c w command req result remaining' (attempt + 1)
                (calculateNextBackoff c backoff) (Some err)
            else ret (result, Some err)
          else ret (result, Some err)
      | rtResp resp =>
          if isTransientHTTPError (StatusCode resp) then
            tell EvClose ;;;
            let lastErr' := httpStatusError resp in
            if attempt <? maxRetries c then
              debugf c "Transient HTTP error: %v. Retrying in %v"
                [argError lastErr'; argDuration backoff] ;;;
              tell (EvSleep backoff) ;;;
              formLoop c w command req result remaining' (attempt + 1)
                (calculateNextBackoff c backoff) (Some lastErr')
            else ret (result, Some lastErr')
          else formFinish c resp result
      end
  end.

(** [makeFormRequest]: the value the target holds when the call returns, and
    the error returned. *)
Definition makeFormRequest (c : Client) (w : World) (command : string)
    (params : gmap string string) (result : option T)
    : M (option T * option error) :=
  tell EvWait ;;;
  match limiterWait w with
  | Some err =>
      ret (result, Some (Errorf_w "rate limiter wait failed: " (Some err)))
  | None =>
      debugf c "Wormly API request - command: %s, params: %+v"
        [argString command; argParams params] ;;;
      match parseURL w (baseURL c) with
      | Some err =>
          ret (result, Some (Errorf_w "failed to create request: " (Some err)))
      | None =>
          formLoop c w command (formRequest c command params) result
            (Z.to_nat (maxRetries c + 1)) 0 (initialBackoff c) None
      end
  end.

End FormRequest.

(** The number of requests put on the wire, of limiter acquisitions, and
    the sleeps, read off a trace. *)
Definition isDo (e : event) : bool :=
  match e with EvDo _ => true | _ => false end.

Definition isWait (e : event) : bool :=
  match e with EvWait => true | _ => false end.

Definition isBodyUse (e : event) : bool :=
  match e with EvReadAll => true | EvUnmarshal _ => true | _ => false end.

Definition isUnmarshal (e : event) : bool :=
  match e with EvUnmarshal _ => true | _ => false end.

Definition requests (tr : list event) : nat := length (List.filter isDo tr).

Definition acquisitions (tr : list event) : nat := length (List.filter isWait tr).

Fixpoint sleeps (tr : list event) : list Duration :=
  match tr with
  | [] => []
  | EvSleep d :: tr' => d :: sleeps tr'
  | _ :: tr' => sleeps tr'
  end.

(** The outcome of a round trip that makes the loop go round again. *)
Definition transientOutcome (rt : roundTrip) : bool :=
  match rt with
  | rtErr err => isTransientNetworkError (Some err)
  | rtResp resp => isTransientHTTPError (StatusCode resp)
  end.

(** The error a call ends with when its last permitted attempt is transient. *)
Definition terminalError (rt : roundTrip) : error :=
  match rt with
  | rtErr err => err
  | rtResp resp => httpStatusError resp
  end.

(** What [Do] returns when an attempt is not transient. *)
Definition doOutcome (rt : roundTrip) : result Response :=
  match rt with
  | rtErr err => Err err
  | rtResp resp => Ok resp
  end.

(** The backoffs slept through by [n] retries in a row, from backoff [b]. *)
Fixpoint backoffsFrom (c : Client) (b : Duration) (n : nat) : list Duration :=
  match n with
  | O => []
  | S n' => b :: backoffsFrom c (calculateNextBackoff c b) n'
  end.

(** The backoff update in the words of the specification: the product of the
    current backoff and the multiplier, clamped to the maximum. *)
Definition nextBackoffSpec (current : Duration) (multiplier : float64)
    (maxBackoff : Duration) : Duration :=
  Z.min (int64_of_float64 (float64_mul (float64_of_int current) multiplier))
        maxBackoff.

(** *** host.go: GetHost *)

(** [Host], without its two wall-clock stamps ([time.Now()]). *)
Record Host : Type := mkHost {
  Host_ID : Z;
  Host_Name : string;
  Host_TestInterval : Z;
  Host_Enabled : bool
}.

(** An entry of [WormlyHostStatusResponse.Status]. *)
Record HostStatus : Type := mkHostStatus {
  HS_HostID : Z;
  HS_Name : string;
  HS_UptimeMonitored : bool;
  HS_HealthMonitored : bool;
  HS_UptimeErrors : bool;
  HS_HealthErrors : bool;
  HS_LastUptimeCheck : option Z;
  HS_LastHealthCheck : option Z;
  HS_LastUptimeError : option Z
}.

Record WormlyHostStatusResponse : Type := mkHostStatusResponse {
  HSR_ErrorCode : Z;
  HSR_Status : list HostStatus
}.

(** [var response WormlyHostStatusResponse] *)
Definition zeroHostStatusResponse : WormlyHostStatusResponse :=
  mkHostStatusResponse 0 [].

(** [fmt.Errorf("host with ID %d not found", id)] *)
Definition hostNotFound (id : Z) : error :=
  errorString ("host with ID " ++ Itoa id ++ " not found").

(** The part of [GetHost] after [makeFormRequest] has returned without
    error. *)
Definition pickHost (response : WormlyHostStatusResponse) (id : Z) : result Host :=
  if negb (HSR_ErrorCode response =? 0) then
    Err (errorString ("API returned error code " ++ Itoa (HSR_ErrorCode response)))
  else if (Z.of_nat (length (HSR_Status response)) =? 0) then
    Err (hostNotFound id)
  else
    match List.find (fun host => HS_HostID host =? id) (HSR_Status response) with
    | Some host =>
        Ok (mkHost (HS_HostID host) (HS_Name host) 60
              (HS_UptimeMonitored host || HS_HealthMonitored host))
    | None => Err (hostNotFound id)
    end.

(** [GetHost]; [unmarshal] is [json.Unmarshal] into a
    [*WormlyHostStatusResponse]. *)
Definition GetHost
    (unmarshal : string -> WormlyHostStatusResponse
                 -> WormlyHostStatusResponse * option error)
    (c : Client) (w : World) (id : Z) : M (result Host) :=
  let params : gmap string string := {[ "hostid" := Itoa id ]} in
  r <- makeFormRequest unmarshal c w "getHostStatus" params
         (Some zeroHostStatusResponse) ;;
  match snd r with
  | Some err => ret (Err (Errorf_w "failed to get host: " (Some err)))
  | None => ret (pickHost (default zeroHostStatusResponse (fst r)) id)
  end.

(** *** ScheduledDowntimePeriod and its decoder *)

Record ScheduledDowntimePeriod : Type := mkPeriod {
  SDP_ID : Z;
  SDP_HostID : Z;
  SDP_Start : string;
  SDP_End : string;
  SDP_Timezone : string;
  SDP_Recurrence : string;
  SDP_On : string
}.








End client.

(** ** Part III. Package provider: the read path of the host resource *)

Module provider.
Import Go.

(** The state of a host resource; [ID] is [data.ID.ValueString()]. *)
Record hostResourceModel : Type := mkHostModel {
  ID : string;
  Name : string;
  TestInterval : Z;
  Enabled : bool
}.

(** An error diagnostic: summary and detail. *)
Record Diagnostic : Type := mkDiagnostic {
  Summary : string;
  Detail : string
}.

(** [resource.ReadResponse]: [State] is [None] once
    [resp.State.RemoveResource] has run. *)
Record ReadResponse : Type := mkReadResponse {
  State : option hostResourceModel;
  Diagnostics : list Diagnostic
}.

(** The [client.HostAPI] capability that [Read] uses. *)
Record HostAPI : Type := mkHostAPI {
  GetHost : Z -> client.result client.Host
}.

(** [isNotFoundError] *)
Definition isNotFoundError (err : option error) : bool :=
  match err with
  | None => false
  | Some e => String.eqb (Error e) "404 Not Found"
  end.

(** The test of the HTTP sensor resource's [Read] on the same kind of
    error (resource_sensor_http.go). *)
Definition sensorReadNotFound (err : error) : bool :=
  Contains (Error err) "404" || Contains (Error err) "not found".

(** [hostResource.Read]. [prior] is the state read by [req.State.Get], which
    is also what [resp.State] holds at entry, and [getDiags] the diagnostics
    of that read. *)
Definition Read (api : HostAPI) (prior : hostResourceModel)
    (getDiags : list Diagnostic) : ReadResponse :=
  match getDiags with
  | _ :: _ => mkReadResponse (Some prior) getDiags
  | [] =>
      match Atoi (ID prior) with
      | (_, Some err) =>
          mkReadResponse (Some prior)
            [mkDiagnostic "Parse Error" ("Unable to parse host ID: " ++ Error err)]
      | (id, None) =>
          match GetHost api id with
          | client.Err err =>
              if isNotFoundError (Some err) then mkReadResponse None []
              else
                mkReadResponse (Some prior)
                  [mkDiagnostic "Client Error"
                     ("Unable to read host, got error: " ++ Error err)]
          | client.Ok host =>
              mkReadResponse
                (Some (mkHostModel (ID prior) (client.Host_Name host)
                         (client.Host_TestInterval host)
                         (client.Host_Enabled host)))
                []
          end
      end
  end.

(** The capability as the real client provides it. *)
Definition clientHostAPI
    (unmarshal : string -> client.WormlyHostStatusResponse
                 -> client.WormlyHostStatusResponse * option error)
    (c : client.Client) (w : client.World) : HostAPI :=
  mkHostAPI (fun id => snd (client.GetHost unmarshal c w id)).

End provider.

(** ** Part III-b. Package provider: the ID of an HTTP sensor resource *)

Module sensorResource.
Import Go.

(** [fmt.Sprintf("%d/%d", sensor.HostID, sensor.ID)]: the ID that [Create]
    stores in the state. *)
Definition resourceID (hostID sensorID : Z) : string :=
  Itoa hostID ++ "/" ++ Itoa sensorID.

(** [parseSensorID] *)
Definition parseSensorID (id : string) : Z * Z * option error :=
  match Split id "/" with
  | [part0; part1] =>
      match Atoi part0 with
      | (_, Some err) =>
          (0, 0, Some (errorString ("invalid host_id: " ++ Error err)))
      | (hostID, None) =>
          match Atoi part1 with
          | (_, Some err) =>
              (0, 0, Some (errorString ("invalid sensor_id: " ++ Error err)))
          | (sensorID, None) => (hostID, sensorID, None)
          end
      end
  | _ =>
      (0, 0, Some (errorString "invalid ID format, expected host_id/sensor_id"))
  end.

(** [sensorHTTPResource.ImportState]: the diagnostics, or the values it sets
    for the attributes [id] and [host_id]. *)
Definition ImportState (id : string) : list provider.Diagnostic + string * Z :=
  match parseSensorID id with
  | (_, _, Some _) =>
      inl [provider.mkDiagnostic "Import Error"
             ("Expected import identifier with format: host_id/sensor_id. Got: "
                ++ id)]
  | (hostID, _, None) => inr (id, hostID)
  end.

End sensorResource.

(** ** Scenarios used by the closed statements below *)

Module scenario.
Import Go client.

Definition status (code : Z) (text body : string) : Response :=
  mkResponse code text body None.

Definition response500 : Response := status 500 "500 Internal Server Error" "".
Definition response200 : Response := status 200 "200 OK" "{}".
Definition response204 : Response := status 204 "204 No Content" "".
Definition response404 : Response := status 404 "404 Not Found" "no such host".

(** The client of the retry tests: three retries, 1ms doubling up to 100ms. *)
Definition client3 : Client :=
  mkClient "test-api-key" "https://api.example.com" "test-agent/1.0"
    3 Millisecond (float64_of_int 2) (100 * Millisecond) false.

(** The client of the backoff cap test: 100ms tripling, capped at 200ms. *)
Definition capClient (retries : Z) : Client :=
  mkClient "test-api-key" "https://api.example.com" "test-agent/1.0"
    retries (100 * Millisecond) (float64_of_int 3) (200 * Millisecond) false.

Definition getTest : Request := mkRequest "GET" "https://api.example.com/test" ∅ ∅.

(** A granted limiter, a well-formed base URL, and the given round trips. *)
Definition serving (rts : nat -> roundTrip) : World :=
  mkWorld None (fun _ => None) rts.

(** A server that answers a list of status codes in order, then 200. *)
Definition answering (rs : list Response) : World :=
  serving (fun n => rtResp (nth n rs response200)).

Definition always500 : World := serving (fun _ => rtResp response500).

(** A context cancelled while the call waits for the limiter. *)
Definition cancelled : World :=
  mkWorld (Some (errorString "context canceled")) (fun _ => None)
    (fun _ => rtResp response200).

(** A refused connection, as the transport reports it. *)
Definition connectionRefused : error :=
  URLError "Post" "https://api.example.com"
    (OpError "dial" "tcp" (SyscallError "connect" (Errno ECONNREFUSED))).

(** The errors of the classifier's test file. *)
Definition timeoutError : error := customError "timeout" (Some true) (Some false).
Definition temporaryError : error := customError "temporary" (Some false) (Some true).

(** The decoder of a host status answer that lists no host. *)
Definition unmarshalNoHosts (data : string) (v : WormlyHostStatusResponse)
    : WormlyHostStatusResponse * option error :=
  (mkHostStatusResponse 0 [], None).

(** The state of a host resource whose ID is 5. *)
Definition host5 : provider.hostResourceModel :=
  provider.mkHostModel "5" "web" 60 true.


(** A fresh period, and one that already holds ID 7. *)
Definition zeroPeriod : ScheduledDowntimePeriod := mkPeriod 0 0 "" "" "" "" "".
Definition period7 : ScheduledDowntimePeriod := mkPeriod 7 456 "22:00" "06:00" "GMT" "DAILY" "".


(** A decoder for a target without fields. *)
Definition unmarshalUnit (data : string) (v : unit) : unit * option error := (v, None).

End scenario.

(** ** Part IV. Properties *)

Import Go client.

(** ** Part IV-b. Package client: the operations built on the executor

    The remaining functions of host.go, sensor_http.go,
    scheduled_downtime_period.go and global_alerts_mute.go. Each takes the
    decoder of its response type as [unmarshal]. The wall-clock stamps of
    the records ([time.Now()]) are left out, as in [Host]. *)

Module api.
Import Go client.

(** [func (c *Client) DebugLog(format, v...)] *)
Definition DebugLog (c : Client) (format : string) (args : list logArg) : M unit :=
  if debugEnabled c then tell (EvLog ("[DEBUG] " ++ format) args) else ret tt.

(** [fmt.Errorf("API returned error code %d: %s", code, message)] *)
Definition apiError (code : Z) (message : string) : error :=
  errorString ("API returned error code " ++ Itoa code ++ ": " ++ message).

(** [fmt.Errorf("API returned error code %d", code)] *)
Definition apiErrorCode (code : Z) : error :=
  errorString ("API returned error code " ++ Itoa code).

(** *** Hosts *)

Record WormlyHostResponse : Type := mkHostResponse {
  HR_ErrorCode : Z;
  HR_Message : string;
  HR_HostID : Z;
  HR_DataID : Z;
  HR_DataName : string;
  HR_DataEnabled : bool
}.

Definition zeroHostResponse : WormlyHostResponse :=
  mkHostResponse 0 "" 0 0 "" false.

Definition hostDecoder : Type :=
  string -> WormlyHostResponse -> WormlyHostResponse * option error.

(** [CreateHost] *)
Definition CreateHost (unmarshal : hostDecoder) (c : Client) (w : World)
    (name : string) (testInterval : Z) (enabled : bool) : M (result Host) :=
  let params : gmap string string :=
    <["name" := name]> {[ "testinterval" := Itoa testInterval ]} in
  r <- makeFormRequest unmarshal c w "createHost" params (Some zeroHostResponse) ;;
  match snd r with
  | Some err => ret (Err (Errorf_w "failed to create host: " (Some err)))
  | None =>
      let response := default zeroHostResponse (fst r) in
      if negb (HR_ErrorCode response =? 0) then
        DebugLog c "CreateHost API error response: %+v"
          [argInt (HR_ErrorCode response); argString (HR_Message response);
           argInt (HR_HostID response)] ;;;
        ret (Err (apiError (HR_ErrorCode response) (HR_Message response)))
      else ret (Ok (mkHost (HR_HostID response) name testInterval enabled))
  end.

(** [DeleteHost] *)
Definition DeleteHost (unmarshal : hostDecoder) (c : Client) (w : World)
    (id : Z) : M (option error) :=
  let params : gmap string string := {[ "hostid" := Itoa id ]} in
  r <- makeFormRequest unmarshal c w "deleteHost" params (Some zeroHostResponse) ;;
  match snd r with
  | Some err => ret (Some (Errorf_w "failed to delete host: " (Some err)))
  | None =>
      let response := default zeroHostResponse (fst r) in
      if negb (HR_ErrorCode response =? 0)
      then ret (Some (apiError (HR_ErrorCode response) (HR_Message response)))
      else ret None
  end.

(** [DisableHostUptimeMonitoring] *)
Definition DisableHostUptimeMonitoring (unmarshal : hostDecoder) (c : Client)
    (w : World) (hostID : Z) : M (option error) :=
  let params : gmap string string := {[ "hostid" := Itoa hostID ]} in
  r <- makeFormRequest unmarshal c w "disableHostUptimeMonitoring" params
         (Some zeroHostResponse) ;;
  match snd r with
  | Some err =>
      ret (Some (Errorf_w "failed to disable host uptime monitoring: " (Some err)))
  | None =>
      let response := default zeroHostResponse (fst r) in
      if negb (HR_ErrorCode response =? 0)
      then ret (Some (apiError (HR_ErrorCode response) (HR_Message response)))
      else ret None
  end.

(** [EnableHostUptimeMonitoring] *)
Definition EnableHostUptimeMonitoring (unmarshal : hostDecoder) (c : Client)
    (w : World) (hostID : Z) : M (option error) :=
  let params : gmap string string := {[ "hostid" := Itoa hostID ]} in
  r <- makeFormRequest unmarshal c w "enableHostUptimeMonitoring" params
         (Some zeroHostResponse) ;;
  match snd r with
  | Some err =>
      ret (Some (Errorf_w "failed to enable host uptime monitoring: " (Some err)))
  | None =>
      let response := default zeroHostResponse (fst r) in
      if negb (HR_ErrorCode response =? 0)
      then ret (Some (apiError (HR_ErrorCode response) (HR_Message response)))
      else ret None
  end.

(** *** Global alert mute *)

Record GlobalAlertMuteResponse : Type := mkMuteResponse {
  GM_ErrorCode : Z
}.

(** [SetGlobalAlertMute] *)
Definition SetGlobalAlertMute
    (unmarshal : string -> GlobalAlertMuteResponse
                 -> GlobalAlertMuteResponse * option error)
    (c : Client) (w : World) (enabled : bool) : M (option error) :=
  let alertsMuted := if enabled then "1" else "0" in
  let params : gmap string string := {[ "alertsmuted" := alertsMuted ]} in
  r <- makeFormRequest unmarshal c w "setGlobalAlertMute" params
         (Some (mkMuteResponse 0)) ;;
  match snd r with
  | Some err => ret (Some (Errorf_w "failed to set global alert mute: " (Some err)))
  | None =>
      let response := default (mkMuteResponse 0) (fst r) in
      if negb (GM_ErrorCode response =? 0)
      then ret (Some (apiErrorCode (GM_ErrorCode response)))
      else ret None
  end.

(** *** Scheduled downtime periods *)

Record WormlyScheduledDowntimePeriodResponse : Type := mkPeriodResponse {
  PR_ErrorCode : Z;
  PR_Message : string;
  PR_PeriodID : Z
}.

Definition zeroPeriodResponse : WormlyScheduledDowntimePeriodResponse :=
  mkPeriodResponse 0 "" 0.

Definition periodDecoder : Type :=
  string -> WormlyScheduledDowntimePeriodResponse
  -> WormlyScheduledDowntimePeriodResponse * option error.

Record WormlyGetScheduledDowntimePeriodsResponse : Type := mkPeriodsResponse {
  PS_ErrorCode : Z;
  PS_Periods : list ScheduledDowntimePeriod
}.

Definition periodsDecoder : Type :=
  string -> WormlyGetScheduledDowntimePeriodsResponse
  -> WormlyGetScheduledDowntimePeriodsResponse * option error.

(** [CreateScheduledDowntimePeriod] *)
Definition CreateScheduledDowntimePeriod (unmarshal : periodDecoder) (c : Client)
    (w : World) (hostID : Z) (start end_ timezone recurrence on : string)
    : M (result ScheduledDowntimePeriod) :=
  let params : gmap string string :=
    <["hostid" := Itoa hostID]> (<["start" := start]> (<["end" := end_]>
      (<["timezone" := timezone]> {[ "recurrence" := recurrence ]}))) in
  let params := if negb (String.eqb on "") then <["on" := on]> params else params in
  r <- makeFormRequest unmarshal c w "setScheduledDowntimePeriod" params
         (Some zeroPeriodResponse) ;;
  match snd r with
  | Some err =>
      ret (Err (Errorf_w "failed to create scheduled downtime period: " (Some err)))
  | None =>
      let response := default zeroPeriodResponse (fst r) in
      if negb (PR_ErrorCode response =? 0) then
        DebugLog c "CreateScheduledDowntimePeriod API error response: %+v"
          [argInt (PR_ErrorCode response); argString (PR_Message response);
           argInt (PR_PeriodID response)] ;;;
        ret (Err (apiError (PR_ErrorCode response) (PR_Message response)))
      else
        ret (Ok (mkPeriod (PR_PeriodID response) hostID start end_ timezone
                   recurrence on))
  end.

(** [UpdateScheduledDowntimePeriod] *)
Definition UpdateScheduledDowntimePeriod (unmarshal : periodDecoder) (c : Client)
    (w : World) (hostID periodID : Z) (start end_ timezone recurrence on : string)
    : M (result ScheduledDowntimePeriod) :=
  let params : gmap string string :=
    <["hostid" := Itoa hostID]> (<["periodid" := Itoa periodID]>
      (<["start" := start]> (<["end" := end_]>
        (<["timezone" := timezone]> {[ "recurrence" := recurrence ]})))) in
  let params := if negb (String.eqb on "") then <["on" := on]> params else params in
  r <- makeFormRequest unmarshal c w "setScheduledDowntimePeriod" params
         (Some zeroPeriodResponse) ;;
  match snd r with
  | Some err =>
      ret (Err (Errorf_w "failed to update scheduled downtime period: " (Some err)))
  | None =>
      let response := default zeroPeriodResponse (fst r) in
      if negb (PR_ErrorCode response =? 0) then
        DebugLog c "UpdateScheduledDowntimePeriod API error response: %+v"
          [argInt (PR_ErrorCode response); argString (PR_Message response);
           argInt (PR_PeriodID response)] ;;;
        ret (Err (apiError (PR_ErrorCode response) (PR_Message response)))
      else
        ret (Ok (mkPeriod (PR_PeriodID response) hostID start end_ timezone
                   recurrence on))
  end.

(** [DeleteScheduledDowntimePeriod] *)
Definition DeleteScheduledDowntimePeriod (unmarshal : periodDecoder) (c : Client)
    (w : World) (hostID periodID : Z) : M (option error) :=
  let params : gmap string string :=
    <["hostid" := Itoa hostID]> {[ "periodid" := Itoa periodID ]} in
  r <- makeFormRequest unmarshal c w "deleteScheduledDowntimePeriod" params
         (Some zeroPeriodResponse) ;;
  match snd r with
  | Some err =>
      ret (Some (Errorf_w "failed to delete scheduled downtime period: " (Some err)))
  | None =>
      let response := default zeroPeriodResponse (fst r) in
      if negb (PR_ErrorCode response =? 0)
      then ret (Some (apiError (PR_ErrorCode response) (PR_Message response)))
      else ret None
  end.

(** [response.Periods[i].HostID = hostID] *)
Definition setHostID (hostID : Z) (p : ScheduledDowntimePeriod)
    : ScheduledDowntimePeriod :=
  mkPeriod (SDP_ID p) hostID (SDP_Start p) (SDP_End p) (SDP_Timezone p)
    (SDP_Recurrence p) (SDP_On p).

(** [GetScheduledDowntimePeriods] *)
Definition GetScheduledDowntimePeriods (unmarshal : periodsDecoder) (c : Client)
    (w : World) (hostID : Z) : M (result (list ScheduledDowntimePeriod)) :=
  let params : gmap string string := {[ "hostid" := Itoa hostID ]} in
  r <- makeFormRequest unmarshal c w "getScheduledDowntimePeriods" params
         (Some (mkPeriodsResponse 0 [])) ;;
  match snd r with
  | Some err =>
      ret (Err (Errorf_w "failed to get scheduled downtime periods: " (Some err)))
  | None =>
      let response := default (mkPeriodsResponse 0 []) (fst r) in
      if negb (PS_ErrorCode response =? 0)
      then ret (Err (apiErrorCode (PS_ErrorCode response)))
      else ret (Ok (List.map (setHostID hostID) (PS_Periods response)))
  end.

(** [fmt.Errorf("scheduled downtime period with ID %d not found", periodID)] *)
Definition periodNotFound (periodID : Z) : error :=
  errorString ("scheduled downtime period with ID " ++ Itoa periodID ++ " not found").

(** [GetScheduledDowntimePeriod] *)
Definition GetScheduledDowntimePeriod (unmarshal : periodsDecoder) (c : Client)
    (w : World) (hostID periodID : Z) : M (result ScheduledDowntimePeriod) :=
  r <- GetScheduledDowntimePeriods unmarshal c w hostID ;;
  match r with
  | Err err =>
      ret (Err (Errorf_w "failed to get scheduled downtime periods: " (Some err)))
  | Ok periods =>
      match List.find (fun period => SDP_ID period =? periodID) periods with
      | Some period => ret (Ok period)
      | None => ret (Err (periodNotFound periodID))
      end
  end.

(** *** HTTP sensors *)

Record SensorHTTP : Type := mkSensorHTTP {
  SH_ID : Z;
  SH_HostID : Z;
  SH_URL : string;
  SH_NiceName : string;
  SH_Enabled : bool;
  SH_Timeout : Z;
  SH_ResponseCode : string;
  SH_VerifySSLCert : bool;
  SH_SearchHeaders : bool;
  SH_ExpectedText : string;
  SH_UnwantedText : string;
  SH_SSLValidity : Z;
  SH_Cookies : string;
  SH_PostParams : string;
  SH_CustomRequestHeaders : string;
  SH_UserAgent : string;
  SH_ForceResolve : string
}.

Record SensorHTTPCreateRequest : Type := mkSensorHTTPCreateRequest {
  CR_HostID : Z;
  CR_URL : string;
  CR_NiceName : string;
  CR_Timeout : Z;
  CR_ResponseCode : string;
  CR_VerifySSLCert : bool;
  CR_SearchHeaders : bool;
  CR_ExpectedText : string;
  CR_UnwantedText : string;
  CR_SSLValidity : Z;
  CR_Cookies : string;
  CR_PostParams : string;
  CR_CustomRequestHeaders : string;
  CR_UserAgent : string;
  CR_ForceResolve : string
}.

Record WormlyHTTPSensorResponse : Type := mkSensorResponse {
  SR_ErrorCode : Z;
  SR_Message : string;
  SR_HostSensorID : Z
}.

Definition zeroSensorResponse : WormlyHTTPSensorResponse := mkSensorResponse 0 "" 0.

Definition sensorDecoder : Type :=
  string -> WormlyHTTPSensorResponse -> WormlyHTTPSensorResponse * option error.

(** The parameter map of [CreateSensorHTTP], statement by statement. *)
Definition sensorCreateParams (req : SensorHTTPCreateRequest) : gmap string string :=
  let params : gmap string string :=
    <["hostid" := Itoa (CR_HostID req)]> {[ "url" := CR_URL req ]} in
  let params := if negb (String.eqb (CR_NiceName req) "")
                then <["nicename" := CR_NiceName req]> params else params in
  let params := if CR_Timeout req >? 0
                then <["timeout" := Itoa (CR_Timeout req)]> params else params in
  let params := if negb (String.eqb (CR_ResponseCode req) "")
                then <["responsecode" := CR_ResponseCode req]> params else params in
  let params := if CR_VerifySSLCert req
                then <["verifysslcert" := "1"]> params
                else <["verifysslcert" := "0"]> params in
  let params := if CR_SearchHeaders req
                then <["searchheaders" := "1"]> params
                else <["searchheaders" := "0"]> params in
  let params := if negb (String.eqb (CR_ExpectedText req) "")
                then <["expectedtext" := CR_ExpectedText req]> params else params in
  let params := if negb (String.eqb (CR_UnwantedText req) "")
                then <["unwantedtext" := CR_UnwantedText req]> params else params in
  let params := if CR_SSLValidity req >? 0
                then <["sslvalidity" := Itoa (CR_SSLValidity req)]> params else params in
  let params := if negb (String.eqb (CR_Cookies req) "")
                then <["cookies" := CR_Cookies req]> params else params in
  let params := if negb (String.eqb (CR_PostParams req) "")
                then <["postparams" := CR_PostParams req]> params else params in
  let params := if negb (String.eqb (CR_CustomRequestHeaders req) "")
                then <["customrequestheaders" := CR_CustomRequestHeaders req]> params
                else params in
  let params := if negb (String.eqb (CR_UserAgent req) "")
                then <["useragent" := CR_UserAgent req]> params else params in
  if negb (String.eqb (CR_ForceResolve req) "")
  then <["forceresolve" := CR_ForceResolve req]> params else params.

(** [CreateSensorHTTP] *)
Definition CreateSensorHTTP (unmarshal : sensorDecoder) (c : Client) (w : World)
    (req : SensorHTTPCreateRequest) : M (result SensorHTTP) :=
  r <- makeFormRequest unmarshal c w "addHostSensor_HTTP" (sensorCreateParams req)
         (Some zeroSensorResponse) ;;
  match snd r with
  | Some err => ret (Err (Errorf_w "failed to create HTTP sensor: " (Some err)))
  | None =>
      let response := default zeroSensorResponse (fst r) in
      if negb (SR_ErrorCode response =? 0)
      then ret (Err (apiError (SR_ErrorCode response) (SR_Message response)))
      else
        ret (Ok (mkSensorHTTP (SR_HostSensorID response) (CR_HostID req) (CR_URL req)
                   (CR_NiceName req) true (CR_Timeout req) (CR_ResponseCode req)
                   (CR_VerifySSLCert req) (CR_SearchHeaders req)
                   (CR_ExpectedText req) (CR_UnwantedText req) (CR_SSLValidity req)
                   (CR_Cookies req) (CR_PostParams req) (CR_CustomRequestHeaders req)
                   (CR_UserAgent req) (CR_ForceResolve req)))
  end.

(** [DeleteSensorHTTP], [EnableSensorHTTP] and [DisableSensorHTTP] *)
Definition DeleteSensorHTTP (unmarshal : sensorDecoder) (c : Client) (w : World)
    (sensorID : Z) : M (option error) :=
  let params : gmap string string := {[ "hsid" := Itoa sensorID ]} in
  r <- makeFormRequest unmarshal c w "deleteSensor" params (Some zeroSensorResponse) ;;
  match snd r with
  | Some err => ret (Some (Errorf_w "failed to delete HTTP sensor: " (Some err)))
  | None =>
      let response := default zeroSensorResponse (fst r) in
      if negb (SR_ErrorCode response =? 0)
      then ret (Some (apiError (SR_ErrorCode response) (SR_Message response)))
      else ret None
  end.

Definition EnableSensorHTTP (unmarshal : sensorDecoder) (c : Client) (w : World)
    (hsid : Z) : M (option error) :=
  let params : gmap string string := {[ "hsid" := Itoa hsid ]} in
  r <- makeFormRequest unmarshal c w "enableSensor" params (Some zeroSensorResponse) ;;
  match snd r with
  | Some err => ret (Some (Errorf_w "failed to enable HTTP sensor: " (Some err)))
  | None =>
      let response := default zeroSensorResponse (fst r) in
      if negb (SR_ErrorCode response =? 0)
      then ret (Some (apiError (SR_ErrorCode response) (SR_Message response)))
      else ret None
  end.

Definition DisableSensorHTTP (unmarshal : sensorDecoder) (c : Client) (w : World)
    (hsid : Z) : M (option error) :=
  let params : gmap string string := {[ "hsid" := Itoa hsid ]} in
  r <- makeFormRequest unmarshal c w "disableSensor" params (Some zeroSensorResponse) ;;
  match snd r with
  | Some err => ret (Some (Errorf_w "failed to disable HTTP sensor: " (Some err)))
  | None =>
      let response := default zeroSensorResponse (fst r) in
      if negb (SR_ErrorCode response =? 0)
      then ret (Some (apiError (SR_ErrorCode response) (SR_Message response)))
      else ret None
  end.

(** *** Words for the properties of these operations *)

(** Some attempt was answered 2xx with a body that reads in full and that
    [unmarshal] decodes from [zero] without error to a value on which [code]
    is 0. *)
Definition answeredZero {R : Type} (unmarshal : string -> R -> R * option error)
    (zero : R) (code : R -> Z) (w : World) : Prop :=
  exists (n : nat) (resp : Response),
    roundTrips w n = rtResp resp
    /\ 200 <= StatusCode resp < 300
    /\ BodyErr resp = None
    /\ snd (unmarshal (Body resp) zero) = None
    /\ code (fst (unmarshal (Body resp) zero)) = 0.

(** The form of request [q] names [command] and the client's key, asks for
    JSON, and holds [k = v]. *)
Definition carries (c : Client) (q : Request) (command k v : string) : Prop :=
  Form q !! "cmd" = Some command
  /\ Form q !! "key" = Some (apiKey c)
  /\ Form q !! "response" = Some "json"
  /\ Form q !! k = Some v.

(** The call gets through to attempt [k], and that attempt is answered by
    [resp]: the limiter grants its token, the base URL is well formed, every
    attempt before [k] has a transient outcome, [k] is within the retries,
    and [resp] is a 2xx response whose body reads in full and that
    [unmarshal] decodes from [zero] without error. *)
Definition answeredAt {R : Type} (unmarshal : string -> R -> R * option error)
    (zero : R) (c : Client) (w : World) (k : nat) (resp : Response) : Prop :=
  limiterWait w = None
  /\ parseURL w (baseURL c) = None
  /\ 0 <= maxRetries c
  /\ (k <= Z.to_nat (maxRetries c))%nat
  /\ (forall n : nat, (n < k)%nat -> transientOutcome (roundTrips w n) = true)
  /\ roundTrips w k = rtResp resp
  /\ 200 <= StatusCode resp < 300
  /\ BodyErr resp = None
  /\ snd (unmarshal (Body resp) zero) = None.

End api.

(** ** Part IV-c. Package provider: the resources and the plugin framework *)

Module tf.

(** A value of [types.String], [types.Int64] or [types.Bool]: null, unknown,
    or known. *)
Inductive attr (A : Type) : Type :=
| Null
| Unknown
| Value (a : A).

Arguments Null {A}.
Arguments Unknown {A}.
Arguments Value {A} a.

(** [ValueString()], [ValueInt64()] and [ValueBool()]: the known value, and
    the zero value of the type for null and unknown. *)
Definition ValueString (v : attr string) : string :=
  match v with Value s => s | _ => "" end.

Definition ValueInt64 (v : attr Z) : Z :=
  match v with Value n => n | _ => 0 end.

Definition ValueBool (v : attr bool) : bool :=
  match v with Value b => b | _ => false end.

(** [a.Equal(b)] on [types.Bool]: the same state, and for known values the
    same value. *)
Definition BoolEqual (a b : attr bool) : bool :=
  match a, b with
  | Null, Null => true
  | Unknown, Unknown => true
  | Value x, Value y => Bool.eqb x y
  | _, _ => false
  end.

(** What an operation did to [resp.State]: nothing, [RemoveResource], or
    [Set] with a model. *)
Inductive change (M : Type) : Type :=
| Untouched
| Removed
| Saved (m : M).

Arguments Untouched {M}.
Arguments Removed {M}.
Arguments Saved {M} m.

End tf.

Module hostResource.
Import Go tf.

(** [hostResourceModel], with the attribute values as the framework holds
    them. *)
Record Model : Type := mkModel {
  ID : attr string;
  Name : attr string;
  TestInterval : attr Z;
  Enabled : attr bool
}.

(** The methods of [client.HostAPI] that [Create], [Update] and [Delete]
    call: what each returns for its arguments. Each operation calls a method
    at most once. *)
Record API : Type := mkAPI {
  CreateHost : string -> Z -> bool -> client.result client.Host;
  DeleteHost : Z -> option error;
  DisableHostUptimeMonitoring : Z -> option error;
  EnableHostUptimeMonitoring : Z -> option error
}.

(** A call an operation made on the API, with its arguments. *)
Inductive call : Type :=
| CallCreateHost (name : string) (testInterval : Z) (enabled : bool)
| CallDeleteHost (id : Z)
| CallDisable (id : Z)
| CallEnable (id : Z).

(** What an operation leaves behind: the state, the error diagnostics, and
    the calls it made, in order. *)
Record Response : Type := mkResponse {
  State : change Model;
  Diagnostics : list provider.Diagnostic;
  Calls : list call
}.

Definition clientError (text : string) (err : error) : provider.Diagnostic :=
  provider.mkDiagnostic "Client Error" (text ++ Error err).

(** [hostResource.Create]; [planDiags] are the diagnostics of
    [req.Plan.Get]. *)
Definition Create (api : API) (plan : Model) (planDiags : list provider.Diagnostic)
    : Response :=
  match planDiags with
  | _ :: _ => mkResponse Untouched planDiags []
  | [] =>
      let create :=
        CallCreateHost (ValueString (Name plan)) (ValueInt64 (TestInterval plan))
          (ValueBool (Enabled plan)) in
      match CreateHost api (ValueString (Name plan)) (ValueInt64 (TestInterval plan))
              (ValueBool (Enabled plan)) with
      | client.Err err =>
          mkResponse Untouched
            [clientError "Unable to create host, got error: " err] [create]
      | client.Ok host =>
          let data (enabled : bool) :=
            mkModel (Value (Itoa (client.Host_ID host)))
              (Value (client.Host_Name host))
              (Value (client.Host_TestInterval host)) (Value enabled) in
          if ValueBool (Enabled plan) then
            match EnableHostUptimeMonitoring api (client.Host_ID host) with
            | Some err =>
                mkResponse Untouched
                  [clientError "Unable to enable host uptime monitoring: " err]
                  [create; CallEnable (client.Host_ID host)]
            | None =>
                mkResponse (Saved (data true)) []
                  [create; CallEnable (client.Host_ID host)]
            end
          else
            match DisableHostUptimeMonitoring api (client.Host_ID host) with
            | Some err =>
                mkResponse Untouched
                  [clientError "Unable to disable host uptime monitoring: " err]
                  [create; CallDisable (client.Host_ID host)]
            | None =>
                mkResponse (Saved (data false)) []
                  [create; CallDisable (client.Host_ID host)]
            end
      end
  end.

(** [hostResource.Update]; [planDiags] and [stateDiags] are the diagnostics
    of [req.Plan.Get] and [req.State.Get]. *)
Definition Update (api : API) (plan state : Model)
    (planDiags stateDiags : list provider.Diagnostic) : Response :=
  match planDiags with
  | _ :: _ => mkResponse Untouched planDiags []
  | [] =>
      match stateDiags with
      | _ :: _ => mkResponse Untouched stateDiags []
      | [] =>
          match Atoi (ValueString (ID state)) with
          | (_, Some err) =>
              mkResponse Untouched
                [provider.mkDiagnostic "Parse Error"
                   ("Unable to parse host ID: " ++ Error err)] []
          | (id, None) =>
              let updatedState :=
                mkModel (ID state) (Name state) (TestInterval state)
                  (Enabled plan) in
              if negb (BoolEqual (Enabled plan) (Enabled state)) then
                if negb (ValueBool (Enabled plan)) then
                  match DisableHostUptimeMonitoring api id with
                  | Some err =>
                      mkResponse Untouched
                        [clientError "Unable to disable host uptime monitoring: "
                           err]
                        [CallDisable id]
                  | None => mkResponse (Saved updatedState) [] [CallDisable id]
                  end
                else
                  match EnableHostUptimeMonitoring api id with
                  | Some err =>
                      mkResponse Untouched
                        [clientError "Unable to enable host uptime monitoring: "
                           err]
                        [CallEnable id]
                  | None => mkResponse (Saved updatedState) [] [CallEnable id]
                  end
              else mkResponse (Saved updatedState) [] []
          end
      end
  end.

(** [hostResource.Delete]; [stateDiags] are the diagnostics of
    [req.State.Get]. *)
Definition Delete (api : API) (state : Model)
    (stateDiags : list provider.Diagnostic) : Response :=
  match stateDiags with
  | _ :: _ => mkResponse Untouched stateDiags []
  | [] =>
      match Atoi (ValueString (ID state)) with
      | (_, Some err) =>
          mkResponse Untouched
            [provider.mkDiagnostic "Parse Error"
               ("Unable to parse host ID: " ++ Error err)] []
      | (id, None) =>
          match DeleteHost api id with
          | Some err =>
              mkResponse Untouched
                [clientError "Unable to delete host, got error: " err]
                [CallDeleteHost id]
          | None => mkResponse Untouched [] [CallDeleteHost id]
          end
      end
  end.

End hostResource.

Module periodResource.
Import Go tf.

(** [scheduledDowntimePeriodResourceModel] *)
Record Model : Type := mkModel {
  ID : attr string;
  HostID : attr Z;
  Start : attr string;
  End_ : attr string;
  Timezone : attr string;
  Recurrence : attr string;
  On : attr string
}.

(** The methods of [client.ScheduledDowntimePeriodAPI] that [Read] and
    [Update] call. Each operation calls one method, once. *)
Record API : Type := mkAPI {
  GetScheduledDowntimePeriod :
    Z -> Z -> client.result client.ScheduledDowntimePeriod;
  UpdateScheduledDowntimePeriod :
    Z -> Z -> string -> string -> string -> string -> string
    -> client.result client.ScheduledDowntimePeriod
}.

Record Response : Type := mkResponse {
  State : change Model;
  Diagnostics : list provider.Diagnostic
}.

(** The model after the fields of [period] have been copied into it; [id]
    is what the operation leaves in [ID]. *)
Definition fromPeriod (id : attr string) (period : client.ScheduledDowntimePeriod)
    : Model :=
  mkModel id (Value (client.SDP_HostID period)) (Value (client.SDP_Start period))
    (Value (client.SDP_End period)) (Value (client.SDP_Timezone period))
    (Value (client.SDP_Recurrence period))
    (if negb (String.eqb (client.SDP_On period) "")
     then Value (client.SDP_On period) else Null).

(** [scheduledDowntimePeriodResource.Read]; [stateDiags] are the
    diagnostics of [req.State.Get]. *)
Definition Read (api : API) (prior : Model) (stateDiags : list provider.Diagnostic)
    : Response :=
  match stateDiags with
  | _ :: _ => mkResponse Untouched stateDiags
  | [] =>
      match Atoi (ValueString (ID prior)) with
      | (_, Some err) =>
          mkResponse Untouched
            [provider.mkDiagnostic "Parse Error"
               ("Unable to parse scheduled downtime period ID: " ++ Error err)]
      | (id, None) =>
          match GetScheduledDowntimePeriod api (ValueInt64 (HostID prior)) id with
          | client.Err err =>
              if provider.isNotFoundError (Some err) then mkResponse Removed []
              else
                mkResponse Untouched
                  [provider.mkDiagnostic "Client Error"
                     ("Unable to read scheduled downtime period, got error: "
                        ++ Error err)]
          | client.Ok period =>
              mkResponse (Saved (fromPeriod (ID prior) period)) []
          end
      end
  end.

(** [scheduledDowntimePeriodResource.Update] *)
Definition Update (api : API) (plan state : Model)
    (planDiags stateDiags : list provider.Diagnostic) : Response :=
  match planDiags with
  | _ :: _ => mkResponse Untouched planDiags
  | [] =>
      match stateDiags with
      | _ :: _ => mkResponse Untouched stateDiags
      | [] =>
          match Atoi (ValueString (ID state)) with
          | (_, Some err) =>
              mkResponse Untouched
                [provider.mkDiagnostic "Parse Error"
                   ("Unable to parse scheduled downtime period ID: "
                      ++ Error err)]
          | (id, None) =>
              match UpdateScheduledDowntimePeriod api (ValueInt64 (HostID plan)) id
                      (ValueString (Start plan)) (ValueString (End_ plan))
                      (ValueString (Timezone plan)) (ValueString (Recurrence plan))
                      (ValueString (On plan)) with
              | client.Err err =>
                  mkResponse Untouched
                    [provider.mkDiagnostic "Client Error"
                       ("Unable to update scheduled downtime period, got error: "
                          ++ Error err)]
              | client.Ok period =>
                  mkResponse
                    (Saved (fromPeriod (Value (Itoa (client.SDP_ID period))) period))
                    []
              end
          end
      end
  end.

(** The API as the real client provides it. *)
Definition clientAPI (unmarshalPeriods : api.periodsDecoder)
    (unmarshalPeriod : api.periodDecoder) (c : client.Client) (w : client.World)
    : API :=
  mkAPI
    (fun hostID periodID =>
       snd (api.GetScheduledDowntimePeriod unmarshalPeriods c w hostID periodID))
    (fun hostID periodID start end_ timezone recurrence on =>
       snd (api.UpdateScheduledDowntimePeriod unmarshalPeriod c w hostID periodID
              start end_ timezone recurrence on)).

End periodResource.

(** ** More scenarios *)

Module served.
Import Go client api.

(** The decoder of a host answer with the given error code and host ID. *)
Definition hostAnswer (code hostID : Z) (message : string) : hostDecoder :=
  fun _ _ => (mkHostResponse code message hostID 0 "" false, None).

(** The decoder of a status answer that lists the given entries. *)
Definition statusAnswer (entries : list HostStatus)
    : string -> WormlyHostStatusResponse -> WormlyHostStatusResponse * option error :=
  fun _ _ => (mkHostStatusResponse 0 entries, None).

Definition entry (id : Z) (name : string) (uptime health : bool) : HostStatus :=
  mkHostStatus id name uptime health false false None None None.

(** The decoder of a period list answer. *)
Definition periodsAnswer (code : Z) (periods : list ScheduledDowntimePeriod)
    : periodsDecoder :=
  fun _ _ => (mkPeriodsResponse code periods, None).

(** The decoder of a period answer. *)
Definition periodAnswer (code periodID : Z) (message : string) : periodDecoder :=
  fun _ _ => (mkPeriodResponse code message periodID, None).

(** The decoder of a sensor answer. *)
Definition sensorAnswer (code hsid : Z) (message : string) : sensorDecoder :=
  fun _ _ => (mkSensorResponse code message hsid, None).

(** The decoder of a mute answer. *)
Definition muteAnswer (code : Z)
    : string -> GlobalAlertMuteResponse -> GlobalAlertMuteResponse * option error :=
  fun _ _ => (mkMuteResponse code, None).

(** A server that answers 200 to the first request. *)
Definition ok200 : World := scenario.answering [scenario.response200].

(** A host API that creates host 42 and accepts every other call. *)
Definition hostAPI42 : hostResource.API :=
  hostResource.mkAPI (fun name testInterval enabled =>
                        Ok (mkHost 42 name testInterval enabled))
    (fun _ => None) (fun _ => None) (fun _ => None).

(** The plan of a new host, and the state of host 42. *)
Definition planWeb (enabled : bool) : hostResource.Model :=
  hostResource.mkModel tf.Unknown (tf.Value "web") (tf.Value 60) (tf.Value enabled).

Definition stateWeb (enabled : bool) : hostResource.Model :=
  hostResource.mkModel (tf.Value "42") (tf.Value "web") (tf.Value 60)
    (tf.Value enabled).

(** The state of period 7 of host 9, and a plan that moves its start. *)
Definition statePeriod7 : periodResource.Model :=
  periodResource.mkModel (tf.Value "7") (tf.Value 9) (tf.Value "22:00")
    (tf.Value "06:00") (tf.Value "GMT") (tf.Value "DAILY") tf.Null.

Definition planPeriod7 : periodResource.Model :=
  periodResource.mkModel (tf.Value "7") (tf.Value 9) (tf.Value "23:00")
    (tf.Value "06:00") (tf.Value "GMT") (tf.Value "DAILY") tf.Null.

(** A plan that renames host 42 and switches its monitoring off. *)
Definition planRenamed : hostResource.Model :=
  hostResource.mkModel tf.Unknown (tf.Value "db") (tf.Value 300) (tf.Value false).

End served.

(** ** Part V. What a trace shows *)

Module events.
Import Go client.

Definition isClose (e : event) : bool :=
  match e with EvClose => true | _ => false end.

Definition isLog (e : event) : bool :=
  match e with EvLog _ _ => true | _ => false end.

(** The number of bodies closed. *)
Definition closes (tr : list event) : nat := length (List.filter isClose tr).

(** The requests handed to the transport, in order. *)
Fixpoint sent (tr : list event) : list Request :=
  match tr with
  | [] => []
  | EvDo req :: tr' => req :: sent tr'
  | _ :: tr' => sent tr'
  end.

Definition isResponse (rt : roundTrip) : bool :=
  match rt with rtResp _ => true | rtErr _ => false end.

Definition oneIf (b : bool) : nat := if b then 1%nat else 0%nat.

(** How many of the [n] round trips from number [a] on returned a response. *)
Definition responsesIn (w : World) (a n : nat) : nat :=
  length (List.filter isResponse (List.map (roundTrips w) (seq a n))).

End events.

(** Rewriting a trace of binds into its pieces. *)
Create Rewrite HintDb trace.

Ltac trace := autorewrite with trace; cbn [fst snd tell ret requests acquisitions
  sleeps List.filter isDo isWait length app Nat.add].

(** *** Traces *)

Lemma bind_fst {A B : Type} (m : M A) (k : A -> M B) :
  fst (bind m k) = (fst m ++ fst (k (snd m)))%list.
Proof. reflexivity. Qed.

Lemma bind_snd {A B : Type} (m : M A) (k : A -> M B) :
  snd (bind m k) = snd (k (snd m)).
Proof. reflexivity. Qed.

Lemma requests_app (t1 t2 : list event) :
  requests (t1 ++ t2) = (requests t1 + requests t2)%nat.
Proof. unfold requests. rewrite List.filter_app, length_app. reflexivity. Qed.

Lemma acquisitions_app (t1 t2 : list event) :
  acquisitions (t1 ++ t2) = (acquisitions t1 + acquisitions t2)%nat.
Proof. unfold acquisitions. rewrite List.filter_app, length_app. reflexivity. Qed.

Lemma sleeps_app (t1 t2 : list event) :
  sleeps (t1 ++ t2) = (sleeps t1 ++ sleeps t2)%list.
Proof.
  induction t1 as [|e t1 IH]; [reflexivity|].
  destruct e; simpl; rewrite IH; reflexivity.
Qed.

Lemma debugf_trace (c : Client) (format : string) (args : list logArg) :
  fst (debugf c format args) = [] \/ fst (debugf c format args) = [EvLog format args].
Proof. unfold debugf. destruct (debugEnabled c); [right|left]; reflexivity. Qed.

Lemma requests_debugf (c : Client) (format : string) (args : list logArg) :
  requests (fst (debugf c format args)) = 0%nat.
Proof. destruct (debugf_trace c format args) as [H|H]; rewrite H; reflexivity. Qed.

Lemma acquisitions_debugf (c : Client) (format : string) (args : list logArg) :
  acquisitions (fst (debugf c format args)) = 0%nat.
Proof. destruct (debugf_trace c format args) as [H|H]; rewrite H; reflexivity. Qed.

Lemma sleeps_debugf (c : Client) (format : string) (args : list logArg) :
  sleeps (fst (debugf c format args)) = [].
Proof. destruct (debugf_trace c format args) as [H|H]; rewrite H; reflexivity. Qed.

Lemma bodyUse_debugf (c : Client) (format : string) (args : list logArg) :
  List.filter isBodyUse (fst (debugf c format args)) = [].
Proof. destruct (debugf_trace c format args) as [H|H]; rewrite H; reflexivity. Qed.

#[local] Hint Rewrite @bind_fst @bind_snd requests_app acquisitions_app sleeps_app
  requests_debugf acquisitions_debugf sleeps_debugf : trace.


(** *** Header defaults *)

Lemma Header_Get_Set_other (r : Request) (k k' v : string) :
  k <> k' -> Header_Get (Header_Set r k v) k' = Header_Get r k'.
Proof.
  intros Hne. unfold Header_Get, Header_Set. cbn [Header].
  rewrite lookup_insert_ne by exact Hne. reflexivity.
Qed.

(** A header the caller has set is the one that is sent. *)
Lemma injectHeaders_keeps_Authorization (c : Client) (req : Request) :
  Header_Get req "Authorization" <> "" ->
  Header_Get (injectHeaders c req) "Authorization" = Header_Get req "Authorization".
Proof.
  intros Hset. unfold injectHeaders.
  apply String.eqb_neq in Hset. rewrite Hset.
  destruct (String.eqb (Header_Get req "User-Agent") "") eqn:E1.
  - destruct (String.eqb (Header_Get (Header_Set req "User-Agent" (userAgent c))
                           "Content-Type") "");
      rewrite ?Header_Get_Set_other by discriminate; reflexivity.
  - destruct (String.eqb (Header_Get req "Content-Type") "");
      rewrite ?Header_Get_Set_other by discriminate; reflexivity.
Qed.

(** *** The two loops *)

Section DoLoop.

Variables (c : Client) (w : World) (req : Request).

(** One turn of the loop of [Do] on a transient outcome, attempts left. *)
Lemma doLoop_retry (r : nat) (a : nat) (b : Duration) (le : option error) :
  transientOutcome (roundTrips w a) = true ->
  Z.of_nat a < maxRetries c ->
  requests (fst (doLoop c w req (S r) (Z.of_nat a) b le)) =
    S (requests (fst (doLoop c w req r (Z.of_nat (S a)) (calculateNextBackoff c b)
                        (Some (terminalError (roundTrips w a))))))
  /\ snd (doLoop c w req (S r) (Z.of_nat a) b le) =
     snd (doLoop c w req r (Z.of_nat (S a)) (calculateNextBackoff c b)
            (Some (terminalError (roundTrips w a))))
  /\ sleeps (fst (doLoop c w req (S r) (Z.of_nat a) b le)) =
     b :: sleeps (fst (doLoop c w req r (Z.of_nat (S a)) (calculateNextBackoff c b)
                         (Some (terminalError (roundTrips w a))))).
Proof.
  intros Ht Hlt.
  assert (Hs : Z.of_nat a + 1 = Z.of_nat (S a)) by lia.
  cbn [doLoop]. rewrite Nat2Z.id.
  apply Z.ltb_lt in Hlt.
  destruct (roundTrips w a) as [err|resp]; cbn [transientOutcome] in Ht;
    rewrite Ht, Hlt, Hs; trace; auto.
Qed.

(** One turn of the loop of [Do] on a transient outcome, no attempt left. *)
Lemma doLoop_last (r : nat) (a : nat) (b : Duration) (le : option error) :
  transientOutcome (roundTrips w a) = true ->
  Z.of_nat a = maxRetries c ->
  requests (fst (doLoop c w req (S r) (Z.of_nat a) b le)) = 1%nat
  /\ snd (doLoop c w req (S r) (Z.of_nat a) b le) = Err (terminalError (roundTrips w a))
  /\ sleeps (fst (doLoop c w req (S r) (Z.of_nat a) b le)) = [].
Proof.
  intros Ht Heq.
  assert (Hlt : (Z.of_nat a <? maxRetries c) = false) by (apply Z.ltb_ge; lia).
  cbn [doLoop]. rewrite Nat2Z.id.
  destruct (roundTrips w a) as [err|resp]; cbn [transientOutcome] in Ht;
    rewrite Ht, Hlt; trace; auto.
Qed.

(** One turn of the loop of [Do] on an outcome that is not transient. *)
Lemma doLoop_stop (r : nat) (a : nat) (b : Duration) (le : option error) :
  transientOutcome (roundTrips w a) = false ->
  requests (fst (doLoop c w req (S r) (Z.of_nat a) b le)) = 1%nat
  /\ snd (doLoop c w req (S r) (Z.of_nat a) b le) = doOutcome (roundTrips w a)
  /\ sleeps (fst (doLoop c w req (S r) (Z.of_nat a) b le)) = [].
Proof.
  intros Ht.
  cbn [doLoop]. rewrite Nat2Z.id.
  destruct (roundTrips w a) as [err|resp]; cbn [transientOutcome] in Ht;
    rewrite Ht; trace; auto.
Qed.

End DoLoop.

Section DoRuns.

Variables (c : Client) (w : World) (req : Request).

(** Every outcome from attempt [a] to the last attempt is transient: the
    loop of [Do] uses every attempt and returns the last error. *)
Lemma doLoop_exhaust (r : nat) :
  forall (a : nat) (b : Duration) (le : option error),
  Z.of_nat a + Z.of_nat r = maxRetries c ->
  (forall n, (a <= n <= a + r)%nat -> transientOutcome (roundTrips w n) = true) ->
  requests (fst (doLoop c w req (S r) (Z.of_nat a) b le)) = S r
  /\ snd (doLoop c w req (S r) (Z.of_nat a) b le)
     = Err (terminalError (roundTrips w (a + r)))
  /\ sleeps (fst (doLoop c w req (S r) (Z.of_nat a) b le)) = backoffsFrom c b r.
Proof.
  induction r as [|r IH]; intros a b le Hsum Hall.
  - replace (a + 0)%nat with a by lia.
    apply doLoop_last; [apply Hall; lia | lia].
  - destruct (doLoop_retry c w req (S r) a b le) as (Hreq & Hres & Hsl);
      [apply Hall; lia | lia |].
    destruct (IH (S a) (calculateNextBackoff c b)
                (Some (terminalError (roundTrips w a)))) as (IHreq & IHres & IHsl);
      [lia | intros n Hn; apply Hall; lia |].
    rewrite Hreq, Hres, Hsl, IHreq, IHres, IHsl.
    replace (S a + r)%nat with (a + S r)%nat by lia. auto.
Qed.

(** Attempt [a + d] is the first from [a] on whose outcome is not transient:
    the loop of [Do] stops there. *)
Lemma doLoop_first_stop (d : nat) :
  forall (r a : nat) (b : Duration) (le : option error),
  (d <= r)%nat ->
  Z.of_nat a + Z.of_nat r = maxRetries c ->
  (forall n, (a <= n < a + d)%nat -> transientOutcome (roundTrips w n) = true) ->
  transientOutcome (roundTrips w (a + d)) = false ->
  requests (fst (doLoop c w req (S r) (Z.of_nat a) b le)) = S d
  /\ snd (doLoop c w req (S r) (Z.of_nat a) b le) = doOutcome (roundTrips w (a + d))
  /\ sleeps (fst (doLoop c w req (S r) (Z.of_nat a) b le)) = backoffsFrom c b d.
Proof.
  induction d as [|d IH]; intros r a b le Hle Hsum Hbefore Hstop.
  - replace (a + 0)%nat with a in * by lia.
    apply doLoop_stop; assumption.
  - destruct r as [|r]; [lia|].
    destruct (doLoop_retry c w req (S r) a b le) as (Hreq & Hres & Hsl);
      [apply Hbefore; lia | lia |].
    destruct (IH r (S a) (calculateNextBackoff c b)
                (Some (terminalError (roundTrips w a)))) as (IHreq & IHres & IHsl);
      [lia | lia | intros n Hn; apply Hbefore; lia
      | replace (S a + d)%nat with (a + S d)%nat by lia; exact Hstop |].
    rewrite Hreq, Hres, Hsl, IHreq, IHres, IHsl.
    replace (S a + d)%nat with (a + S d)%nat by lia. auto.
Qed.

(** The loop of [Do] never touches the limiter. *)
Lemma doLoop_acquisitions (r : nat) :
  forall (a : Z) (b : Duration) (le : option error),
  acquisitions (fst (doLoop c w req r a b le)) = 0%nat.
Proof.
  induction r as [|r IH]; intros a b le; [reflexivity|].
  cbn [doLoop].
  destruct (roundTrips w (Z.to_nat a)) as [err|resp].
  - destruct (isTransientNetworkError (Some err)); [|trace; reflexivity].
    destruct (a <? maxRetries c); trace; [apply IH | reflexivity].
  - destruct (isTransientHTTPError (StatusCode resp)); [|trace; reflexivity].
    destruct (a <? maxRetries c); trace; [apply IH | reflexivity].
Qed.

End DoRuns.

Section FormRuns.

Context {T : Type}.
Variable unmarshal : string -> T -> T * option error.
Variables (c : Client) (w : World) (command : string) (req : Request).
Variable result : option T.

Lemma formFinish_quiet (resp : Response) :
  requests (fst (formFinish unmarshal c resp result)) = 0%nat
  /\ acquisitions (fst (formFinish unmarshal c resp result)) = 0%nat
  /\ sleeps (fst (formFinish unmarshal c resp result)) = [].
Proof.
  unfold formFinish.
  destruct ((StatusCode resp <? 200) || (StatusCode resp >=? 300));
    [trace; auto|].
  destruct result as [v|]; [|trace; auto].
  destruct (BodyErr resp); [trace; auto|].
  destruct (unmarshal (Body resp) v) as [v' [e|]]; trace; auto.
Qed.

Lemma formOutcome_quiet (rt : roundTrip) :
  requests (fst (formOutcome unmarshal c rt result)) = 0%nat
  /\ acquisitions (fst (formOutcome unmarshal c rt result)) = 0%nat
  /\ sleeps (fst (formOutcome unmarshal c rt result)) = [].
Proof.
  destruct rt as [err|resp]; [cbn; auto | apply formFinish_quiet].
Qed.

Lemma formLoop_retry (r : nat) (a : nat) (b : Duration) (le : option error) :
  transientOutcome (roundTrips w a) = true ->
  Z.of_nat a < maxRetries c ->
  requests (fst (formLoop unmarshal c w command req result (S r) (Z.of_nat a) b le)) =
    S (requests (fst (formLoop unmarshal c w command req result r (Z.of_nat (S a))
                        (calculateNextBackoff c b)
                        (Some (terminalError (roundTrips w a))))))
  /\ snd (formLoop unmarshal c w command req result (S r) (Z.of_nat a) b le) =
     snd (formLoop unmarshal c w command req result r (Z.of_nat (S a))
            (calculateNextBackoff c b) (Some (terminalError (roundTrips w a))))
  /\ sleeps (fst (formLoop unmarshal c w command req result (S r) (Z.of_nat a) b le)) =
     b :: sleeps (fst (formLoop unmarshal c w command req result r (Z.of_nat (S a))
                         (calculateNextBackoff c b)
                         (Some (terminalError (roundTrips w a))))).
Proof.
  intros Ht Hlt.
  assert (Hs : Z.of_nat a + 1 = Z.of_nat (S a)) by lia.
  cbn [formLoop]. rewrite Nat2Z.id.
  apply Z.ltb_lt in Hlt.
  destruct (roundTrips w a) as [err|resp]; cbn [transientOutcome] in Ht;
    rewrite Ht, Hlt, Hs; trace; auto.
Qed.

Lemma formLoop_last (r : nat) (a : nat) (b : Duration) (le : option error) :
  transientOutcome (roundTrips w a) = true ->
  Z.of_nat a = maxRetries c ->
  requests (fst (formLoop unmarshal c w command req result (S r) (Z.of_nat a) b le)) = 1%nat
  /\ snd (formLoop unmarshal c w command req result (S r) (Z.of_nat a) b le)
     = (result, Some (terminalError (roundTrips w a)))
  /\ sleeps (fst (formLoop unmarshal c w command req result (S r) (Z.of_nat a) b le)) = [].
Proof.
  intros Ht Heq.
  assert (Hlt : (Z.of_nat a <? maxRetries c) = false) by (apply Z.ltb_ge; lia).
  cbn [formLoop]. rewrite Nat2Z.id.
  destruct (roundTrips w a) as [err|resp]; cbn [transientOutcome] in Ht;
    rewrite Ht, Hlt; trace; auto.
Qed.

Lemma formLoop_stop (r : nat) (a : nat) (b : Duration) (le : option error) :
  transientOutcome (roundTrips w a) = false ->
  requests (fst (formLoop unmarshal c w command req result (S r) (Z.of_nat a) b le)) = 1%nat
  /\ snd (formLoop unmarshal c w command req result (S r) (Z.of_nat a) b le)
     = snd (formOutcome unmarshal c (roundTrips w a) result)
  /\ sleeps (fst (formLoop unmarshal c w command req result (S r) (Z.of_nat a) b le)) = [].
Proof.
  intros Ht.
  cbn [formLoop]. rewrite Nat2Z.id.
  destruct (formOutcome_quiet (roundTrips w a)) as (Hq1 & _ & Hq3).
  destruct (roundTrips w a) as [err|resp]; cbn [transientOutcome] in Ht;
    rewrite Ht; cbn [formOutcome] in *; trace; rewrite ?Hq1, ?Hq3; auto.
Qed.

Lemma formLoop_exhaust (r : nat) :
  forall (a : nat) (b : Duration) (le : option error),
  Z.of_nat a + Z.of_nat r = maxRetries c ->
  (forall n, (a <= n <= a + r)%nat -> transientOutcome (roundTrips w n) = true) ->
  requests (fst (formLoop unmarshal c w command req result (S r) (Z.of_nat a) b le)) = S r
  /\ snd (formLoop unmarshal c w command req result (S r) (Z.of_nat a) b le)
     = (result, Some (terminalError (roundTrips w (a + r))))
  /\ sleeps (fst (formLoop unmarshal c w command req result (S r) (Z.of_nat a) b le))
     = backoffsFrom c b r.
Proof.
  induction r as [|r IH]; intros a b le Hsum Hall.
  - replace (a + 0)%nat with a by lia.
    apply formLoop_last; [apply Hall; lia | lia].
  - destruct (formLoop_retry (S r) a b le) as (Hreq & Hres & Hsl);
      [apply Hall; lia | lia |].
    destruct (IH (S a) (calculateNextBackoff c b)
                (Some (terminalError (roundTrips w a)))) as (IHreq & IHres & IHsl);
      [lia | intros n Hn; apply Hall; lia |].
    rewrite Hreq, Hres, Hsl, IHreq, IHres, IHsl.
    replace (S a + r)%nat with (a + S r)%nat by lia. auto.
Qed.

Lemma formLoop_first_stop (d : nat) :
  forall (r a : nat) (b : Duration) (le : option error),
  (d <= r)%nat ->
  Z.of_nat a + Z.of_nat r = maxRetries c ->
  (forall n, (a <= n < a + d)%nat -> transientOutcome (roundTrips w n) = true) ->
  transientOutcome (roundTrips w (a + d)) = false ->
  requests (fst (formLoop unmarshal c w command req result (S r) (Z.of_nat a) b le)) = S d
  /\ snd (formLoop unmarshal c w command req result (S r) (Z.of_nat a) b le)
     = snd (formOutcome unmarshal c (roundTrips w (a + d)) result)
  /\ sleeps (fst (formLoop unmarshal c w command req result (S r) (Z.of_nat a) b le))
     = backoffsFrom c b d.
Proof.
  induction d as [|d IH]; intros r a b le Hle Hsum Hbefore Hstop.
  - replace (a + 0)%nat with a in * by lia.
    apply formLoop_stop; assumption.
  - destruct r as [|r]; [lia|].
    destruct (formLoop_retry (S r) a b le) as (Hreq & Hres & Hsl);
      [apply Hbefore; lia | lia |].
    destruct (IH r (S a) (calculateNextBackoff c b)
                (Some (terminalError (roundTrips w a)))) as (IHreq & IHres & IHsl);
      [lia | lia | intros n Hn; apply Hbefore; lia
      | replace (S a + d)%nat with (a + S d)%nat by lia; exact Hstop |].
    rewrite Hreq, Hres, Hsl, IHreq, IHres, IHsl.
    replace (S a + d)%nat with (a + S d)%nat by lia. auto.
Qed.

Lemma formLoop_acquisitions (r : nat) :
  forall (a : Z) (b : Duration) (le : option error),
  acquisitions (fst (formLoop unmarshal c w command req result r a b le)) = 0%nat.
Proof.
  induction r as [|r IH]; intros a b le; [reflexivity|].
  cbn [formLoop].
  destruct (roundTrips w (Z.to_nat a)) as [err|resp].
  - destruct (isTransientNetworkError (Some err)); [|trace; reflexivity].
    destruct (a <? maxRetries c); trace; [apply IH | reflexivity].
  - destruct (isTransientHTTPError (StatusCode resp)).
    + destruct (a <? maxRetries c); trace; [apply IH | reflexivity].
    + trace. destruct (formFinish_quiet resp) as (_ & H & _). rewrite H. reflexivity.
Qed.

End FormRuns.

(** *** The retry count *)

(** C1. A call that reaches the retry loop (token granted, request built)
    with [maxRetries = R >= 0]: when every attempt up to [R] has a transient
    outcome, [R + 1] requests are issued and the call fails; when attempt
    [k <= R] is the first whose outcome is not transient, [k + 1] requests
    are issued and the call ends with that outcome. Both for [Do] and for
    [makeFormRequest]. *)
Theorem retry_count {T : Type} (unmarshal : string -> T -> T * option error)
    (c : Client) (w : World) (req : Request) (command : string)
    (params : gmap string string) (result : option T) :
  limiterWait w = None ->
  parseURL w (baseURL c) = None ->
  0 <= maxRetries c ->
  let R := Z.to_nat (maxRetries c) in
  ((forall n, (n <= R)%nat -> transientOutcome (roundTrips w n) = true) ->
     requests (fst (Do c w req)) = S R
     /\ snd (Do c w req) = Err (terminalError (roundTrips w R))
     /\ requests (fst (makeFormRequest unmarshal c w command params result)) = S R
     /\ snd (snd (makeFormRequest unmarshal c w command params result))
        = Some (terminalError (roundTrips w R)))
  /\ (forall k, (k <= R)%nat ->
        (forall n, (n < k)%nat -> transientOutcome (roundTrips w n) = true) ->
        transientOutcome (roundTrips w k) = false ->
        requests (fst (Do c w req)) = S k
        /\ snd (Do c w req) = doOutcome (roundTrips w k)
        /\ requests (fst (makeFormRequest unmarshal c w command params result)) = S k
        /\ snd (makeFormRequest unmarshal c w command params result)
           = snd (formOutcome unmarshal c (roundTrips w k) result)).
Proof.
  intros Hwait Hurl HR R.
  assert (Hfuel : Z.to_nat (maxRetries c + 1) = S R) by (unfold R; lia).
  assert (Hsum : Z.of_nat 0 + Z.of_nat R = maxRetries c) by (unfold R; lia).
  unfold Do, makeFormRequest. rewrite Hwait, Hurl, Hfuel.
  change 0 with (Z.of_nat 0).
  split.
  - intros Hall.
    destruct (doLoop_exhaust c w (injectHeaders c req) R 0 (initialBackoff c) None)
      as (H1 & H2 & _); [exact Hsum | intros n Hn; apply Hall; lia |].
    destruct (formLoop_exhaust unmarshal c w command (formRequest c command params)
                result R 0 (initialBackoff c) None)
      as (H3 & H4 & _); [exact Hsum | intros n Hn; apply Hall; lia |].
    trace. rewrite H1, H2, H3, H4. auto.
  - intros k Hk Hbefore Hstop.
    destruct (doLoop_first_stop c w (injectHeaders c req) k R 0 (initialBackoff c) None)
      as (H1 & H2 & _); [exact Hk | exact Hsum | intros n Hn; apply Hbefore; lia
                        | exact Hstop |].
    destruct (formLoop_first_stop unmarshal c w command (formRequest c command params)
                result k R 0 (initialBackoff c) None)
      as (H3 & H4 & _); [exact Hk | exact Hsum | intros n Hn; apply Hbefore; lia
                        | exact Hstop |].
    trace. rewrite H1, H2, H3, H4. auto.
Qed.

(** The two runs of the retry tests: with three retries, a server that
    always answers 500 is asked 4 times and the call fails; a server that
    answers 500, 500, 200 is asked 3 times and the call succeeds. *)
Lemma retry_count_witness :
  (requests (fst (Do scenario.client3 scenario.always500 scenario.getTest)) = 4%nat
   /\ snd (Do scenario.client3 scenario.always500 scenario.getTest)
      = Err (errorString "HTTP 500: 500 Internal Server Error")
   /\ requests (fst (makeFormRequest scenario.unmarshalUnit scenario.client3
                       scenario.always500 "getHostStatus" ∅ (Some tt))) = 4%nat
   /\ snd (snd (makeFormRequest scenario.unmarshalUnit scenario.client3
                  scenario.always500 "getHostStatus" ∅ (Some tt)))
      = Some (errorString "HTTP 500: 500 Internal Server Error"))
  /\ (requests (fst (Do scenario.client3
                       (scenario.answering [scenario.response500; scenario.response500;
                                            scenario.response200])
                       scenario.getTest)) = 3%nat
      /\ snd (Do scenario.client3
                (scenario.answering [scenario.response500; scenario.response500;
                                     scenario.response200])
                scenario.getTest) = Ok scenario.response200
      /\ requests (fst (makeFormRequest scenario.unmarshalUnit scenario.client3
                          (scenario.answering [scenario.response500; scenario.response500;
                                               scenario.response200])
                          "getHostStatus" ∅ (Some tt))) = 3%nat
      /\ snd (makeFormRequest scenario.unmarshalUnit scenario.client3
                (scenario.answering [scenario.response500; scenario.response500;
                                     scenario.response200])
                "getHostStatus" ∅ (Some tt)) = (Some tt, None)).
Proof.
  split.
  - refine (proj1 (retry_count scenario.unmarshalUnit scenario.client3
                     scenario.always500 scenario.getTest "getHostStatus" ∅ (Some tt)
                     eq_refl eq_refl _) _).
    + discriminate.
    + intros n _. reflexivity.
  - refine (proj2 (retry_count scenario.unmarshalUnit scenario.client3
                     (scenario.answering [scenario.response500; scenario.response500;
                                          scenario.response200])
                     scenario.getTest "getHostStatus" ∅ (Some tt)
                     eq_refl eq_refl _) 2%nat _ _ _).
    + discriminate.
    + repeat constructor.
    + intros [|[|n]] Hn; [reflexivity | reflexivity | lia].
    + reflexivity.
Defined.

(** *** The backoff update *)

(** C2. [calculateNextBackoff] is the product of the current backoff and the
    multiplier clamped to the maximum, a function of the current backoff and
    of two configuration fields only, and never above the maximum. From 100ms with multiplier 3 and
    maximum 200ms the backoffs in force are 100ms, 200ms, 200ms, 200ms: the
    product 300ms is clamped before it is used, and these are the sleeps of
    a call whose attempts all fail. *)
Theorem backoff_update :
  (forall (c : Client) (current : Duration),
     calculateNextBackoff c current
     = nextBackoffSpec current (backoffMultiplier c) (maxBackoff c))
  /\ (forall (c : Client) (current : Duration),
        calculateNextBackoff c current <= maxBackoff c)
  /\ (forall retries : Z,
        backoffsFrom (scenario.capClient retries)
          (initialBackoff (scenario.capClient retries)) 4
        = [100 * Millisecond; 200 * Millisecond; 200 * Millisecond; 200 * Millisecond])
  /\ int64_of_float64
       (float64_mul (float64_of_int (100 * Millisecond)) (float64_of_int 3))
     = 300 * Millisecond
  /\ sleeps (fst (Do (scenario.capClient 4) scenario.always500 scenario.getTest))
     = [100 * Millisecond; 200 * Millisecond; 200 * Millisecond; 200 * Millisecond].
Proof.
  split; [|split; [|split; [|split]]].
  - intros c current. unfold calculateNextBackoff, nextBackoffSpec.
    destruct (Z.gtb_spec
                (int64_of_float64
                   (float64_mul (float64_of_int current) (backoffMultiplier c)))
                (maxBackoff c)); lia.
  - intros c current. unfold calculateNextBackoff.
    destruct (Z.gtb_spec
                (int64_of_float64
                   (float64_mul (float64_of_int current) (backoffMultiplier c)))
                (maxBackoff c)); lia.
  - intros retries. vm_compute. reflexivity.
  - vm_compute. reflexivity.
  - vm_compute. reflexivity.
Qed.

(** *** The limiter *)

(** C6, as the code has it. Each logical call acquires the limiter exactly
    once, before anything else, on the generic path and on the form-command
    path alike; no retry acquires it again. *)
Theorem limiter_acquired_once {T : Type} (unmarshal : string -> T -> T * option error)
    (c : Client) (w : World) (req : Request) (command : string)
    (params : gmap string string) (result : option T) :
  (exists tr, fst (Do c w req) = EvWait :: tr /\ acquisitions tr = 0%nat)
  /\ acquisitions (fst (Do c w req)) = 1%nat
  /\ (exists tr, fst (makeFormRequest unmarshal c w command params result) = EvWait :: tr
                 /\ acquisitions tr = 0%nat)
  /\ acquisitions (fst (makeFormRequest unmarshal c w command params result)) = 1%nat.
Proof.
  assert (HDo : exists tr, fst (Do c w req) = EvWait :: tr /\ acquisitions tr = 0%nat).
  { unfold Do. destruct (limiterWait w) as [err|].
    - exists []. split; reflexivity.
    - eexists. split; [reflexivity|]. cbn [snd tell]. apply doLoop_acquisitions. }
  assert (HForm : exists tr,
             fst (makeFormRequest unmarshal c w command params result) = EvWait :: tr
             /\ acquisitions tr = 0%nat).
  { unfold makeFormRequest. destruct (limiterWait w) as [err|].
    - exists []. split; reflexivity.
    - eexists. split; [reflexivity|]. cbn [snd tell].
      destruct (parseURL w (baseURL c)).
      + trace. reflexivity.
      + trace. apply formLoop_acquisitions. }
  destruct HDo as (tr1 & E1 & A1). destruct HForm as (tr2 & E2 & A2).
  repeat split.
  - exists tr1. auto.
  - rewrite E1. cbn. rewrite <- A1. reflexivity.
  - exists tr2. auto.
  - rewrite E2. cbn. rewrite <- A2. reflexivity.
Qed.

(** C6, as stated, fails: on the generic path a call that needed two retries
    has issued three requests on a single acquisition of the limiter. *)
Lemma limiter_per_attempt_counterexample :
  let tr := fst (Do scenario.client3
                   (scenario.answering [scenario.response500; scenario.response500;
                                        scenario.response200])
                   scenario.getTest) in
  requests tr = 3%nat /\ acquisitions tr = 1%nat
  /\ ~ (requests tr <= acquisitions tr)%nat.
Proof.
  cbv zeta. split; [vm_compute; reflexivity|].
  split; [vm_compute; reflexivity|].
  assert (E1 : requests (fst (Do scenario.client3
                   (scenario.answering [scenario.response500; scenario.response500;
                                        scenario.response200])
                   scenario.getTest)) = 3%nat) by (vm_compute; reflexivity).
  assert (E2 : acquisitions (fst (Do scenario.client3
                   (scenario.answering [scenario.response500; scenario.response500;
                                        scenario.response200])
                   scenario.getTest)) = 1%nat) by (vm_compute; reflexivity).
  rewrite E1, E2. lia.
Qed.

(** C7. When the context is cancelled before the limiter grants a token, the
    call ends at once with the error of the limiter wrapped as a wait
    failure, and no request is issued. *)
Theorem cancelled_before_token {T : Type} (unmarshal : string -> T -> T * option error)
    (c : Client) (w : World) (req : Request) (command : string)
    (params : gmap string string) (result : option T) (err : error) :
  limiterWait w = Some err ->
  Do c w req
    = ([EvWait], Err (wrapError ("rate limiter wait failed: " ++ Error err) err))
  /\ requests (fst (Do c w req)) = 0%nat
  /\ makeFormRequest unmarshal c w command params result
     = ([EvWait],
        (result, Some (wrapError ("rate limiter wait failed: " ++ Error err) err)))
  /\ requests (fst (makeFormRequest unmarshal c w command params result)) = 0%nat.
Proof.
  intros Hwait. unfold Do, makeFormRequest. rewrite Hwait. repeat split.
Qed.

Lemma cancelled_before_token_witness :
  Do scenario.client3 scenario.cancelled scenario.getTest
    = ([EvWait],
       Err (wrapError "rate limiter wait failed: context canceled"
              (errorString "context canceled")))
  /\ requests (fst (Do scenario.client3 scenario.cancelled scenario.getTest)) = 0%nat
  /\ makeFormRequest scenario.unmarshalUnit scenario.client3 scenario.cancelled
       "getHostStatus" ∅ (Some tt)
     = ([EvWait],
        (Some tt, Some (wrapError "rate limiter wait failed: context canceled"
                          (errorString "context canceled"))))
  /\ requests (fst (makeFormRequest scenario.unmarshalUnit scenario.client3
                      scenario.cancelled "getHostStatus" ∅ (Some tt))) = 0%nat.
Proof.
  exact (cancelled_before_token scenario.unmarshalUnit scenario.client3
           scenario.cancelled scenario.getTest "getHostStatus" ∅ (Some tt)
           (errorString "context canceled") eq_refl).
Defined.

(** *** The classifiers *)

(** A [*url.Error] and a [*net.OpError] are network errors: the first type
    test of the classifier takes them. *)
Lemma URLError_isNetError (op url : string) (inner : error) :
  isNetError (URLError op url inner) = true.
Proof. reflexivity. Qed.

Lemma OpError_isNetError (op net : string) (inner : error) :
  isNetError (OpError op net inner) = true.
Proof.
  unfold isNetError. cbn [Timeout Temporary].
  destruct (String.eqb op "accept" && isConnError inner)%bool; destruct inner; reflexivity.
Qed.

(** The classifier is its first test: an error is transient exactly when its
    type has both methods of [net.Error] and [Timeout()] answers true. *)
Lemma isTransientNetworkErr_timeout (e : error) :
  isTransientNetworkErr e = (isNetError e && okAnd (Timeout e))%bool.
Proof.
  destruct e as [s|msg e|msg t t'|n|call e|err name server it ite|op net e|op url e|fn num e];
    try reflexivity.
  cbn [isTransientNetworkErr]. rewrite OpError_isNetError. reflexivity.
Qed.

(** The cases of the classifier's own test table. *)
Lemma classifier_test_table :
  isTransientNetworkError None = false
  /\ isTransientNetworkError (Some (OpError "dial" "" scenario.timeoutError)) = true
  /\ isTransientNetworkError (Some (OpError "dial" "" scenario.temporaryError)) = false
  /\ isTransientNetworkError
       (Some (OpError "dial" "" (DNSError "connection refused" "" "" false false))) = false
  /\ isTransientNetworkError (Some (errorString "some generic error")) = false.
Proof. repeat split. Qed.

(** C3, evaluated on the code. The classifier answers by the timeout signal
    alone. A refused or reset connection reaches it as a [*net.OpError],
    which the first type test takes, so the branch that names
    connection-refused and connection-reset is never entered: both are
    classified as not transient and the call is not retried. A timeout is
    transient; an error that is only temporary is not. *)
Theorem network_classifier :
  (forall e : error,
     isTransientNetworkError (Some e) = (isNetError e && okAnd (Timeout e))%bool)
  /\ isTransientNetworkError None = false
  /\ isTransientNetworkError (Some scenario.connectionRefused) = false
  /\ isTransientNetworkError (Some (OpError "dial" "tcp" (Errno ECONNREFUSED))) = false
  /\ isTransientNetworkError (Some (OpError "read" "tcp" (Errno ECONNRESET))) = false
  /\ isTransientNetworkError (Some (OpError "dial" "tcp" (Errno ETIMEDOUT))) = true
  /\ isTransientNetworkError (Some (OpError "dial" "" scenario.timeoutError)) = true
  /\ (forall (msg : string) (op net : string),
        isTransientNetworkError (Some (customError msg (Some false) (Some true))) = false
        /\ isTransientNetworkError
             (Some (OpError op net (customError msg (Some false) (Some true)))) = false)
  /\ requests (fst (Do scenario.client3
                      (scenario.serving (fun _ => rtErr scenario.connectionRefused))
                      scenario.getTest)) = 1%nat
  /\ snd (Do scenario.client3
            (scenario.serving (fun _ => rtErr scenario.connectionRefused))
            scenario.getTest) = Err scenario.connectionRefused.
Proof.
  split; [intros e; apply isTransientNetworkErr_timeout|].
  do 6 (split; [vm_compute; reflexivity|]).
  split; [|split; vm_compute; reflexivity].
  intros msg op net. split; [reflexivity|].
  cbn [isTransientNetworkError].
  rewrite isTransientNetworkErr_timeout. cbn. apply andb_false_r.
Qed.

(** *** Retry exhaustion *)

Lemma wrapError_neq (e : error) : forall msg : string, wrapError msg e <> e.
Proof.
  induction e as [s|m e IH|m t t'|n|call e IH|err name server it ite|op net e IH
                 |op url e IH|fn num e IH]; intros msg H; try discriminate.
  injection H as _ H. exact (IH m H).
Qed.

(** C5, evaluated on the code. With [maxRetries >= 0] the last permitted
    attempt returns from inside the loop, so a call whose attempts were all
    transient returns the last transient error itself: the error of the
    transport unchanged, or the [HTTP <code>: <status>] error. The statement
    after the loop, which wraps the last error as a retry-exhaustion error,
    is reached only when [maxRetries] is negative. *)
Theorem exhaustion_returns_last_error {T : Type}
    (unmarshal : string -> T -> T * option error)
    (c : Client) (w : World) (req : Request) (command : string)
    (params : gmap string string) (result : option T) :
  limiterWait w = None ->
  parseURL w (baseURL c) = None ->
  0 <= maxRetries c ->
  (forall n, (n <= Z.to_nat (maxRetries c))%nat ->
     transientOutcome (roundTrips w n) = true) ->
  let last := terminalError (roundTrips w (Z.to_nat (maxRetries c))) in
  snd (Do c w req) = Err last
  /\ snd (snd (makeFormRequest unmarshal c w command params result)) = Some last
  /\ last <> retriesExhausted c (Some last).
Proof.
  intros Hwait Hurl HR Hall last.
  assert (Hfuel : Z.to_nat (maxRetries c + 1) = S (Z.to_nat (maxRetries c))) by lia.
  assert (Hsum : Z.of_nat 0 + Z.of_nat (Z.to_nat (maxRetries c)) = maxRetries c) by lia.
  unfold Do, makeFormRequest. rewrite Hwait, Hurl, Hfuel.
  change 0 with (Z.of_nat 0).
  destruct (doLoop_exhaust c w (injectHeaders c req) (Z.to_nat (maxRetries c)) 0
              (initialBackoff c) None) as (_ & H2 & _);
    [exact Hsum | intros n Hn; apply Hall; lia |].
  destruct (formLoop_exhaust unmarshal c w command (formRequest c command params)
              result (Z.to_nat (maxRetries c)) 0 (initialBackoff c) None)
    as (_ & H4 & _); [exact Hsum | intros n Hn; apply Hall; lia |].
  trace. rewrite H2, H4. repeat split.
  intros H. unfold retriesExhausted, Errorf_w in H. symmetry in H.
  exact (wrapError_neq _ _ H).
Qed.

(** Three retries against a server that always answers 500, and against a
    transport that always times out: the call returns the plain last error. *)
Lemma exhaustion_returns_last_error_witness :
  (snd (Do scenario.client3 scenario.always500 scenario.getTest)
   = Err (errorString "HTTP 500: 500 Internal Server Error")
   /\ snd (snd (makeFormRequest scenario.unmarshalUnit scenario.client3
                  scenario.always500 "getHostStatus" ∅ (Some tt)))
      = Some (errorString "HTTP 500: 500 Internal Server Error")
   /\ errorString "HTTP 500: 500 Internal Server Error"
      <> wrapError "request failed after 3 retries: HTTP 500: 500 Internal Server Error"
           (errorString "HTTP 500: 500 Internal Server Error"))
  /\ snd (Do scenario.client3
            (scenario.serving (fun _ => rtErr scenario.timeoutError))
            scenario.getTest) = Err scenario.timeoutError.
Proof.
  split.
  - refine (exhaustion_returns_last_error scenario.unmarshalUnit scenario.client3
              scenario.always500 scenario.getTest "getHostStatus" ∅ (Some tt)
              eq_refl eq_refl _ _).
    + discriminate.
    + intros n _. reflexivity.
  - refine (proj1 (exhaustion_returns_last_error scenario.unmarshalUnit scenario.client3
                     (scenario.serving (fun _ => rtErr scenario.timeoutError))
                     scenario.getTest "getHostStatus" ∅ (Some tt)
                     eq_refl eq_refl _ _)).
    + discriminate.
    + intros n _. reflexivity.
Defined.

(** *** HTTP statuses *)

Lemma isTransientHTTPError_iff (s : Z) :
  isTransientHTTPError s = true
  <-> s = 429 \/ s = 500 \/ s = 502 \/ s = 503 \/ s = 504.
Proof.
  unfold isTransientHTTPError.
  destruct (Z.eqb_spec s 429), (Z.eqb_spec s 500), (Z.eqb_spec s 502),
    (Z.eqb_spec s 503), (Z.eqb_spec s 504); cbn; split; intros H;
    try discriminate; try tauto; lia.
Qed.

Lemma success_not_transient (s : Z) :
  200 <= s < 300 -> isTransientHTTPError s = false.
Proof.
  intros Hs. destruct (isTransientHTTPError s) eqn:E; [|reflexivity].
  apply isTransientHTTPError_iff in E. lia.
Qed.

(** C4. The transient statuses are 429, 500, 502, 503 and 504 and no other.
    A response with any other status ends the call at the attempt that
    received it: [Do] returns the response; [makeFormRequest] goes on to
    decode a 2xx response into the target, and for every other status
    returns the error that prints the status code and the body. *)
Theorem http_status_classifier :
  (forall s : Z,
     isTransientHTTPError s = true
     <-> s = 429 \/ s = 500 \/ s = 502 \/ s = 503 \/ s = 504)
  /\ (forall (T : Type) (unmarshal : string -> T -> T * option error)
        (c : Client) (w : World) (req : Request) (command : string)
        (params : gmap string string) (result : option T)
        (k : nat) (resp : Response),
        limiterWait w = None ->
        parseURL w (baseURL c) = None ->
        0 <= maxRetries c ->
        (k <= Z.to_nat (maxRetries c))%nat ->
        (forall n, (n < k)%nat -> transientOutcome (roundTrips w n) = true) ->
        roundTrips w k = rtResp resp ->
        isTransientHTTPError (StatusCode resp) = false ->
        requests (fst (Do c w req)) = S k
        /\ snd (Do c w req) = Ok resp
        /\ requests (fst (makeFormRequest unmarshal c w command params result)) = S k
        /\ (200 <= StatusCode resp < 300 ->
            (result = None ->
               snd (makeFormRequest unmarshal c w command params result) = (None, None))
            /\ (forall v, result = Some v -> BodyErr resp = None ->
                  snd (makeFormRequest unmarshal c w command params result)
                  = (Some (fst (unmarshal (Body resp) v)),
                     match snd (unmarshal (Body resp) v) with
                     | Some err => Some (wrapError ("failed to decode response: "
                                                      ++ Error err) err)
                     | None => None
                     end)))
        /\ (~ 200 <= StatusCode resp < 300 ->
            snd (makeFormRequest unmarshal c w command params result)
            = (result,
               Some (errorString ("API request failed with status "
                                    ++ Itoa (StatusCode resp) ++ ": " ++ Body resp))))).
Proof.
  split; [exact isTransientHTTPError_iff|].
  intros T unmarshal c w req command params result k resp
    Hwait Hurl HR Hk Hbefore Hk_resp Hnt.
  assert (Hfuel : Z.to_nat (maxRetries c + 1) = S (Z.to_nat (maxRetries c))) by lia.
  assert (Hsum : Z.of_nat 0 + Z.of_nat (Z.to_nat (maxRetries c)) = maxRetries c) by lia.
  assert (Hstop : transientOutcome (roundTrips w (0 + k)) = false)
    by (cbn [Nat.add]; rewrite Hk_resp; exact Hnt).
  destruct (doLoop_first_stop c w (injectHeaders c req) k (Z.to_nat (maxRetries c)) 0
              (initialBackoff c) None) as (H1 & H2 & _);
    [exact Hk | exact Hsum | intros n Hn; apply Hbefore; lia | exact Hstop |].
  destruct (formLoop_first_stop unmarshal c w command (formRequest c command params)
              result k (Z.to_nat (maxRetries c)) 0 (initialBackoff c) None)
    as (H3 & H4 & _);
    [exact Hk | exact Hsum | intros n Hn; apply Hbefore; lia | exact Hstop |].
  cbn [Nat.add] in H2, H4. rewrite Hk_resp in H2, H4. cbn [doOutcome formOutcome] in H2, H4.
  unfold Do, makeFormRequest. rewrite Hwait, Hurl, Hfuel.
  change 0 with (Z.of_nat 0). trace. rewrite H1, H2, H3, H4.
  split; [reflexivity|]. split; [reflexivity|]. split; [reflexivity|].
  unfold formFinish. split.
  - intros Hs.
    assert (E : ((StatusCode resp <? 200) || (StatusCode resp >=? 300)) = false).
    { apply orb_false_iff. split; [apply Z.ltb_ge; lia | rewrite Z.geb_leb; apply Z.leb_gt; lia]. }
    rewrite E. split.
    + intros ->. reflexivity.
    + intros v -> Hbody. rewrite Hbody. trace.
      destruct (unmarshal (Body resp) v) as [v' [err|]]; reflexivity.
  - intros Hs.
    assert (E : ((StatusCode resp <? 200) || (StatusCode resp >=? 300)) = true).
    { apply orb_true_iff.
      destruct (Z.ltb_spec (StatusCode resp) 200); [left; reflexivity|].
      right. rewrite Z.geb_leb. apply Z.leb_le. lia. }
    rewrite E. reflexivity.
Qed.

(** A 404 after one 500: two requests, [Do] hands the 404 response back and
    [makeFormRequest] returns the error that prints status and body. A 200
    at once: one request, and the body goes to the decoder. *)
Lemma http_status_classifier_witness :
  (requests (fst (Do scenario.client3
                    (scenario.answering [scenario.response500; scenario.response404])
                    scenario.getTest)) = 2%nat
   /\ snd (Do scenario.client3
             (scenario.answering [scenario.response500; scenario.response404])
             scenario.getTest) = Ok scenario.response404
   /\ snd (makeFormRequest scenario.unmarshalUnit scenario.client3
             (scenario.answering [scenario.response500; scenario.response404])
             "getHostStatus" ∅ (Some tt))
      = (Some tt,
         Some (errorString "API request failed with status 404: no such host")))
  /\ (requests (fst (makeFormRequest scenario.unmarshalUnit scenario.client3
                       (scenario.answering [scenario.response200])
                       "getHostStatus" ∅ (Some tt))) = 1%nat
      /\ snd (makeFormRequest scenario.unmarshalUnit scenario.client3
                (scenario.answering [scenario.response200])
                "getHostStatus" ∅ (Some tt)) = (Some tt, None)).
Proof.
  split.
  - destruct (proj2 http_status_classifier unit scenario.unmarshalUnit scenario.client3
                (scenario.answering [scenario.response500; scenario.response404])
                scenario.getTest "getHostStatus" ∅ (Some tt) 1%nat scenario.response404)
      as (H1 & H2 & _ & _ & H5).
    + reflexivity.
    + reflexivity.
    + discriminate.
    + repeat constructor.
    + intros [|n] Hn; [reflexivity | lia].
    + reflexivity.
    + reflexivity.
    + split; [exact H1|]. split; [exact H2|].
      apply H5. intros [Hlo Hhi]. vm_compute in Hhi. discriminate Hhi.
  - destruct (proj2 http_status_classifier unit scenario.unmarshalUnit scenario.client3
                (scenario.answering [scenario.response200])
                scenario.getTest "getHostStatus" ∅ (Some tt) 0%nat scenario.response200)
      as (_ & _ & H3 & H4 & _).
    + reflexivity.
    + reflexivity.
    + discriminate.
    + repeat constructor.
    + intros n Hn. lia.
    + reflexivity.
    + reflexivity.
    + split; [exact H3|].
      refine (proj2 (H4 _) tt eq_refl eq_refl).
      split; [discriminate | reflexivity].
Defined.

(** *** A nil result target *)

Section NilTarget.

Context {T : Type}.
Variable unmarshal : string -> T -> T * option error.
Variables (c : Client) (w : World) (command : string) (req : Request).

(** With a nil target the loop of [makeFormRequest] never calls the decoder,
    whatever the server answers. *)
Lemma formLoop_nil_no_unmarshal (r : nat) :
  forall (a : Z) (b : Duration) (le : option error),
  List.filter isUnmarshal (fst (formLoop unmarshal c w command req None r a b le)) = [].
Proof.
  induction r as [|r IH]; intros a b le; [reflexivity|].
  cbn [formLoop]. unfold formFinish, debugf.
  destruct (roundTrips w (Z.to_nat a)) as [err|resp].
  - destruct (isTransientNetworkError (Some err)), (a <? maxRetries c), (debugEnabled c);
      rewrite ?bind_fst, ?List.filter_app, ?IH; reflexivity.
  - destruct (isTransientHTTPError (StatusCode resp)), (a <? maxRetries c),
      (debugEnabled c), ((StatusCode resp <? 200) || (StatusCode resp >=? 300));
      rewrite ?bind_fst, ?List.filter_app, ?IH; reflexivity.
Qed.

(** A retried attempt closes the body without reading it. *)
Lemma formLoop_retry_body (result : option T) (r a : nat) (b : Duration)
    (le : option error) :
  transientOutcome (roundTrips w a) = true ->
  Z.of_nat a < maxRetries c ->
  List.filter isBodyUse
    (fst (formLoop unmarshal c w command req result (S r) (Z.of_nat a) b le))
  = List.filter isBodyUse
      (fst (formLoop unmarshal c w command req result r (Z.of_nat (S a))
              (calculateNextBackoff c b) (Some (terminalError (roundTrips w a))))).
Proof.
  intros Ht Hlt.
  assert (Hs : Z.of_nat a + 1 = Z.of_nat (S a)) by lia.
  cbn [formLoop]. rewrite Nat2Z.id.
  apply Z.ltb_lt in Hlt. unfold debugf.
  destruct (roundTrips w a) as [err|resp]; cbn [transientOutcome] in Ht;
    rewrite Ht, Hlt, Hs; destruct (debugEnabled c);
    rewrite ?bind_fst, ?List.filter_app; reflexivity.
Qed.

(** The body is neither read nor decoded up to and at a first attempt that is
    answered with a 2xx status, when the target is nil. *)
Lemma formLoop_nil_success_body (d : nat) :
  forall (r a : nat) (b : Duration) (le : option error) (resp : Response),
  (d <= r)%nat ->
  Z.of_nat a + Z.of_nat r = maxRetries c ->
  (forall n, (a <= n < a + d)%nat -> transientOutcome (roundTrips w n) = true) ->
  roundTrips w (a + d) = rtResp resp ->
  200 <= StatusCode resp < 300 ->
  List.filter isBodyUse
    (fst (formLoop unmarshal c w command req None (S r) (Z.of_nat a) b le)) = []
  /\ snd (formLoop unmarshal c w command req None (S r) (Z.of_nat a) b le) = (None, None).
Proof.
  induction d as [|d IH]; intros r a b le resp Hle Hsum Hbefore Hresp Hs.
  - replace (a + 0)%nat with a in Hresp by lia.
    assert (E : ((StatusCode resp <? 200) || (StatusCode resp >=? 300)) = false).
    { apply orb_false_iff.
      split; [apply Z.ltb_ge; lia | rewrite Z.geb_leb; apply Z.leb_gt; lia]. }
    cbn [formLoop]. rewrite Nat2Z.id, Hresp, (success_not_transient _ Hs).
    unfold formFinish, debugf. rewrite E.
    destruct (debugEnabled c); split; reflexivity.
  - destruct r as [|r]; [lia|].
    assert (Ht : transientOutcome (roundTrips w a) = true) by (apply Hbefore; lia).
    assert (Hlt : Z.of_nat a < maxRetries c) by lia.
    destruct (formLoop_retry unmarshal c w command req None (S r) a b le Ht Hlt)
      as (_ & Hres & _).
    rewrite (formLoop_retry_body None (S r) a b le Ht Hlt), Hres.
    apply (IH r (S a) (calculateNextBackoff c b) _ resp);
      [lia | lia | intros n Hn; apply Hbefore; lia
      | replace (S a + d)%nat with (a + S d)%nat by lia; exact Hresp | exact Hs].
Qed.

End NilTarget.

(** C10. With a nil result target, a form-command call that is answered with
    a 2xx status returns no error and has neither read nor decoded the
    response body; and with a nil target the decoder is not called in any
    run, so a decode error needs a target that is not nil. *)
Theorem nil_target_skips_body {T : Type} (unmarshal : string -> T -> T * option error)
    (c : Client) (w : World) (command : string) (params : gmap string string) :
  (forall (k : nat) (resp : Response),
     limiterWait w = None ->
     parseURL w (baseURL c) = None ->
     0 <= maxRetries c ->
     (k <= Z.to_nat (maxRetries c))%nat ->
     (forall n, (n < k)%nat -> transientOutcome (roundTrips w n) = true) ->
     roundTrips w k = rtResp resp ->
     200 <= StatusCode resp < 300 ->
     snd (makeFormRequest unmarshal c w command params None) = (None, None)
     /\ List.filter isBodyUse
          (fst (makeFormRequest unmarshal c w command params None)) = [])
  /\ List.filter isUnmarshal
       (fst (makeFormRequest unmarshal c w command params None)) = [].
Proof.
  split.
  - intros k resp Hwait Hurl HR Hk Hbefore Hresp Hs.
    assert (Hfuel : Z.to_nat (maxRetries c + 1) = S (Z.to_nat (maxRetries c))) by lia.
    destruct (formLoop_nil_success_body unmarshal c w command
                (formRequest c command params) k (Z.to_nat (maxRetries c)) 0
                (initialBackoff c) None resp) as (H1 & H2);
      [exact Hk | lia | intros n Hn; apply Hbefore; lia | exact Hresp | exact Hs |].
    unfold makeFormRequest. rewrite Hwait, Hurl, Hfuel.
    change 0 with (Z.of_nat 0).
    rewrite !bind_snd, !bind_fst, !List.filter_app, bodyUse_debugf, H1, H2.
    split; reflexivity.
  - unfold makeFormRequest, debugf.
    destruct (limiterWait w); [reflexivity|].
    destruct (parseURL w (baseURL c)), (debugEnabled c);
      rewrite ?bind_fst, ?List.filter_app, ?formLoop_nil_no_unmarshal; reflexivity.
Qed.

(** A 204 after one 500, nil target: success, and the trace holds the wait,
    two requests, the close and the sleep of the retry, and the last close. *)
Lemma nil_target_skips_body_witness :
  snd (makeFormRequest scenario.unmarshalUnit scenario.client3
         (scenario.answering [scenario.response500; scenario.response204])
         "deleteHost" ∅ None) = (None, None)
  /\ List.filter isBodyUse
       (fst (makeFormRequest scenario.unmarshalUnit scenario.client3
               (scenario.answering [scenario.response500; scenario.response204])
               "deleteHost" ∅ None)) = [].
Proof.
  refine (proj1 (nil_target_skips_body scenario.unmarshalUnit scenario.client3
                   (scenario.answering [scenario.response500; scenario.response204])
                   "deleteHost" ∅) 1%nat scenario.response204
            eq_refl eq_refl _ _ _ eq_refl _).
  - discriminate.
  - repeat constructor.
  - intros [|n] Hn; [reflexivity | lia].
  - split; [discriminate | reflexivity].
Defined.

(** *** The not-found test of the read path *)

Lemma Contains_app_r (a b sub : string) :
  Contains b sub = true -> Contains (a ++ b) sub = true.
Proof.
  intros H. induction a as [|x a IH]; [exact H|].
  change (String x a ++ b) with (String x (a ++ b)).
  destruct sub; cbn [Contains]; rewrite IH; apply orb_true_r.
Qed.

(** C9, evaluated on the code. [isNotFoundError] is true of an error only
    when its message is exactly [404 Not Found]. The error of [GetHost] for
    a host that is not there reads [host with ID <id> not found], and the
    error for an HTTP 404 reads [failed to get host: API request failed with
    status 404: ...]: neither passes the test, so [Read] keeps the resource
    in the state and reports a client error. The test of the HTTP sensor's
    read path accepts the first of them. *)
Theorem host_not_found_is_hard_failure :
  (forall id : Z, provider.isNotFoundError (Some (hostNotFound id)) = false)
  /\ (forall id : Z, provider.sensorReadNotFound (hostNotFound id) = true)
  /\ provider.isNotFoundError (Some (errorString "404 Not Found")) = true
  /\ snd (GetHost scenario.unmarshalNoHosts scenario.client3
            (scenario.answering [scenario.response200]) 5)
     = Err (errorString "host with ID 5 not found")
  /\ provider.Read
       (provider.clientHostAPI scenario.unmarshalNoHosts scenario.client3
          (scenario.answering [scenario.response200]))
       scenario.host5 []
     = provider.mkReadResponse (Some scenario.host5)
         [provider.mkDiagnostic "Client Error"
            "Unable to read host, got error: host with ID 5 not found"]
  /\ provider.Read
       (provider.clientHostAPI scenario.unmarshalNoHosts scenario.client3
          (scenario.answering [scenario.response404]))
       scenario.host5 []
     = provider.mkReadResponse (Some scenario.host5)
         [provider.mkDiagnostic "Client Error"
            "Unable to read host, got error: failed to get host: API request failed with status 404: no such host"]
  /\ provider.Read (provider.mkHostAPI (fun _ => Err (errorString "404 Not Found")))
       scenario.host5 []
     = provider.mkReadResponse None [].
Proof.
  split; [intros id; reflexivity|].
  split.
  { intros id. unfold provider.sensorReadNotFound, hostNotFound. cbn [Error].
    rewrite (Contains_app_r "host with ID " (Itoa id ++ " not found") "not found").
    - apply orb_true_r.
    - apply Contains_app_r. reflexivity. }
  repeat split; vm_compute; reflexivity.
Qed.

(** *** The period decoder *)

Lemma digitOf_digitChar (d : Z) : isDigit d -> digitOf (digitChar d) = Some d.
Proof.
  intros Hd. unfold isDigit in Hd.
  assert (H : d = 0 \/ d = 1 \/ d = 2 \/ d = 3 \/ d = 4 \/ d = 5 \/ d = 6
              \/ d = 7 \/ d = 8 \/ d = 9) by lia.
  repeat (destruct H as [-> | H]; [reflexivity|]). subst d. reflexivity.
Qed.

Lemma digitChar_no_sign (d : Z) :
  isDigit d ->
  Ascii.eqb (digitChar d) (ascii_of_nat 43) = false
  /\ Ascii.eqb (digitChar d) (ascii_of_nat 45) = false.
Proof.
  intros Hd. unfold isDigit in Hd.
  assert (H : d = 0 \/ d = 1 \/ d = 2 \/ d = 3 \/ d = 4 \/ d = 5 \/ d = 6
              \/ d = 7 \/ d = 8 \/ d = 9) by lia.
  repeat (destruct H as [-> | H]; [split; reflexivity|]). subst d. split; reflexivity.
Qed.

Lemma digitsValueFrom_ge (ds : list Z) :
  forall n : Z, 0 <= n -> Forall isDigit ds -> n <= digitsValueFrom n ds.
Proof.
  induction ds as [|d ds IH]; intros n Hn Hds; [cbn; lia|].
  inversion Hds as [|? ? Hd Hds']; subst. unfold isDigit in Hd.
  cbn [digitsValueFrom].
  specialize (IH (n * 10 + d) ltac:(lia) Hds'). lia.
Qed.

(** The digit loop on a numeral that fits 64 bits yields its value. *)
Lemma scanDigits_numeral (ds : list Z) :
  forall n : Z,
  0 <= n -> Forall isDigit ds -> digitsValueFrom n ds < 2 ^ 64 ->
  scanDigits (digitsString ds) n = scanOk (digitsValueFrom n ds).
Proof.
  induction ds as [|d ds IH]; intros n Hn Hds Hfit; [reflexivity|].
  inversion Hds as [|? ? Hd Hds']; subst.
  cbn [digitsString scanDigits digitsValueFrom] in *.
  rewrite (digitOf_digitChar d Hd).
  pose proof (digitsValueFrom_ge ds (n * 10 + d)) as Hge.
  unfold isDigit in Hd. specialize (Hge ltac:(lia) Hds').
  assert (Hcut : (n >=? (2 ^ 64 - 1) / 10 + 1) = false).
  { rewrite Z.geb_leb. apply Z.leb_gt.
    change ((2 ^ 64 - 1) / 10 + 1) with 1844674407370955162.
    change (2 ^ 64) with 18446744073709551616 in Hfit. lia. }
  assert (Hmax : (n * 10 + d >? 2 ^ 64 - 1) = false).
  { rewrite Z.gtb_ltb. apply Z.ltb_ge. lia. }
  rewrite Hcut, Hmax. apply IH; [lia | exact Hds' | exact Hfit].
Qed.

(** [Atoi] on an unsigned numeral below 2^63 yields its value. *)
Lemma Atoi_numeral (ds : list Z) :
  ds <> [] -> Forall isDigit ds -> digitsValue ds < 2 ^ 63 ->
  Atoi (digitsString ds) = (digitsValue ds, None).
Proof.
  intros Hne Hds Hfit. destruct ds as [|d ds]; [congruence|].
  inversion Hds as [|? ? Hd Hds']; subst.
  destruct (digitChar_no_sign d Hd) as (Hplus & Hminus).
  assert (Hscan : scanDigits (digitsString (d :: ds)) 0
                  = scanOk (digitsValue (d :: ds))).
  { apply scanDigits_numeral; [lia | exact Hds |].
    unfold digitsValue in Hfit. change (2 ^ 63) with 9223372036854775808 in Hfit.
    change (2 ^ 64) with 18446744073709551616. lia. }
  unfold Atoi. cbn [digitsString] in *. rewrite Hplus, Hminus. cbn [orb].
  rewrite Hscan. cbn [negb andb].
  assert (E : (digitsValue (d :: ds) >=? 2 ^ 63) = false)
    by (rewrite Z.geb_leb; apply Z.leb_gt; exact Hfit).
  rewrite E. reflexivity.
Qed.





(** ** Part VI. More on the executor *)

Import events.

(** *** The request on the wire *)

Lemma sent_app (t1 t2 : list event) : sent (t1 ++ t2) = (sent t1 ++ sent t2)%list.
Proof.
  induction t1 as [|e t1 IH]; [reflexivity|].
  destruct e; cbn [sent app]; rewrite ?IH; reflexivity.
Qed.

Lemma sent_debugf (c : Client) (format : string) (args : list logArg) :
  sent (fst (debugf c format args)) = [].
Proof. destruct (debugf_trace c format args) as [H|H]; rewrite H; reflexivity. Qed.

Lemma doLoop_sent (c : Client) (w : World) (req : Request) (r : nat) :
  forall (a : Z) (b : Duration) (le : option error),
  Forall (fun x => x = req) (sent (fst (doLoop c w req r a b le))).
Proof.
  induction r as [|r IH]; intros a b le; [constructor|].
  cbn [doLoop]. rewrite !bind_fst, !sent_app, sent_debugf.
  cbn [tell fst snd sent app]. constructor; [reflexivity|].
  destruct (roundTrips w (Z.to_nat a)) as [err|resp].
  - destruct (isTransientNetworkError (Some err)); [|constructor].
    destruct (a <? maxRetries c); [|constructor].
    rewrite !bind_fst, !sent_app, sent_debugf. cbn [tell fst snd sent app]. apply IH.
  - destruct (isTransientHTTPError (StatusCode resp)); [|constructor].
    rewrite bind_fst, sent_app. cbn [tell fst snd sent app].
    destruct (a <? maxRetries c); [|constructor].
    rewrite !bind_fst, !sent_app, sent_debugf. cbn [tell fst snd sent app]. apply IH.
Qed.

Lemma formFinish_sent {T : Type} (unmarshal : string -> T -> T * option error)
    (c : Client) (resp : Response) (result : option T) :
  sent (fst (formFinish unmarshal c resp result)) = [].
Proof.
  unfold formFinish, debugf.
  destruct ((StatusCode resp <? 200) || (StatusCode resp >=? 300)), (debugEnabled c);
    try reflexivity;
    destruct result as [v|]; try reflexivity;
    destruct (BodyErr resp); try reflexivity;
    destruct (unmarshal (Body resp) v) as [v' [e|]]; reflexivity.
Qed.

Lemma formLoop_sent {T : Type} (unmarshal : string -> T -> T * option error)
    (c : Client) (w : World) (command : string) (req : Request)
    (result : option T) (r : nat) :
  forall (a : Z) (b : Duration) (le : option error),
  Forall (fun x => x = req)
    (sent (fst (formLoop unmarshal c w command req result r a b le))).
Proof.
  induction r as [|r IH]; intros a b le; [constructor|].
  cbn [formLoop]. rewrite !bind_fst, !sent_app, sent_debugf.
  cbn [tell fst snd sent app]. constructor; [reflexivity|].
  destruct (roundTrips w (Z.to_nat a)) as [err|resp].
  - destruct (isTransientNetworkError (Some err)); [|constructor].
    destruct (a <? maxRetries c); [|constructor].
    rewrite !bind_fst, !sent_app, sent_debugf. cbn [tell fst snd sent app]. apply IH.
  - destruct (isTransientHTTPError (StatusCode resp)).
    + rewrite bind_fst, sent_app. cbn [tell fst snd sent app].
      destruct (a <? maxRetries c); [|constructor].
      rewrite !bind_fst, !sent_app, sent_debugf. cbn [tell fst snd sent app]. apply IH.
    + rewrite formFinish_sent. constructor.
Qed.

Lemma Header_Get_Set (r : Request) (k k' v : string) :
  Header_Get (Header_Set r k v) k' = if String.eqb k k' then v else Header_Get r k'.
Proof.
  unfold Header_Get, Header_Set. cbn [Header].
  destruct (String.eqb_spec k k') as [->|Hne].
  - rewrite lookup_insert_eq. reflexivity.
  - rewrite lookup_insert_ne by exact Hne. reflexivity.
Qed.

(** X1. Every request [Do] hands to the transport, on the first attempt and
    on each retry, is the caller's request with the three header defaults
    applied: a header the caller has set is sent as it is, a header left
    empty is sent as [Bearer <key>], the client's user agent or
    [application/json]; no other header, nor the method, the URL or the body
    is touched. *)
Theorem Do_sends_request_with_defaults (c : Client) (w : World) (req : Request) :
  Forall (fun x => x = injectHeaders c req) (sent (fst (Do c w req)))
  /\ Header_Get (injectHeaders c req) "Authorization"
     = (if String.eqb (Header_Get req "Authorization") "" then "Bearer " ++ apiKey c
        else Header_Get req "Authorization")
  /\ Header_Get (injectHeaders c req) "User-Agent"
     = (if String.eqb (Header_Get req "User-Agent") "" then userAgent c
        else Header_Get req "User-Agent")
  /\ Header_Get (injectHeaders c req) "Content-Type"
     = (if String.eqb (Header_Get req "Content-Type") "" then "application/json"
        else Header_Get req "Content-Type")
  /\ (forall k : string,
        k <> "Authorization" -> k <> "User-Agent" -> k <> "Content-Type" ->
        Header_Get (injectHeaders c req) k = Header_Get req k)
  /\ Method (injectHeaders c req) = Method req
  /\ URL (injectHeaders c req) = URL req
  /\ Form (injectHeaders c req) = Form req.
Proof.
  split.
  { unfold Do. destruct (limiterWait w); [constructor|].
    rewrite bind_fst. cbn [tell fst snd sent app]. apply doLoop_sent. }
  unfold injectHeaders.
  destruct (String.eqb (Header_Get req "Authorization") "") eqn:EA;
    rewrite ?Header_Get_Set; cbn [String.eqb Ascii.eqb Bool.eqb];
    destruct (String.eqb (Header_Get req "User-Agent") "") eqn:EU;
    rewrite ?Header_Get_Set; cbn [String.eqb Ascii.eqb Bool.eqb];
    destruct (String.eqb (Header_Get req "Content-Type") "") eqn:EC;
    rewrite ?Header_Get_Set; cbn [String.eqb Ascii.eqb Bool.eqb];
    rewrite ?EA, ?EU, ?EC;
    (repeat split; try reflexivity;
     intros k H1 H2 H3; rewrite ?Header_Get_Set;
     repeat match goal with
            | |- context [String.eqb ?x k] =>
                destruct (String.eqb_spec x k); [congruence|]
            end; reflexivity).
Qed.

(** X2. Every request [makeFormRequest] hands to the transport is one and the
    same POST to the base URL, with the form content type and the client's
    user agent and without an Authorization header. Its form holds every
    caller parameter as given, and [cmd], [key] and [response=json] where the
    caller has no parameter of that name; it holds nothing else. *)
Theorem makeFormRequest_sends_form {T : Type}
    (unmarshal : string -> T -> T * option error)
    (c : Client) (w : World) (command : string) (params : gmap string string)
    (result : option T) :
  Forall (fun x => x = formRequest c command params)
    (sent (fst (makeFormRequest unmarshal c w command params result)))
  /\ Method (formRequest c command params) = "POST"
  /\ URL (formRequest c command params) = baseURL c
  /\ Header_Get (formRequest c command params) "Content-Type"
     = "application/x-www-form-urlencoded"
  /\ Header_Get (formRequest c command params) "User-Agent" = userAgent c
  /\ Header_Get (formRequest c command params) "Authorization" = ""
  /\ (forall k : string,
        Form (formRequest c command params) !! k
        = match params !! k with
          | Some v => Some v
          | None =>
              if String.eqb k "cmd" then Some command
              else if String.eqb k "key" then Some (apiKey c)
              else if String.eqb k "response" then Some "json"
              else None
          end).
Proof.
  split.
  { unfold makeFormRequest. destruct (limiterWait w); [constructor|].
    rewrite !bind_fst, !sent_app, sent_debugf. cbn [tell fst snd sent app].
    destruct (parseURL w (baseURL c)); [constructor|]. apply formLoop_sent. }
  unfold formRequest. rewrite !Header_Get_Set. cbn [String.eqb Ascii.eqb Bool.eqb].
  repeat split.
  intros k. cbn [Form Header_Set]. unfold formData.
  rewrite lookup_union.
  destruct (params !! k) as [v|] eqn:Ek.
  - match goal with |- Some v ∪ ?x = _ => destruct x end; reflexivity.
  - rewrite (left_id None _).
    destruct (String.eqb_spec k "cmd") as [->|H1]; [reflexivity|].
    rewrite lookup_insert_ne by congruence.
    destruct (String.eqb_spec k "key") as [->|H2]; [reflexivity|].
    rewrite lookup_insert_ne by congruence.
    destruct (String.eqb_spec k "response") as [->|H3]; [reflexivity|].
    rewrite lookup_insert_ne by congruence. apply lookup_empty.
Qed.

(** *** How many requests, and the sleeps between them *)

Lemma doLoop_requests_le (c : Client) (w : World) (req : Request) (r : nat) :
  forall (a : Z) (b : Duration) (le : option error),
  (requests (fst (doLoop c w req r a b le)) <= r)%nat.
Proof.
  induction r as [|r IH]; intros a b le; [cbn; lia|].
  cbn [doLoop].
  destruct (roundTrips w (Z.to_nat a)) as [err|resp].
  - destruct (isTransientNetworkError (Some err)); [|trace; lia].
    destruct (a <? maxRetries c); trace; [|lia].
    specialize (IH (a + 1) (calculateNextBackoff c b) (Some err)). lia.
  - destruct (isTransientHTTPError (StatusCode resp)); [|trace; lia].
    destruct (a <? maxRetries c); trace; [|lia].
    specialize (IH (a + 1) (calculateNextBackoff c b) (Some (httpStatusError resp))). lia.
Qed.

Lemma formLoop_requests_le {T : Type} (unmarshal : string -> T -> T * option error)
    (c : Client) (w : World) (command : string) (req : Request)
    (result : option T) (r : nat) :
  forall (a : Z) (b : Duration) (le : option error),
  (requests (fst (formLoop unmarshal c w command req result r a b le)) <= r)%nat.
Proof.
  induction r as [|r IH]; intros a b le; [cbn; lia|].
  cbn [formLoop].
  destruct (roundTrips w (Z.to_nat a)) as [err|resp].
  - destruct (isTransientNetworkError (Some err)); [|trace; lia].
    destruct (a <? maxRetries c); trace; [|lia].
    specialize (IH (a + 1) (calculateNextBackoff c b) (Some err)). lia.
  - destruct (isTransientHTTPError (StatusCode resp)).
    + destruct (a <? maxRetries c); trace; [|lia].
      specialize (IH (a + 1) (calculateNextBackoff c b) (Some (httpStatusError resp))).
      lia.
    + trace. destruct (formFinish_quiet unmarshal c result resp) as (H & _).
      rewrite H. lia.
Qed.

(** X3. Whatever the limiter, the transport and the server do, one logical
    call issues at most [maxRetries + 1] requests, and none when
    [maxRetries] is negative. *)
Theorem requests_bounded {T : Type} (unmarshal : string -> T -> T * option error)
    (c : Client) (w : World) (req : Request) (command : string)
    (params : gmap string string) (result : option T) :
  (requests (fst (Do c w req)) <= Z.to_nat (maxRetries c + 1))%nat
  /\ (requests (fst (makeFormRequest unmarshal c w command params result))
      <= Z.to_nat (maxRetries c + 1))%nat.
Proof.
  split.
  - unfold Do. destruct (limiterWait w); [cbn; lia|].
    trace. apply doLoop_requests_le.
  - unfold makeFormRequest. destruct (limiterWait w); [cbn; lia|].
    destruct (parseURL w (baseURL c)); trace; [lia|]. apply formLoop_requests_le.
Qed.

Section LoopShape.

Variables (c : Client) (w : World).

(** From attempt [a] on, the loop of [Do] makes at least one request and
    sleeps once between any two, through the backoffs in their order. *)
Lemma doLoop_shape (req : Request) (r : nat) :
  forall (a : nat) (b : Duration) (le : option error),
  Z.of_nat a + Z.of_nat r = maxRetries c ->
  (1 <= requests (fst (doLoop c w req (S r) (Z.of_nat a) b le)))%nat
  /\ sleeps (fst (doLoop c w req (S r) (Z.of_nat a) b le))
     = backoffsFrom c b (requests (fst (doLoop c w req (S r) (Z.of_nat a) b le)) - 1).
Proof.
  induction r as [|r IH]; intros a b le Hsum;
    destruct (transientOutcome (roundTrips w a)) eqn:Ht.
  - destruct (doLoop_last c w req 0 a b le Ht) as (H1 & _ & H3); [lia|].
    rewrite H1, H3. split; [lia | reflexivity].
  - destruct (doLoop_stop c w req 0 a b le Ht) as (H1 & _ & H3).
    rewrite H1, H3. split; [lia | reflexivity].
  - destruct (doLoop_retry c w req (S r) a b le Ht) as (H1 & _ & H3); [lia|].
    destruct (IH (S a) (calculateNextBackoff c b)
                (Some (terminalError (roundTrips w a)))) as (I1 & I2); [lia|].
    rewrite H1, H3, I2. split; [lia|].
    match goal with
    | |- _ = backoffsFrom c b (S ?n - 1) =>
        replace (S n - 1)%nat with (S (n - 1)) by lia
    end.
    reflexivity.
  - destruct (doLoop_stop c w req (S r) a b le Ht) as (H1 & _ & H3).
    rewrite H1, H3. split; [lia | reflexivity].
Qed.

Lemma formLoop_shape {T : Type} (unmarshal : string -> T -> T * option error)
    (command : string) (req : Request) (result : option T) (r : nat) :
  forall (a : nat) (b : Duration) (le : option error),
  Z.of_nat a + Z.of_nat r = maxRetries c ->
  (1 <= requests (fst (formLoop unmarshal c w command req result (S r)
                         (Z.of_nat a) b le)))%nat
  /\ sleeps (fst (formLoop unmarshal c w command req result (S r) (Z.of_nat a) b le))
     = backoffsFrom c b
         (requests (fst (formLoop unmarshal c w command req result (S r)
                           (Z.of_nat a) b le)) - 1).
Proof.
  induction r as [|r IH]; intros a b le Hsum;
    destruct (transientOutcome (roundTrips w a)) eqn:Ht.
  - destruct (formLoop_last unmarshal c w command req result 0 a b le Ht)
      as (H1 & _ & H3); [lia|].
    rewrite H1, H3. split; [lia | reflexivity].
  - destruct (formLoop_stop unmarshal c w command req result 0 a b le Ht)
      as (H1 & _ & H3).
    rewrite H1, H3. split; [lia | reflexivity].
  - destruct (formLoop_retry unmarshal c w command req result (S r) a b le Ht)
      as (H1 & _ & H3); [lia|].
    destruct (IH (S a) (calculateNextBackoff c b)
                (Some (terminalError (roundTrips w a)))) as (I1 & I2); [lia|].
    rewrite H1, H3, I2. split; [lia|].
    match goal with
    | |- _ = backoffsFrom c b (S ?n - 1) =>
        replace (S n - 1)%nat with (S (n - 1)) by lia
    end.
    reflexivity.
  - destruct (formLoop_stop unmarshal c w command req result (S r) a b le Ht)
      as (H1 & _ & H3).
    rewrite H1, H3. split; [lia | reflexivity].
Qed.

End LoopShape.

(** X4. A call that reaches the retry loop issues at least one request and
    sleeps exactly once between two consecutive requests, never after the
    last: the sleeps are the first [requests - 1] backoffs of the sequence
    that starts at the initial backoff, whatever the failures were. *)
Theorem sleeps_follow_backoff {T : Type} (unmarshal : string -> T -> T * option error)
    (c : Client) (w : World) (req : Request) (command : string)
    (params : gmap string string) (result : option T) :
  limiterWait w = None ->
  parseURL w (baseURL c) = None ->
  0 <= maxRetries c ->
  ((1 <= requests (fst (Do c w req)))%nat
   /\ sleeps (fst (Do c w req))
      = backoffsFrom c (initialBackoff c) (requests (fst (Do c w req)) - 1))
  /\ ((1 <= requests (fst (makeFormRequest unmarshal c w command params result)))%nat
      /\ sleeps (fst (makeFormRequest unmarshal c w command params result))
         = backoffsFrom c (initialBackoff c)
             (requests (fst (makeFormRequest unmarshal c w command params result)) - 1)).
Proof.
  intros Hwait Hurl HR.
  assert (Hfuel : Z.to_nat (maxRetries c + 1) = S (Z.to_nat (maxRetries c))) by lia.
  assert (Hsum : Z.of_nat 0 + Z.of_nat (Z.to_nat (maxRetries c)) = maxRetries c) by lia.
  unfold Do, makeFormRequest. rewrite Hwait, Hurl, Hfuel. change 0 with (Z.of_nat 0).
  split.
  - destruct (doLoop_shape c w (injectHeaders c req) (Z.to_nat (maxRetries c)) 0
                (initialBackoff c) None Hsum) as (H1 & H2).
    trace. rewrite H2. split; [exact H1 | reflexivity].
  - destruct (formLoop_shape c w unmarshal command (formRequest c command params) result
                (Z.to_nat (maxRetries c)) 0 (initialBackoff c) None Hsum) as (H1 & H2).
    trace. rewrite H2. split; [exact H1 | reflexivity].
Qed.

(** Four retries against a server that always answers 500, from 100ms
    tripling up to 200ms: five requests, four sleeps. *)
Lemma sleeps_follow_backoff_witness :
  sleeps (fst (Do (scenario.capClient 4) scenario.always500 scenario.getTest))
  = backoffsFrom (scenario.capClient 4) (100 * Millisecond)
      (requests (fst (Do (scenario.capClient 4) scenario.always500 scenario.getTest)) - 1)
  /\ requests (fst (Do (scenario.capClient 4) scenario.always500 scenario.getTest)) = 5%nat.
Proof.
  split; [|reflexivity].
  refine (proj2 (proj1 (sleeps_follow_backoff scenario.unmarshalUnit
                          (scenario.capClient 4) scenario.always500 scenario.getTest
                          "getHostStatus" ∅ (Some tt) eq_refl eq_refl _))).
  discriminate.
Defined.

Lemma calculateNextBackoff_le (c : Client) (b : Duration) :
  calculateNextBackoff c b <= maxBackoff c.
Proof.
  unfold calculateNextBackoff.
  destruct (Z.gtb_spec
              (int64_of_float64 (float64_mul (float64_of_int b) (backoffMultiplier c)))
              (maxBackoff c)); lia.
Qed.

Lemma backoffsFrom_tail_bounded (c : Client) (n : nat) :
  forall b : Duration,
  Forall (fun d => d <= maxBackoff c) (backoffsFrom c (calculateNextBackoff c b) n).
Proof.
  induction n as [|n IH]; intros b; [constructor|].
  cbn [backoffsFrom]. constructor; [apply calculateNextBackoff_le | apply IH].
Qed.

Lemma backoffsFrom_head (c : Client) (b : Duration) (n : nat) :
  backoffsFrom c b n = []
  \/ exists rest, backoffsFrom c b n = b :: rest
                  /\ Forall (fun d => d <= maxBackoff c) rest.
Proof.
  destruct n as [|n]; [left; reflexivity|].
  right. eexists. split; [reflexivity | apply backoffsFrom_tail_bounded].
Qed.

(** X5. In a call that reaches the retry loop the first sleep, if there is
    one, lasts the initial backoff, and no later sleep lasts longer than the
    maximal backoff. *)
Theorem sleeps_bounded {T : Type} (unmarshal : string -> T -> T * option error)
    (c : Client) (w : World) (req : Request) (command : string)
    (params : gmap string string) (result : option T) :
  limiterWait w = None ->
  parseURL w (baseURL c) = None ->
  0 <= maxRetries c ->
  (sleeps (fst (Do c w req)) = []
   \/ exists rest, sleeps (fst (Do c w req)) = initialBackoff c :: rest
                   /\ Forall (fun d => d <= maxBackoff c) rest)
  /\ (sleeps (fst (makeFormRequest unmarshal c w command params result)) = []
      \/ exists rest,
           sleeps (fst (makeFormRequest unmarshal c w command params result))
           = initialBackoff c :: rest
           /\ Forall (fun d => d <= maxBackoff c) rest).
Proof.
  intros Hwait Hurl HR.
  assert (Hfuel : Z.to_nat (maxRetries c + 1) = S (Z.to_nat (maxRetries c))) by lia.
  assert (Hsum : Z.of_nat 0 + Z.of_nat (Z.to_nat (maxRetries c)) = maxRetries c) by lia.
  unfold Do, makeFormRequest. rewrite Hwait, Hurl, Hfuel. change 0 with (Z.of_nat 0).
  split.
  - destruct (doLoop_shape c w (injectHeaders c req) (Z.to_nat (maxRetries c)) 0
                (initialBackoff c) None Hsum) as (_ & H2).
    trace. rewrite H2. apply backoffsFrom_head.
  - destruct (formLoop_shape c w unmarshal command (formRequest c command params) result
                (Z.to_nat (maxRetries c)) 0 (initialBackoff c) None Hsum) as (_ & H2).
    trace. rewrite H2. apply backoffsFrom_head.
Qed.

Lemma sleeps_bounded_witness :
  exists rest,
    sleeps (fst (Do (scenario.capClient 4) scenario.always500 scenario.getTest))
    = 100 * Millisecond :: rest
    /\ Forall (fun d => d <= 200 * Millisecond) rest.
Proof.
  destruct (proj1 (sleeps_bounded scenario.unmarshalUnit (scenario.capClient 4)
                     scenario.always500 scenario.getTest "getHostStatus" ∅ (Some tt)
                     eq_refl eq_refl ltac:(discriminate))) as [H|H].
  - discriminate H.
  - exact H.
Defined.

(** *** Response bodies *)

Lemma closes_app (t1 t2 : list event) :
  closes (t1 ++ t2) = (closes t1 + closes t2)%nat.
Proof. unfold closes. rewrite List.filter_app, length_app. reflexivity. Qed.

Lemma closes_debugf (c : Client) (format : string) (args : list logArg) :
  closes (fst (debugf c format args)) = 0%nat.
Proof. destruct (debugf_trace c format args) as [H|H]; rewrite H; reflexivity. Qed.

Lemma responsesIn_S (w : World) (a n : nat) :
  responsesIn w a (S n)
  = (oneIf (isResponse (roundTrips w a)) + responsesIn w (S a) n)%nat.
Proof.
  unfold responsesIn. cbn [seq List.map List.filter].
  destruct (isResponse (roundTrips w a)); reflexivity.
Qed.

Section Closes.

Variables (c : Client) (w : World).

Lemma doLoop_closes_step (req : Request) (r a : nat) (b : Duration)
    (le : option error) :
  (transientOutcome (roundTrips w a) = true ->
   Z.of_nat a < maxRetries c ->
   closes (fst (doLoop c w req (S r) (Z.of_nat a) b le))
   = (oneIf (isResponse (roundTrips w a))
      + closes (fst (doLoop c w req r (Z.of_nat (S a)) (calculateNextBackoff c b)
                       (Some (terminalError (roundTrips w a))))))%nat)
  /\ (transientOutcome (roundTrips w a) = true ->
      Z.of_nat a = maxRetries c ->
      closes (fst (doLoop c w req (S r) (Z.of_nat a) b le))
      = oneIf (isResponse (roundTrips w a)))
  /\ (transientOutcome (roundTrips w a) = false ->
      closes (fst (doLoop c w req (S r) (Z.of_nat a) b le)) = 0%nat).
Proof.
  assert (Hs : Z.of_nat a + 1 = Z.of_nat (S a)) by lia.
  cbn [doLoop]. rewrite Nat2Z.id.
  split; [|split].
  - intros Ht Hlt. apply Z.ltb_lt in Hlt.
    destruct (roundTrips w a) as [err|resp]; cbn [transientOutcome] in Ht;
      rewrite Ht, Hlt, Hs, !bind_fst, !closes_app, !closes_debugf; reflexivity.
  - intros Ht Heq.
    assert (Hlt : (Z.of_nat a <? maxRetries c) = false) by (apply Z.ltb_ge; lia).
    destruct (roundTrips w a) as [err|resp]; cbn [transientOutcome] in Ht;
      rewrite Ht, Hlt, !bind_fst, !closes_app, !closes_debugf; reflexivity.
  - intros Ht.
    destruct (roundTrips w a) as [err|resp]; cbn [transientOutcome] in Ht;
      rewrite Ht, !bind_fst, !closes_app, !closes_debugf; reflexivity.
Qed.

(** The loop of [Do] closes the body of every response it received, but for
    the one it returns. *)
Lemma doLoop_closes (req : Request) (r : nat) :
  forall (a : nat) (b : Duration) (le : option error),
  Z.of_nat a + Z.of_nat r = maxRetries c ->
  (closes (fst (doLoop c w req (S r) (Z.of_nat a) b le))
   + match snd (doLoop c w req (S r) (Z.of_nat a) b le) with
     | Ok _ => 1
     | Err _ => 0
     end
   = responsesIn w a (requests (fst (doLoop c w req (S r) (Z.of_nat a) b le))))%nat.
Proof.
  induction r as [|r IH]; intros a b le Hsum;
    destruct (transientOutcome (roundTrips w a)) eqn:Ht.
  - destruct (doLoop_closes_step req 0 a b le) as (_ & C2 & _).
    destruct (doLoop_last c w req 0 a b le Ht) as (H1 & H2 & _); [lia|].
    rewrite H1, H2, C2 by (assumption || lia).
    rewrite responsesIn_S. cbn. lia.
  - destruct (doLoop_closes_step req 0 a b le) as (_ & _ & C3).
    destruct (doLoop_stop c w req 0 a b le Ht) as (H1 & H2 & _).
    rewrite H1, H2, C3 by assumption. rewrite responsesIn_S.
    destruct (roundTrips w a); cbn; reflexivity.
  - destruct (doLoop_closes_step req (S r) a b le) as (C1' & _ & _).
    destruct (doLoop_retry c w req (S r) a b le Ht) as (H1 & H2 & _); [lia|].
    rewrite H1, H2, C1' by (assumption || lia).
    rewrite responsesIn_S, <- (IH (S a)) by lia. lia.
  - destruct (doLoop_closes_step req (S r) a b le) as (_ & _ & C3').
    destruct (doLoop_stop c w req (S r) a b le Ht) as (H1 & H2 & _).
    rewrite H1, H2, C3' by assumption. rewrite responsesIn_S.
    destruct (roundTrips w a); cbn; reflexivity.
Qed.

Context {T : Type}.
Variable unmarshal : string -> T -> T * option error.

Lemma formFinish_closes (resp : Response) (result : option T) :
  closes (fst (formFinish unmarshal c resp result)) = 1%nat.
Proof.
  unfold formFinish, debugf.
  destruct ((StatusCode resp <? 200) || (StatusCode resp >=? 300)), (debugEnabled c);
    try reflexivity;
    destruct result as [v|]; try reflexivity;
    destruct (BodyErr resp); try reflexivity;
    destruct (unmarshal (Body resp) v) as [v' [e|]]; reflexivity.
Qed.

Lemma formLoop_closes_step (command : string) (req : Request) (result : option T)
    (r a : nat) (b : Duration) (le : option error) :
  (transientOutcome (roundTrips w a) = true ->
   Z.of_nat a < maxRetries c ->
   closes (fst (formLoop unmarshal c w command req result (S r) (Z.of_nat a) b le))
   = (oneIf (isResponse (roundTrips w a))
      + closes (fst (formLoop unmarshal c w command req result r (Z.of_nat (S a))
                       (calculateNextBackoff c b)
                       (Some (terminalError (roundTrips w a))))))%nat)
  /\ ((transientOutcome (roundTrips w a) = false
       \/ Z.of_nat a = maxRetries c) ->
      closes (fst (formLoop unmarshal c w command req result (S r) (Z.of_nat a) b le))
      = oneIf (isResponse (roundTrips w a))).
Proof.
  assert (Hs : Z.of_nat a + 1 = Z.of_nat (S a)) by lia.
  cbn [formLoop]. rewrite Nat2Z.id.
  split.
  - intros Ht Hlt. apply Z.ltb_lt in Hlt.
    destruct (roundTrips w a) as [err|resp]; cbn [transientOutcome] in Ht;
      rewrite Ht, Hlt, Hs, !bind_fst, !closes_app, !closes_debugf; reflexivity.
  - intros Hcase.
    destruct (roundTrips w a) as [err|resp]; cbn [transientOutcome] in Hcase.
    + destruct (isTransientNetworkError (Some err)),
        (Z.of_nat a <? maxRetries c) eqn:Hlt;
        try (rewrite !bind_fst, !closes_app, !closes_debugf; reflexivity).
      apply Z.ltb_lt in Hlt. destruct Hcase as [Hc|Hc]; [discriminate | lia].
    + destruct (isTransientHTTPError (StatusCode resp)) eqn:Ht.
      * destruct (Z.of_nat a <? maxRetries c) eqn:Hlt;
          [|rewrite !bind_fst, !closes_app, !closes_debugf; reflexivity].
        apply Z.ltb_lt in Hlt. destruct Hcase as [Hc|Hc]; [congruence | lia].
      * rewrite !bind_fst, !closes_app, !closes_debugf, formFinish_closes. reflexivity.
Qed.

(** The loop of [makeFormRequest] closes the body of every response it
    received. *)
Lemma formLoop_closes (command : string) (req : Request) (result : option T)
    (r : nat) :
  forall (a : nat) (b : Duration) (le : option error),
  Z.of_nat a + Z.of_nat r = maxRetries c ->
  closes (fst (formLoop unmarshal c w command req result (S r) (Z.of_nat a) b le))
  = responsesIn w a
      (requests (fst (formLoop unmarshal c w command req result (S r)
                        (Z.of_nat a) b le))).
Proof.
  induction r as [|r IH]; intros a b le Hsum;
    destruct (transientOutcome (roundTrips w a)) eqn:Ht.
  - destruct (formLoop_closes_step command req result 0 a b le) as (_ & C2).
    destruct (formLoop_last unmarshal c w command req result 0 a b le Ht)
      as (H1 & _ & _); [lia|].
    rewrite H1, C2 by (right; lia). rewrite responsesIn_S. cbn. lia.
  - destruct (formLoop_closes_step command req result 0 a b le) as (_ & C2).
    destruct (formLoop_stop unmarshal c w command req result 0 a b le Ht)
      as (H1 & _ & _).
    rewrite H1, C2 by (left; assumption). rewrite responsesIn_S. cbn. lia.
  - destruct (formLoop_closes_step command req result (S r) a b le) as (C1 & _).
    destruct (formLoop_retry unmarshal c w command req result (S r) a b le Ht)
      as (H1 & _ & _); [lia|].
    rewrite H1, C1 by (assumption || lia).
    rewrite responsesIn_S, <- (IH (S a)) by lia. reflexivity.
  - destruct (formLoop_closes_step command req result (S r) a b le) as (_ & C2).
    destruct (formLoop_stop unmarshal c w command req result (S r) a b le Ht)
      as (H1 & _ & _).
    rewrite H1, C2 by (left; assumption). rewrite responsesIn_S. cbn. lia.
Qed.

End Closes.

(** X6. [makeFormRequest] closes the body of every response it received,
    once each, on every path out of the call: the number of closes is the
    number of attempts that were answered with a response. *)
Theorem form_request_closes_every_body {T : Type}
    (unmarshal : string -> T -> T * option error)
    (c : Client) (w : World) (command : string) (params : gmap string string)
    (result : option T) :
  closes (fst (makeFormRequest unmarshal c w command params result))
  = responsesIn w 0
      (requests (fst (makeFormRequest unmarshal c w command params result))).
Proof.
  unfold makeFormRequest.
  destruct (limiterWait w); [reflexivity|].
  destruct (parseURL w (baseURL c)).
  { rewrite !bind_fst, !closes_app, closes_debugf. trace. reflexivity. }
  rewrite !bind_fst, !closes_app, closes_debugf. trace.
  destruct (Z.le_gt_cases 0 (maxRetries c)) as [HR|HR].
  - replace (Z.to_nat (maxRetries c + 1)) with (S (Z.to_nat (maxRetries c))) by lia.
    change 0 with (Z.of_nat 0).
    apply (formLoop_closes c w unmarshal command); lia.
  - replace (Z.to_nat (maxRetries c + 1)) with 0%nat by lia. reflexivity.
Qed.

(** X7. [Do] closes the body of every response it retried on and leaves
    open only the body of the response it returns: the closes, plus one when
    a response is returned, count the attempts that were answered with a
    response. *)
Theorem Do_closes_all_but_returned (c : Client) (w : World) (req : Request) :
  (closes (fst (Do c w req))
   + match snd (Do c w req) with
     | Ok _ => 1
     | Err _ => 0
     end
   = responsesIn w 0 (requests (fst (Do c w req))))%nat.
Proof.
  unfold Do.
  destruct (limiterWait w); [reflexivity|].
  rewrite !bind_fst, !bind_snd, !closes_app. trace.
  destruct (Z.le_gt_cases 0 (maxRetries c)) as [HR|HR].
  - replace (Z.to_nat (maxRetries c + 1)) with (S (Z.to_nat (maxRetries c))) by lia.
    change 0 with (Z.of_nat 0).
    apply (doLoop_closes c w); lia.
  - replace (Z.to_nat (maxRetries c + 1)) with 0%nat by lia. reflexivity.
Qed.

(** X8. With a negative [maxRetries] and a granted token, neither path
    issues a request: the loop is not entered and the call fails with the
    retry-exhaustion error, built around no cause. *)
Theorem negative_retries_send_nothing {T : Type}
    (unmarshal : string -> T -> T * option error)
    (c : Client) (w : World) (req : Request) (command : string)
    (params : gmap string string) (result : option T) :
  maxRetries c < 0 ->
  limiterWait w = None ->
  Do c w req = ([EvWait], Err (retriesExhausted c None))
  /\ requests (fst (makeFormRequest unmarshal c w command params result)) = 0%nat
  /\ (parseURL w (baseURL c) = None ->
      snd (makeFormRequest unmarshal c w command params result)
      = (result, Some (retriesExhausted c None))).
Proof.
  intros HR Hwait. unfold Do, makeFormRequest. rewrite Hwait.
  replace (Z.to_nat (maxRetries c + 1)) with 0%nat by lia.
  split; [reflexivity|]. split.
  - destruct (parseURL w (baseURL c)); trace; reflexivity.
  - intros ->. reflexivity.
Qed.

Lemma negative_retries_send_nothing_witness :
  Do (scenario.capClient (- 1)) scenario.always500 scenario.getTest
  = ([EvWait], Err (errorString "request failed after -1 retries: %!w(<nil>)")).
Proof.
  refine (proj1 (negative_retries_send_nothing scenario.unmarshalUnit
                   (scenario.capClient (- 1)) scenario.always500 scenario.getTest
                   "getHostStatus" ∅ (Some tt) _ eq_refl)).
  reflexivity.
Defined.

(** *** The result target and the logger *)

Lemma formLoop_target {T : Type} (unmarshal : string -> T -> T * option error)
    (c : Client) (w : World) (command : string) (req : Request)
    (result : option T) (r : nat) :
  forall (a : Z) (b : Duration) (le : option error),
  List.filter isUnmarshal
    (fst (formLoop unmarshal c w command req result r a b le)) = [] ->
  fst (snd (formLoop unmarshal c w command req result r a b le)) = result.
Proof.
  induction r as [|r IH]; intros a b le H; [reflexivity|].
  cbn [formLoop] in *. unfold formFinish, debugf in *.
  destruct (roundTrips w (Z.to_nat a)) as [err|resp].
  - destruct (isTransientNetworkError (Some err)), (a <? maxRetries c),
      (debugEnabled c); try reflexivity;
      rewrite !bind_snd; apply IH;
      rewrite !bind_fst, !List.filter_app in H; exact H.
  - destruct (isTransientHTTPError (StatusCode resp)).
    + destruct (a <? maxRetries c), (debugEnabled c); try reflexivity;
        rewrite !bind_snd; apply IH;
        rewrite !bind_fst, !List.filter_app in H; exact H.
    + destruct ((StatusCode resp <? 200) || (StatusCode resp >=? 300)),
        (debugEnabled c); try reflexivity;
        destruct result as [v|]; try reflexivity;
        destruct (BodyErr resp); try reflexivity;
        destruct (unmarshal (Body resp) v) as [v' [e|]];
        rewrite !bind_fst, !List.filter_app in H; cbn in H;
        discriminate H.
Qed.

(** X9. [makeFormRequest] writes to the result target only through the
    decoder: in a run in which [json.Unmarshal] was not called (the limiter
    or the transport failed, the status was not 2xx, the retries were used
    up, or the body could not be read), the target holds what it held
    before the call. *)
Theorem target_untouched_without_decode {T : Type}
    (unmarshal : string -> T -> T * option error)
    (c : Client) (w : World) (command : string) (params : gmap string string)
    (result : option T) :
  List.filter isUnmarshal
    (fst (makeFormRequest unmarshal c w command params result)) = [] ->
  fst (snd (makeFormRequest unmarshal c w command params result)) = result.
Proof.
  unfold makeFormRequest, debugf. intros H.
  destruct (limiterWait w); [reflexivity|].
  destruct (parseURL w (baseURL c)); [reflexivity|].
  rewrite !bind_snd. apply formLoop_target.
  destruct (debugEnabled c); rewrite !bind_fst, !List.filter_app in H; exact H.
Qed.

Lemma target_untouched_without_decode_witness :
  fst (snd (makeFormRequest scenario.unmarshalUnit scenario.client3
              (scenario.answering [scenario.response500; scenario.response404])
              "getHostStatus" ∅ (Some tt))) = Some tt.
Proof.
  exact (target_untouched_without_decode scenario.unmarshalUnit scenario.client3
           (scenario.answering [scenario.response500; scenario.response404])
           "getHostStatus" ∅ (Some tt) eq_refl).
Defined.

Lemma doLoop_quiet_log (c : Client) (w : World) (req : Request) (r : nat) :
  debugEnabled c = false ->
  forall (a : Z) (b : Duration) (le : option error),
  List.filter isLog (fst (doLoop c w req r a b le)) = [].
Proof.
  intros Hd. induction r as [|r IH]; intros a b le; [reflexivity|].
  cbn [doLoop]. unfold debugf. rewrite Hd.
  destruct (roundTrips w (Z.to_nat a)) as [err|resp].
  - destruct (isTransientNetworkError (Some err)), (a <? maxRetries c);
      rewrite ?bind_fst, ?List.filter_app, ?IH; reflexivity.
  - destruct (isTransientHTTPError (StatusCode resp)), (a <? maxRetries c);
      rewrite ?bind_fst, ?List.filter_app, ?IH; reflexivity.
Qed.

Lemma formLoop_quiet_log {T : Type} (unmarshal : string -> T -> T * option error)
    (c : Client) (w : World) (command : string) (req : Request)
    (result : option T) (r : nat) :
  debugEnabled c = false ->
  forall (a : Z) (b : Duration) (le : option error),
  List.filter isLog (fst (formLoop unmarshal c w command req result r a b le)) = [].
Proof.
  intros Hd. induction r as [|r IH]; intros a b le; [reflexivity|].
  cbn [formLoop]. unfold formFinish, debugf. rewrite Hd.
  destruct (roundTrips w (Z.to_nat a)) as [err|resp].
  - destruct (isTransientNetworkError (Some err)), (a <? maxRetries c);
      rewrite ?bind_fst, ?List.filter_app, ?IH; reflexivity.
  - destruct (isTransientHTTPError (StatusCode resp)).
    + destruct (a <? maxRetries c);
        rewrite ?bind_fst, ?List.filter_app, ?IH; reflexivity.
    + destruct ((StatusCode resp <? 200) || (StatusCode resp >=? 300));
        try reflexivity;
        destruct result as [v|]; try reflexivity;
        destruct (BodyErr resp); try reflexivity;
        destruct (unmarshal (Body resp) v) as [v' [e|]]; reflexivity.
Qed.

(** X10. With debug disabled the executor never calls the logger, on either
    path and whatever happens during the call. *)
Theorem no_logging_without_debug {T : Type}
    (unmarshal : string -> T -> T * option error)
    (c : Client) (w : World) (req : Request) (command : string)
    (params : gmap string string) (result : option T) :
  debugEnabled c = false ->
  List.filter isLog (fst (Do c w req)) = []
  /\ List.filter isLog (fst (makeFormRequest unmarshal c w command params result)) = [].
Proof.
  intros Hd. unfold Do, makeFormRequest, debugf. rewrite Hd. split.
  - destruct (limiterWait w); [reflexivity|].
    rewrite bind_fst, List.filter_app, doLoop_quiet_log by exact Hd. reflexivity.
  - destruct (limiterWait w); [reflexivity|].
    destruct (parseURL w (baseURL c)); [reflexivity|].
    rewrite !bind_fst, !List.filter_app, formLoop_quiet_log by exact Hd. reflexivity.
Qed.

Lemma no_logging_without_debug_witness :
  List.filter isLog (fst (Do scenario.client3 scenario.always500 scenario.getTest)) = [].
Proof.
  exact (proj1 (no_logging_without_debug scenario.unmarshalUnit scenario.client3
                  scenario.always500 scenario.getTest "getHostStatus" ∅ (Some tt)
                  eq_refl)).
Defined.

(** X11. The network classifier looks at the outermost error value only. A
    timeout stays transient inside a [*url.Error], which passes the timeout
    signal of its cause on; an error made with [fmt.Errorf] and [%w] is never
    transient, whatever it wraps, and neither is a plain [errors.New]
    error: the classifier does not walk the chain of causes. *)
Theorem classifier_reads_outer_error :
  (forall (op url : string) (e : error),
     isTransientNetworkError (Some (URLError op url e)) = okAnd (Timeout e))
  /\ (forall (msg : string) (e : error),
        isTransientNetworkError (Some (wrapError msg e)) = false)
  /\ (forall msg : string, isTransientNetworkError (Some (errorString msg)) = false)
  /\ isTransientNetworkError
       (Some (wrapError "failed: timeout" scenario.timeoutError)) = false
  /\ isTransientNetworkError
       (Some (URLError "Post" "https://api.example.com" scenario.timeoutError)) = true.
Proof. repeat split. Qed.

(** *** What a success means *)

Lemma doLoop_success (c : Client) (w : World) (req : Request) (r : nat) :
  forall (a : Z) (b : Duration) (le : option error) (resp : Response),
  snd (doLoop c w req r a b le) = Ok resp ->
  exists n : nat,
    roundTrips w n = rtResp resp
    /\ isTransientHTTPError (StatusCode resp) = false.
Proof.
  induction r as [|r IH]; intros a b le resp H; [discriminate H|].
  cbn [doLoop] in H. rewrite ?bind_snd in H.
  destruct (roundTrips w (Z.to_nat a)) as [err|resp0] eqn:Ert.
  - destruct (isTransientNetworkError (Some err)); [|discriminate H].
    destruct (a <? maxRetries c); [|discriminate H].
    rewrite ?bind_snd in H. exact (IH _ _ _ _ H).
  - destruct (isTransientHTTPError (StatusCode resp0)) eqn:Ht.
    + rewrite ?bind_snd in H.
      destruct (a <? maxRetries c); [|discriminate H].
      rewrite ?bind_snd in H. exact (IH _ _ _ _ H).
    + injection H as <-. exists (Z.to_nat a). split; assumption.
Qed.

(** X12. A response that [Do] returns as its result was received from the
    transport during this call and does not carry a transient status: a
    429, 500, 502, 503 or 504 response never reaches the caller. *)
Theorem Do_returns_settled_response (c : Client) (w : World) (req : Request)
    (resp : Response) :
  snd (Do c w req) = Ok resp ->
  (exists n : nat, roundTrips w n = rtResp resp)
  /\ StatusCode resp <> 429 /\ StatusCode resp <> 500 /\ StatusCode resp <> 502
  /\ StatusCode resp <> 503 /\ StatusCode resp <> 504.
Proof.
  unfold Do. intros H. rewrite ?bind_snd in H.
  destruct (limiterWait w); [discriminate H|].
  destruct (doLoop_success c w _ _ _ _ _ _ H) as (n & Hn & Ht).
  split; [exists n; exact Hn|].
  repeat split; intros E; rewrite E in Ht; discriminate Ht.
Qed.

Lemma Do_returns_settled_response_witness :
  (exists n : nat,
     roundTrips (scenario.answering [scenario.response500; scenario.response404]) n
     = rtResp scenario.response404)
  /\ StatusCode scenario.response404 <> 429 /\ StatusCode scenario.response404 <> 500
  /\ StatusCode scenario.response404 <> 502 /\ StatusCode scenario.response404 <> 503
  /\ StatusCode scenario.response404 <> 504.
Proof.
  exact (Do_returns_settled_response scenario.client3
           (scenario.answering [scenario.response500; scenario.response404])
           scenario.getTest scenario.response404 eq_refl).
Defined.

Lemma formFinish_success {T : Type} (unmarshal : string -> T -> T * option error)
    (c : Client) (resp : Response) (result : option T) :
  snd (snd (formFinish unmarshal c resp result)) = None ->
  200 <= StatusCode resp < 300
  /\ match result with
     | None => fst (snd (formFinish unmarshal c resp result)) = None
     | Some v =>
         BodyErr resp = None
         /\ snd (unmarshal (Body resp) v) = None
         /\ fst (snd (formFinish unmarshal c resp result))
            = Some (fst (unmarshal (Body resp) v))
     end.
Proof.
  unfold formFinish. intros H.
  destruct (Z.ltb_spec (StatusCode resp) 200) as [Hlo|Hlo];
    [rewrite ?bind_snd in H; discriminate H|].
  destruct (StatusCode resp >=? 300) eqn:Hhi;
    [rewrite ?bind_snd in H; discriminate H|].
  rewrite Z.geb_leb in Hhi. apply Z.leb_gt in Hhi.
  cbn [orb] in *. split; [lia|].
  destruct result as [v|]; [|reflexivity].
  rewrite ?bind_snd in *.
  destruct (BodyErr resp); [discriminate H|].
  rewrite ?bind_snd in *.
  destruct (unmarshal (Body resp) v) as [v' [e|]]; [discriminate H|].
  repeat split.
Qed.

Lemma formLoop_success {T : Type} (unmarshal : string -> T -> T * option error)
    (c : Client) (w : World) (command : string) (req : Request)
    (result : option T) (r : nat) :
  forall (a : Z) (b : Duration) (le : option error),
  snd (snd (formLoop unmarshal c w command req result r a b le)) = None ->
  exists (n : nat) (resp : Response),
    roundTrips w n = rtResp resp
    /\ snd (formLoop unmarshal c w command req result r a b le)
       = snd (formFinish unmarshal c resp result)
    /\ snd (snd (formFinish unmarshal c resp result)) = None.
Proof.
  induction r as [|r IH]; intros a b le H; [discriminate H|].
  cbn [formLoop] in *. rewrite ?bind_snd in *.
  destruct (roundTrips w (Z.to_nat a)) as [err|resp0] eqn:Ert.
  - destruct (isTransientNetworkError (Some err)); [|discriminate H].
    destruct (a <? maxRetries c); [|discriminate H].
    rewrite ?bind_snd in *. exact (IH _ _ _ H).
  - destruct (isTransientHTTPError (StatusCode resp0)) eqn:Ht.
    + rewrite ?bind_snd in *.
      destruct (a <? maxRetries c); [|discriminate H].
      rewrite ?bind_snd in *. exact (IH _ _ _ H).
    + exists (Z.to_nat a), resp0. repeat split; assumption.
Qed.

(** X13. [makeFormRequest] returns a nil error only when some attempt of
    this call was answered with a 2xx response; and when the caller gave a
    target, only when the body of that response was read in full and decoded
    without error, the target then holding the decoded value. *)
Theorem form_request_success_means_decoded {T : Type}
    (unmarshal : string -> T -> T * option error)
    (c : Client) (w : World) (command : string) (params : gmap string string)
    (result : option T) :
  snd (snd (makeFormRequest unmarshal c w command params result)) = None ->
  exists (n : nat) (resp : Response),
    roundTrips w n = rtResp resp
    /\ 200 <= StatusCode resp < 300
    /\ match result with
       | None => fst (snd (makeFormRequest unmarshal c w command params result)) = None
       | Some v =>
           BodyErr resp = None
           /\ snd (unmarshal (Body resp) v) = None
           /\ fst (snd (makeFormRequest unmarshal c w command params result))
              = Some (fst (unmarshal (Body resp) v))
       end.
Proof.
  unfold makeFormRequest. intros H. rewrite ?bind_snd in *.
  destruct (limiterWait w); [discriminate H|].
  rewrite ?bind_snd in *.
  destruct (parseURL w (baseURL c)); [discriminate H|].
  destruct (formLoop_success unmarshal c w _ _ _ _ _ _ _ H) as (n & resp & Hn & Heq & Hok).
  exists n, resp. split; [exact Hn|].
  rewrite Heq. exact (formFinish_success unmarshal c resp result Hok).
Qed.

Lemma form_request_success_means_decoded_witness :
  exists (n : nat) (resp : Response),
    roundTrips (scenario.answering [scenario.response500; scenario.response200]) n
    = rtResp resp
    /\ 200 <= StatusCode resp < 300
    /\ BodyErr resp = None
    /\ snd (scenario.unmarshalUnit (Body resp) tt) = None
    /\ fst (snd (makeFormRequest scenario.unmarshalUnit scenario.client3
                   (scenario.answering [scenario.response500; scenario.response200])
                   "getHostStatus" ∅ (Some tt)))
       = Some (fst (scenario.unmarshalUnit (Body resp) tt)).
Proof.
  exact (form_request_success_means_decoded scenario.unmarshalUnit scenario.client3
           (scenario.answering [scenario.response500; scenario.response200])
           "getHostStatus" ∅ (Some tt) eq_refl).
Defined.

(** ** Part VII. The operations built on the executor *)

Import api.

Lemma formData_lookup (c : Client) (command : string) (params : gmap string string)
    (k : string) :
  formData c command params !! k
  = match params !! k with
    | Some v => Some v
    | None =>
        if String.eqb k "cmd" then Some command
        else if String.eqb k "key" then Some (apiKey c)
        else if String.eqb k "response" then Some "json"
        else None
    end.
Proof.
  unfold formData. rewrite lookup_union.
  destruct (params !! k) as [v|] eqn:Ek.
  - match goal with |- Some v ∪ ?x = _ => destruct x end; reflexivity.
  - rewrite (left_id None _).
    destruct (String.eqb_spec k "cmd") as [->|H1]; [reflexivity|].
    rewrite lookup_insert_ne by congruence.
    destruct (String.eqb_spec k "key") as [->|H2]; [reflexivity|].
    rewrite lookup_insert_ne by congruence.
    destruct (String.eqb_spec k "response") as [->|H3]; [reflexivity|].
    rewrite lookup_insert_ne by congruence. apply lookup_empty.
Qed.

Lemma formRequest_Form (c : Client) (command : string) (params : gmap string string) :
  Form (formRequest c command params) = formData c command params.
Proof. reflexivity. Qed.

Section OneCall.

Context {R : Type}.
Variable unmarshal : string -> R -> R * option error.
Variables (c : Client) (w : World) (command : string) (params : gmap string string).

Lemma makeFormRequest_sent (result : option R) :
  Forall (fun q => q = formRequest c command params)
    (sent (fst (makeFormRequest unmarshal c w command params result))).
Proof.
  unfold makeFormRequest. destruct (limiterWait w); [constructor|].
  rewrite !bind_fst, !sent_app, sent_debugf. cbn [tell fst snd sent app].
  destruct (parseURL w (baseURL c)); [constructor|]. apply formLoop_sent.
Qed.

Lemma makeFormRequest_acquisitions (result : option R) :
  acquisitions (fst (makeFormRequest unmarshal c w command params result)) = 1%nat.
Proof.
  unfold makeFormRequest. destruct (limiterWait w); [reflexivity|].
  destruct (parseURL w (baseURL c)); trace; [reflexivity|].
  rewrite formLoop_acquisitions. reflexivity.
Qed.

(** A call with a target that returns no error was answered 2xx and decoded. *)
Lemma makeFormRequest_success (zero : R) :
  snd (snd (makeFormRequest unmarshal c w command params (Some zero))) = None ->
  exists (n : nat) (resp : Response),
    roundTrips w n = rtResp resp
    /\ 200 <= StatusCode resp < 300
    /\ BodyErr resp = None
    /\ snd (unmarshal (Body resp) zero) = None
    /\ fst (snd (makeFormRequest unmarshal c w command params (Some zero)))
       = Some (fst (unmarshal (Body resp) zero)).
Proof.
  unfold makeFormRequest. intros H. rewrite ?bind_snd in *.
  destruct (limiterWait w); [discriminate H|].
  rewrite ?bind_snd in *.
  destruct (parseURL w (baseURL c)); [discriminate H|].
  destruct (formLoop_success unmarshal c w _ _ _ _ _ _ _ H)
    as (n & resp & Hn & Heq & Hok).
  exists n, resp. split; [exact Hn|].
  rewrite Heq.
  destruct (formFinish_success unmarshal c resp (Some zero) Hok) as (Hs & Hb & Hu & Hv).
  auto.
Qed.

End OneCall.

(** A parameter the operation sets reaches the form. *)
Lemma carries_formRequest (c : Client) (command : string)
    (params : gmap string string) (k v : string) :
  params !! "cmd" = None -> params !! "key" = None -> params !! "response" = None ->
  params !! k = Some v ->
  carries c (formRequest c command params) command k v.
Proof.
  intros H1 H2 H3 Hk. unfold carries.
  rewrite formRequest_Form, !formData_lookup, H1, H2, H3, Hk. repeat split.
Qed.

(** *** Host commands *)

Lemma hostid_params (id : Z) :
  let params : gmap string string := {[ "hostid" := Itoa id ]} in
  params !! "cmd" = None /\ params !! "key" = None /\ params !! "response" = None
  /\ params !! "hostid" = Some (Itoa id).
Proof.
  cbv zeta. rewrite !lookup_singleton_ne by discriminate.
  rewrite lookup_singleton_eq. repeat split.
Qed.

(** The three host commands have one shape: the call, then the envelope. *)
Lemma host_command_shape (unmarshal : hostDecoder) (c : Client) (w : World)
    (command prefix : string) (id : Z) :
  let call : M (option error) :=
    (r <- makeFormRequest unmarshal c w command
            ({[ "hostid" := Itoa id ]} : gmap string string)
            (Some zeroHostResponse) ;;
     match snd r with
     | Some err => ret (Some (Errorf_w prefix (Some err)))
     | None =>
         if negb (HR_ErrorCode (default zeroHostResponse (fst r)) =? 0)
         then ret (Some (apiError (HR_ErrorCode (default zeroHostResponse (fst r)))
                           (HR_Message (default zeroHostResponse (fst r)))))
         else ret None
     end) in
  (snd call = None -> answeredZero unmarshal zeroHostResponse HR_ErrorCode w)
  /\ Forall (fun q => carries c q command "hostid" (Itoa id)) (sent (fst call))
  /\ acquisitions (fst call) = 1%nat.
Proof.
  cbv zeta. unfold answeredZero.
  pose proof (makeFormRequest_sent unmarshal c w command
                ({[ "hostid" := Itoa id ]} : gmap string string)
                (Some zeroHostResponse)) as Hsent.
  pose proof (makeFormRequest_acquisitions unmarshal c w command
                ({[ "hostid" := Itoa id ]} : gmap string string)
                (Some zeroHostResponse)) as Hacq.
  pose proof (makeFormRequest_success unmarshal c w command
                ({[ "hostid" := Itoa id ]} : gmap string string)
                zeroHostResponse) as Hok.
  destruct (hostid_params id) as (P1 & P2 & P3 & P4).
  assert (Hcar : Forall (fun q => carries c q command "hostid" (Itoa id))
                   (sent (fst (makeFormRequest unmarshal c w command
                                 ({[ "hostid" := Itoa id ]} : gmap string string)
                                 (Some zeroHostResponse))))).
  { eapply Forall_impl; [exact Hsent|].
    intros q ->. apply carries_formRequest; assumption. }
  rewrite !bind_fst, !bind_snd.
  destruct (makeFormRequest unmarshal c w command
              ({[ "hostid" := Itoa id ]} : gmap string string)
              (Some zeroHostResponse)) as [tr [target err]].
  cbn [fst snd] in *.
  destruct err as [err|].
  - cbn [ret fst snd]. rewrite sent_app, acquisitions_app. cbn [sent acquisitions
      List.filter length app]. rewrite (List.app_nil_r (sent tr)), Nat.add_0_r.
    split; [discriminate|]. split; assumption.
  - destruct (Hok eq_refl) as (n & resp & Hn & Hs & Hb & Hu & Ht). subst target.
    unfold default, from_option, Datatypes.id.
    destruct (HR_ErrorCode (fst (unmarshal (Body resp) zeroHostResponse)) =? 0) eqn:E;
      cbn [negb ret fst snd]; rewrite sent_app, acquisitions_app;
      cbn [sent acquisitions List.filter length app]; rewrite (List.app_nil_r (sent tr)), Nat.add_0_r.
    + split; [|split; assumption].
      intros _. exists n, resp. apply Z.eqb_eq in E. auto.
    + split; [discriminate|]. split; assumption.
Qed.

(** X14. [DeleteHost], [DisableHostUptimeMonitoring] and
    [EnableHostUptimeMonitoring] report success only when some attempt was
    answered 2xx with an envelope that decodes without error and whose
    error code is 0. Each is one logical call: the limiter is acquired once,
    and every request sent names the command and the client's key, asks for
    JSON, and carries the host ID in decimal as [hostid]. *)
Theorem host_commands_sound (unmarshal : hostDecoder) (c : Client) (w : World)
    (id : Z) :
  ((snd (DeleteHost unmarshal c w id) = None ->
    answeredZero unmarshal zeroHostResponse HR_ErrorCode w)
   /\ Forall (fun q => carries c q "deleteHost" "hostid" (Itoa id))
        (sent (fst (DeleteHost unmarshal c w id)))
   /\ acquisitions (fst (DeleteHost unmarshal c w id)) = 1%nat)
  /\ ((snd (DisableHostUptimeMonitoring unmarshal c w id) = None ->
       answeredZero unmarshal zeroHostResponse HR_ErrorCode w)
      /\ Forall (fun q => carries c q "disableHostUptimeMonitoring" "hostid" (Itoa id))
           (sent (fst (DisableHostUptimeMonitoring unmarshal c w id)))
      /\ acquisitions (fst (DisableHostUptimeMonitoring unmarshal c w id)) = 1%nat)
  /\ ((snd (EnableHostUptimeMonitoring unmarshal c w id) = None ->
       answeredZero unmarshal zeroHostResponse HR_ErrorCode w)
      /\ Forall (fun q => carries c q "enableHostUptimeMonitoring" "hostid" (Itoa id))
           (sent (fst (EnableHostUptimeMonitoring unmarshal c w id)))
      /\ acquisitions (fst (EnableHostUptimeMonitoring unmarshal c w id)) = 1%nat).
Proof.
  split; [|split].
  - exact (host_command_shape unmarshal c w "deleteHost" "failed to delete host: " id).
  - exact (host_command_shape unmarshal c w "disableHostUptimeMonitoring"
             "failed to disable host uptime monitoring: " id).
  - exact (host_command_shape unmarshal c w "enableHostUptimeMonitoring"
             "failed to enable host uptime monitoring: " id).
Qed.

(** *** Any operation: one call, then a look at the answer *)

(** An operation that makes one call with a target, wraps a failure of the
    call with [onErr] and otherwise runs [body] on the decoded answer, where
    [body] talks to nobody: the limiter is acquired once, every request sent
    is the one form, and the result is either that of [onErr] or that of
    [body] on an answer that was served 2xx and decoded without error. *)
Lemma op_shape {R A : Type} (unmarshal : string -> R -> R * option error)
    (c : Client) (w : World) (command : string) (params : gmap string string)
    (zero : R) (onErr : error -> A) (body : R -> M A) :
  (forall x : R, sent (fst (body x)) = [] /\ acquisitions (fst (body x)) = 0%nat) ->
  let call : M A :=
    (r <- makeFormRequest unmarshal c w command params (Some zero) ;;
     match snd r with
     | Some err => ret (onErr err)
     | None => body (default zero (fst r))
     end) in
  Forall (fun q => q = formRequest c command params) (sent (fst call))
  /\ acquisitions (fst call) = 1%nat
  /\ ((exists err : error, snd call = onErr err)
      \/ exists (n : nat) (resp : Response),
           roundTrips w n = rtResp resp
           /\ 200 <= StatusCode resp < 300
           /\ BodyErr resp = None
           /\ snd (unmarshal (Body resp) zero) = None
           /\ snd call = snd (body (fst (unmarshal (Body resp) zero)))).
Proof.
  intros Hbody. cbv zeta.
  pose proof (makeFormRequest_sent unmarshal c w command params (Some zero)) as Hsent.
  pose proof (makeFormRequest_acquisitions unmarshal c w command params (Some zero))
    as Hacq.
  pose proof (makeFormRequest_success unmarshal c w command params zero) as Hok.
  rewrite !bind_fst, !bind_snd.
  destruct (makeFormRequest unmarshal c w command params (Some zero))
    as [tr [target err]].
  cbn [fst snd] in *.
  destruct err as [err|].
  - cbn [ret fst snd]. rewrite sent_app, acquisitions_app.
    cbn [sent acquisitions List.filter length].
    rewrite (List.app_nil_r (sent tr)), Nat.add_0_r.
    split; [exact Hsent|]. split; [exact Hacq|]. left. exists err. reflexivity.
  - destruct (Hok eq_refl) as (n & resp & Hn & Hs & Hb & Hu & Ht). subst target.
    unfold default, from_option, Datatypes.id.
    destruct (Hbody (fst (unmarshal (Body resp) zero))) as (Hbs & Hba).
    rewrite sent_app, acquisitions_app, Hbs, Hba.
    rewrite (List.app_nil_r (sent tr)), Nat.add_0_r.
    split; [exact Hsent|]. split; [exact Hacq|]. right. exists n, resp. auto.
Qed.

(** A parameter the operation sets is in every request of the call. *)
Lemma carries_all (c : Client) (command : string) (params : gmap string string)
    (k v : string) (l : list Request) :
  params !! "cmd" = None -> params !! "key" = None -> params !! "response" = None ->
  params !! k = Some v ->
  Forall (fun q => q = formRequest c command params) l ->
  Forall (fun q => carries c q command k v) l.
Proof.
  intros H1 H2 H3 Hk Hl. eapply Forall_impl; [exact Hl|].
  intros q ->. apply carries_formRequest; assumption.
Qed.

(** *** GetHost *)

Lemma pickHost_Ok (response : WormlyHostStatusResponse) (id : Z) (h : Host) :
  pickHost response id = Ok h ->
  HSR_ErrorCode response = 0
  /\ exists entry : HostStatus,
       List.find (fun host => HS_HostID host =? id) (HSR_Status response) = Some entry
       /\ h = mkHost (HS_HostID entry) (HS_Name entry) 60
                (HS_UptimeMonitored entry || HS_HealthMonitored entry).
Proof.
  unfold pickHost.
  destruct (HSR_ErrorCode response =? 0) eqn:E; cbn [negb]; [|discriminate].
  destruct (Z.of_nat (length (HSR_Status response)) =? 0); [discriminate|].
  destruct (List.find _ _) as [entry|] eqn:F; [|discriminate].
  intros [= <-]. apply Z.eqb_eq in E. split; [exact E|]. exists entry. auto.
Qed.

(** X15. A host that [GetHost] returns has the ID that was asked for: it is
    the first entry with that ID in the status list of an answer that was
    served 2xx with error code 0; its name is that entry's, it counts as
    enabled when the entry has uptime or health monitoring on, and its test
    interval is 60 whatever the server holds. Every request of the call is the
    [getHostStatus] form with the ID in decimal as [hostid]. *)
Theorem GetHost_sound
    (unmarshal : string -> WormlyHostStatusResponse
                 -> WormlyHostStatusResponse * option error)
    (c : Client) (w : World) (id : Z) (h : Host) :
  snd (GetHost unmarshal c w id) = Ok h ->
  Host_ID h = id
  /\ Host_TestInterval h = 60
  /\ Forall (fun q => carries c q "getHostStatus" "hostid" (Itoa id))
       (sent (fst (GetHost unmarshal c w id)))
  /\ exists (n : nat) (resp : Response) (entry : HostStatus),
       roundTrips w n = rtResp resp
       /\ 200 <= StatusCode resp < 300
       /\ HSR_ErrorCode (fst (unmarshal (Body resp) zeroHostStatusResponse)) = 0
       /\ List.find (fun host => HS_HostID host =? id)
            (HSR_Status (fst (unmarshal (Body resp) zeroHostStatusResponse)))
          = Some entry
       /\ HS_HostID entry = id
       /\ Host_Name h = HS_Name entry
       /\ Host_Enabled h = (HS_UptimeMonitored entry || HS_HealthMonitored entry)%bool.
Proof.
  intros H.
  assert (Hshape := op_shape unmarshal c w "getHostStatus"
            ({[ "hostid" := Itoa id ]} : gmap string string) zeroHostStatusResponse
            (fun err => Err (Errorf_w "failed to get host: " (Some err)))
            (fun response => ret (pickHost response id))
            (fun _ => conj eq_refl eq_refl)).
  unfold GetHost in *. cbv beta zeta in Hshape.
  destruct Hshape as (Hsent & _ & Hres).
  destruct (hostid_params id) as (P1 & P2 & P3 & P4).
  assert (Hcar := carries_all c "getHostStatus" _ "hostid" (Itoa id) _
                    P1 P2 P3 P4 Hsent).
  destruct Hres as [(err & He) | (n & resp & Hn & Hs & Hb & Hu & He)];
    rewrite H in He; [discriminate He|].
  cbn [ret snd] in He. symmetry in He.
  destruct (pickHost_Ok _ _ _ He) as (Hcode & entry & Hfind & ->).
  destruct (List.find_some _ _ Hfind) as (_ & Hid). apply Z.eqb_eq in Hid.
  cbn [Host_ID Host_TestInterval Host_Name Host_Enabled].
  split; [exact Hid|]. split; [reflexivity|]. split; [exact Hcar|].
  exists n, resp, entry. auto 10.
Qed.

Lemma GetHost_sound_witness :
  let unmarshal :=
    served.statusAnswer [served.entry 7 "db" true true;
                         served.entry 5 "web" false true] in
  let h := mkHost 5 "web" 60 true in
  Host_ID h = 5
  /\ Host_TestInterval h = 60
  /\ Forall (fun q => carries scenario.client3 q "getHostStatus" "hostid" (Itoa 5))
       (sent (fst (GetHost unmarshal scenario.client3 served.ok200 5)))
  /\ exists (n : nat) (resp : Response) (entry : HostStatus),
       roundTrips served.ok200 n = rtResp resp
       /\ 200 <= StatusCode resp < 300
       /\ HSR_ErrorCode (fst (unmarshal (Body resp) zeroHostStatusResponse)) = 0
       /\ List.find (fun host => HS_HostID host =? 5)
            (HSR_Status (fst (unmarshal (Body resp) zeroHostStatusResponse)))
          = Some entry
       /\ HS_HostID entry = 5
       /\ Host_Name h = HS_Name entry
       /\ Host_Enabled h = (HS_UptimeMonitored entry || HS_HealthMonitored entry)%bool.
Proof.
  exact (GetHost_sound
           (served.statusAnswer [served.entry 7 "db" true true;
                                 served.entry 5 "web" false true])
           scenario.client3 served.ok200 5 (mkHost 5 "web" 60 true) eq_refl).
Defined.

(** *** The errors of the real client and the not-found test *)

Lemma isNotFoundError_wrapped (prefix : string) (a : ascii) (err : error) :
  Ascii.eqb a "4" = false ->
  provider.isNotFoundError (Some (Errorf_w (String a prefix) (Some err))) = false.
Proof.
  intros Ha. unfold provider.isNotFoundError, Errorf_w. cbn [Error].
  change (String a prefix ++ Error err) with (String a (prefix ++ Error err)).
  cbn [String.eqb]. rewrite Ha. reflexivity.
Qed.

Lemma isNotFoundError_text (a : ascii) (s : string) :
  Ascii.eqb a "4" = false ->
  provider.isNotFoundError (Some (errorString (String a s))) = false.
Proof.
  intros Ha. unfold provider.isNotFoundError. cbn [Error String.eqb].
  rewrite Ha. reflexivity.
Qed.

Lemma pickHost_Err (response : WormlyHostStatusResponse) (id : Z) (err : error) :
  pickHost response id = Err err -> provider.isNotFoundError (Some err) = false.
Proof.
  unfold pickHost, hostNotFound.
  destruct (negb (HSR_ErrorCode response =? 0)).
  - intros [= <-]. apply isNotFoundError_text. reflexivity.
  - destruct (Z.of_nat (length (HSR_Status response)) =? 0).
    + intros [= <-]. apply isNotFoundError_text. reflexivity.
    + destruct (List.find _ _); [discriminate|].
      intros [= <-]. apply isNotFoundError_text. reflexivity.
Qed.

(** X16. No error that [GetHost] of the real client returns passes
    [isNotFoundError], whatever the limiter, the transport and the decoder do:
    each of them starts with "failed to get host: ", "API returned error
    code " or "host with ID ". So [Read] of the host resource on the real
    client never removes the resource from the state. *)
Theorem Read_never_removes_on_real_client
    (unmarshal : string -> WormlyHostStatusResponse
                 -> WormlyHostStatusResponse * option error)
    (c : Client) (w : World) :
  (forall (id : Z) (err : error),
     snd (GetHost unmarshal c w id) = Err err ->
     provider.isNotFoundError (Some err) = false)
  /\ forall (prior : provider.hostResourceModel)
       (getDiags : list provider.Diagnostic),
       provider.State (provider.Read (provider.clientHostAPI unmarshal c w)
                         prior getDiags) <> None.
Proof.
  assert (Herr : forall (id : Z) (err : error),
             snd (GetHost unmarshal c w id) = Err err ->
             provider.isNotFoundError (Some err) = false).
  { intros id err. unfold GetHost. cbv zeta. rewrite bind_snd.
    destruct (snd (snd (makeFormRequest unmarshal c w "getHostStatus" _ _)))
      as [e|]; cbn [ret snd].
    - intros [= <-]. apply isNotFoundError_wrapped. reflexivity.
    - apply pickHost_Err. }
  split; [exact Herr|].
  intros prior getDiags. unfold provider.Read.
  destruct getDiags; [|discriminate].
  destruct (Atoi (provider.ID prior)) as [id [e|]]; [discriminate|].
  cbn [provider.GetHost provider.clientHostAPI].
  destruct (snd (GetHost unmarshal c w id)) as [h|err] eqn:E; [discriminate|].
  rewrite (Herr id err E). discriminate.
Qed.

(** *** Scheduled downtime periods: the list and the lookup *)

Lemma setHostID_fields (hostID : Z) (p : ScheduledDowntimePeriod) :
  SDP_HostID (setHostID hostID p) = hostID
  /\ SDP_ID (setHostID hostID p) = SDP_ID p.
Proof. split; reflexivity. Qed.

Lemma GetScheduledDowntimePeriods_Ok (unmarshal : periodsDecoder)
    (c : Client) (w : World) (hostID : Z) (periods : list ScheduledDowntimePeriod) :
  snd (GetScheduledDowntimePeriods unmarshal c w hostID) = Ok periods ->
  Forall (fun q => carries c q "getScheduledDowntimePeriods" "hostid" (Itoa hostID))
    (sent (fst (GetScheduledDowntimePeriods unmarshal c w hostID)))
  /\ exists (n : nat) (resp : Response),
       roundTrips w n = rtResp resp
       /\ 200 <= StatusCode resp < 300
       /\ PS_ErrorCode (fst (unmarshal (Body resp) (mkPeriodsResponse 0 []))) = 0
       /\ periods
          = List.map (setHostID hostID)
              (PS_Periods (fst (unmarshal (Body resp) (mkPeriodsResponse 0 [])))).
Proof.
  intros H.
  assert (Hbody : forall x : WormlyGetScheduledDowntimePeriodsResponse,
             sent (fst (if negb (PS_ErrorCode x =? 0)
                        then ret (Err (apiErrorCode (PS_ErrorCode x)))
                        else ret (Ok (List.map (setHostID hostID) (PS_Periods x)))))
             = []
             /\ acquisitions
                  (fst (if negb (PS_ErrorCode x =? 0)
                        then ret (Err (apiErrorCode (PS_ErrorCode x)))
                        else ret (Ok (List.map (setHostID hostID) (PS_Periods x)))))
                = 0%nat).
  { intros x. destruct (negb (PS_ErrorCode x =? 0)); split; reflexivity. }
  assert (Hshape := op_shape unmarshal c w "getScheduledDowntimePeriods"
            ({[ "hostid" := Itoa hostID ]} : gmap string string)
            (mkPeriodsResponse 0 [])
            (fun err => Err (Errorf_w "failed to get scheduled downtime periods: "
                               (Some err)))
            (fun response =>
               if negb (PS_ErrorCode response =? 0)
               then ret (Err (apiErrorCode (PS_ErrorCode response)))
               else ret (Ok (List.map (setHostID hostID) (PS_Periods response))))
            Hbody).
  unfold GetScheduledDowntimePeriods in *. cbv beta zeta in Hshape.
  destruct Hshape as (Hsent & _ & Hres).
  destruct (hostid_params hostID) as (P1 & P2 & P3 & P4).
  assert (Hcar := carries_all c "getScheduledDowntimePeriods" _ "hostid"
                    (Itoa hostID) _ P1 P2 P3 P4 Hsent).
  destruct Hres as [(err & He) | (n & resp & Hn & Hs & Hb & Hu & He)];
    rewrite H in He; [discriminate He|].
  destruct (PS_ErrorCode (fst (unmarshal (Body resp) (mkPeriodsResponse 0 []))) =? 0)
    eqn:E; cbn [negb ret snd] in He; [|discriminate He].
  injection He as ->. apply Z.eqb_eq in E.
  split; [exact Hcar|]. exists n, resp. auto.
Qed.

(** X17. The periods that [GetScheduledDowntimePeriods] returns are those of
    an answer that was served 2xx with error code 0, in the same order and
    number, each with its [HostID] overwritten by the host that was asked for
    and its other fields as decoded. Every request of the call is the
    [getScheduledDowntimePeriods] form with that host as [hostid]. *)
Theorem GetScheduledDowntimePeriods_stamps_host (unmarshal : periodsDecoder)
    (c : Client) (w : World) (hostID : Z) (periods : list ScheduledDowntimePeriod) :
  snd (GetScheduledDowntimePeriods unmarshal c w hostID) = Ok periods ->
  Forall (fun p => SDP_HostID p = hostID) periods
  /\ Forall (fun q => carries c q "getScheduledDowntimePeriods" "hostid" (Itoa hostID))
       (sent (fst (GetScheduledDowntimePeriods unmarshal c w hostID)))
  /\ exists (n : nat) (resp : Response),
       roundTrips w n = rtResp resp
       /\ 200 <= StatusCode resp < 300
       /\ PS_ErrorCode (fst (unmarshal (Body resp) (mkPeriodsResponse 0 []))) = 0
       /\ periods
          = List.map (setHostID hostID)
              (PS_Periods (fst (unmarshal (Body resp) (mkPeriodsResponse 0 []))))
       /\ List.map SDP_ID periods
          = List.map SDP_ID
              (PS_Periods (fst (unmarshal (Body resp) (mkPeriodsResponse 0 [])))).
Proof.
  intros H.
  destruct (GetScheduledDowntimePeriods_Ok unmarshal c w hostID periods H)
    as (Hcar & n & resp & Hn & Hs & Hc & ->).
  split; [|split; [exact Hcar|]].
  - apply List.Forall_forall. intros p Hp. apply in_map_iff in Hp.
    destruct Hp as (p0 & <- & _). reflexivity.
  - exists n, resp. repeat split; try assumption; try lia.
    rewrite List.map_map. apply List.map_ext. reflexivity.
Qed.

Lemma GetScheduledDowntimePeriods_stamps_host_witness :
  let unmarshal :=
    served.periodsAnswer 0 [scenario.period7; scenario.zeroPeriod] in
  let periods :=
    [setHostID 9 scenario.period7; setHostID 9 scenario.zeroPeriod] in
  Forall (fun p => SDP_HostID p = 9) periods
  /\ Forall (fun q => carries scenario.client3 q "getScheduledDowntimePeriods"
                        "hostid" (Itoa 9))
       (sent (fst (GetScheduledDowntimePeriods unmarshal scenario.client3
                     served.ok200 9)))
  /\ exists (n : nat) (resp : Response),
       roundTrips served.ok200 n = rtResp resp
       /\ 200 <= StatusCode resp < 300
       /\ PS_ErrorCode (fst (unmarshal (Body resp) (mkPeriodsResponse 0 []))) = 0
       /\ periods
          = List.map (setHostID 9)
              (PS_Periods (fst (unmarshal (Body resp) (mkPeriodsResponse 0 []))))
       /\ List.map SDP_ID periods
          = List.map SDP_ID
              (PS_Periods (fst (unmarshal (Body resp) (mkPeriodsResponse 0 [])))).
Proof.
  exact (GetScheduledDowntimePeriods_stamps_host
           (served.periodsAnswer 0 [scenario.period7; scenario.zeroPeriod])
           scenario.client3 served.ok200 9
           [setHostID 9 scenario.period7; setHostID 9 scenario.zeroPeriod] eq_refl).
Defined.

Lemma GetScheduledDowntimePeriod_trace (unmarshal : periodsDecoder) (c : Client)
    (w : World) (hostID periodID : Z) :
  fst (GetScheduledDowntimePeriod unmarshal c w hostID periodID)
  = fst (GetScheduledDowntimePeriods unmarshal c w hostID).
Proof.
  unfold GetScheduledDowntimePeriod. rewrite bind_fst.
  destruct (snd (GetScheduledDowntimePeriods unmarshal c w hostID)) as [periods|err].
  - destruct (List.find _ periods); cbn [ret fst]; apply List.app_nil_r.
  - cbn [ret fst]. apply List.app_nil_r.
Qed.

(** X18. [GetScheduledDowntimePeriod] adds nothing to the trace of the list
    call it makes: no second request and no second limiter token. The period
    it returns is the first of that list with the ID that was asked for, so
    it has that ID and the host that was asked for. *)
Theorem GetScheduledDowntimePeriod_sound (unmarshal : periodsDecoder) (c : Client)
    (w : World) (hostID periodID : Z) (p : ScheduledDowntimePeriod) :
  snd (GetScheduledDowntimePeriod unmarshal c w hostID periodID) = Ok p ->
  SDP_ID p = periodID
  /\ SDP_HostID p = hostID
  /\ fst (GetScheduledDowntimePeriod unmarshal c w hostID periodID)
     = fst (GetScheduledDowntimePeriods unmarshal c w hostID)
  /\ exists periods : list ScheduledDowntimePeriod,
       snd (GetScheduledDowntimePeriods unmarshal c w hostID) = Ok periods
       /\ List.find (fun period => SDP_ID period =? periodID) periods = Some p.
Proof.
  intros H.
  pose proof (GetScheduledDowntimePeriod_trace unmarshal c w hostID periodID) as Htr.
  pose proof (GetScheduledDowntimePeriods_Ok unmarshal c w hostID) as Hst.
  unfold GetScheduledDowntimePeriod in H. rewrite bind_snd in H.
  destruct (snd (GetScheduledDowntimePeriods unmarshal c w hostID))
    as [periods|err]; [|discriminate H].
  destruct (List.find _ periods) as [p0|] eqn:F; [|discriminate H].
  cbn [ret snd] in H. injection H as ->.
  destruct (List.find_some _ _ F) as (Hin & Hid). apply Z.eqb_eq in Hid.
  destruct (Hst periods eq_refl) as (_ & n & resp & _ & _ & _ & Hmap).
  assert (Hhost : SDP_HostID p = hostID).
  { rewrite Hmap in Hin. apply in_map_iff in Hin.
    destruct Hin as (p0 & <- & _). reflexivity. }
  split; [exact Hid|]. split; [exact Hhost|]. split; [exact Htr|].
  exists periods. split; [reflexivity | exact F].
Qed.

Lemma GetScheduledDowntimePeriod_sound_witness :
  let unmarshal :=
    served.periodsAnswer 0 [scenario.zeroPeriod; scenario.period7] in
  let p := setHostID 9 scenario.period7 in
  SDP_ID p = 7
  /\ SDP_HostID p = 9
  /\ fst (GetScheduledDowntimePeriod unmarshal scenario.client3 served.ok200 9 7)
     = fst (GetScheduledDowntimePeriods unmarshal scenario.client3 served.ok200 9)
  /\ exists periods : list ScheduledDowntimePeriod,
       snd (GetScheduledDowntimePeriods unmarshal scenario.client3 served.ok200 9)
       = Ok periods
       /\ List.find (fun period => SDP_ID period =? 7) periods = Some p.
Proof.
  exact (GetScheduledDowntimePeriod_sound
           (served.periodsAnswer 0 [scenario.zeroPeriod; scenario.period7])
           scenario.client3 served.ok200 9 7 (setHostID 9 scenario.period7) eq_refl).
Defined.

(** *** Parameter maps *)

Lemma lookup_insert_if (m : gmap string string) (k v k' : string) :
  <[k := v]> m !! k' = if String.eqb k' k then Some v else m !! k'.
Proof.
  destruct (String.eqb_spec k' k) as [->|Hne].
  - apply lookup_insert_eq.
  - apply lookup_insert_ne. congruence.
Qed.

Lemma lookup_singleton_if (k v k' : string) :
  ({[ k := v ]} : gmap string string) !! k'
  = if String.eqb k' k then Some v else None.
Proof.
  destruct (String.eqb_spec k' k) as [->|Hne].
  - apply lookup_singleton_eq.
  - apply lookup_singleton_ne. congruence.
Qed.

Lemma lookup_if_insert (b : bool) (m : gmap string string) (k v k' : string) :
  (if b then <[k := v]> m else m) !! k'
  = if (b && String.eqb k' k)%bool then Some v else m !! k'.
Proof. destruct b; [apply lookup_insert_if | reflexivity]. Qed.

Lemma lookup_if_insert2 (b : bool) (m : gmap string string) (k v1 v2 k' : string) :
  (if b then <[k := v1]> m else <[k := v2]> m) !! k'
  = if String.eqb k' k then Some (if b then v1 else v2) else m !! k'.
Proof. destruct b; apply lookup_insert_if. Qed.

Lemma Forall_the_form (P : Request -> Prop) (q0 : Request) (l : list Request) :
  P q0 -> Forall (fun q => q = q0) l -> Forall P l.
Proof. intros HP Hl. eapply Forall_impl; [exact Hl|]. intros q ->. exact HP. Qed.

Lemma DebugLog_then {A : Type} (c : Client) (format : string) (args : list logArg)
    (m : M A) :
  sent (fst (DebugLog c format args ;;; m)) = sent (fst m)
  /\ acquisitions (fst (DebugLog c format args ;;; m)) = acquisitions (fst m)
  /\ snd (DebugLog c format args ;;; m) = snd m.
Proof.
  unfold DebugLog. destruct (debugEnabled c); repeat split.
Qed.

(** *** Scheduled downtime periods: create and update *)

(** The part that [CreateScheduledDowntimePeriod] and
    [UpdateScheduledDowntimePeriod] share. *)
Lemma period_write_shape (unmarshal : periodDecoder) (c : Client) (w : World)
    (prefix format : string) (params : gmap string string)
    (hostID : Z) (start end_ timezone recurrence on : string) :
  let call : M (result ScheduledDowntimePeriod) :=
    (r <- makeFormRequest unmarshal c w "setScheduledDowntimePeriod" params
            (Some zeroPeriodResponse) ;;
     match snd r with
     | Some err => ret (Err (Errorf_w prefix (Some err)))
     | None =>
         let response := default zeroPeriodResponse (fst r) in
         if negb (PR_ErrorCode response =? 0) then
           DebugLog c format
             [argInt (PR_ErrorCode response); argString (PR_Message response);
              argInt (PR_PeriodID response)] ;;;
           ret (Err (apiError (PR_ErrorCode response) (PR_Message response)))
         else
           ret (Ok (mkPeriod (PR_PeriodID response) hostID start end_ timezone
                      recurrence on))
     end) in
  Forall (fun q => q = formRequest c "setScheduledDowntimePeriod" params)
    (sent (fst call))
  /\ acquisitions (fst call) = 1%nat
  /\ forall p : ScheduledDowntimePeriod,
       snd call = Ok p ->
       exists (n : nat) (resp : Response),
         roundTrips w n = rtResp resp
         /\ 200 <= StatusCode resp < 300
         /\ PR_ErrorCode (fst (unmarshal (Body resp) zeroPeriodResponse)) = 0
         /\ p = mkPeriod (PR_PeriodID (fst (unmarshal (Body resp) zeroPeriodResponse)))
                  hostID start end_ timezone recurrence on.
Proof.
  cbv zeta.
  pose (body := fun response : WormlyScheduledDowntimePeriodResponse =>
          if negb (PR_ErrorCode response =? 0) then
            DebugLog c format
              [argInt (PR_ErrorCode response); argString (PR_Message response);
               argInt (PR_PeriodID response)] ;;;
            ret (Err (apiError (PR_ErrorCode response) (PR_Message response)))
          else
            ret (Ok (mkPeriod (PR_PeriodID response) hostID start end_ timezone
                       recurrence on))).
  assert (Hbody : forall x, sent (fst (body x)) = []
                            /\ acquisitions (fst (body x)) = 0%nat).
  { intros x. unfold body. destruct (negb (PR_ErrorCode x =? 0)).
    - destruct (DebugLog_then c format
                  [argInt (PR_ErrorCode x); argString (PR_Message x);
                   argInt (PR_PeriodID x)]
                  (ret (Err (apiError (PR_ErrorCode x) (PR_Message x)))
                     : M (result ScheduledDowntimePeriod))) as (-> & -> & _).
      split; reflexivity.
    - split; reflexivity. }
  destruct (op_shape unmarshal c w "setScheduledDowntimePeriod" params
              zeroPeriodResponse (fun err => Err (Errorf_w prefix (Some err)))
              body Hbody) as (Hsent & Hacq & Hres).
  split; [exact Hsent|]. split; [exact Hacq|].
  intros p Hp.
  destruct Hres as [(err & He) | (n & resp & Hn & Hs & Hb & Hu & He)].
  - pose proof (eq_trans (eq_sym Hp) He) as He'. discriminate He'.
  - pose proof (eq_trans (eq_sym Hp) He) as He'. clear He. rename He' into He.
    unfold body in He.
    destruct (PR_ErrorCode (fst (unmarshal (Body resp) zeroPeriodResponse)) =? 0)
      eqn:E; cbn [negb] in He.
    + cbn [ret snd] in He. injection He as ->. apply Z.eqb_eq in E.
      exists n, resp. auto.
    + destruct (DebugLog_then c format
                  [argInt (PR_ErrorCode (fst (unmarshal (Body resp) zeroPeriodResponse)));
                   argString (PR_Message (fst (unmarshal (Body resp) zeroPeriodResponse)));
                   argInt (PR_PeriodID (fst (unmarshal (Body resp) zeroPeriodResponse)))]
                  (ret (Err (apiError
                               (PR_ErrorCode (fst (unmarshal (Body resp) zeroPeriodResponse)))
                               (PR_Message (fst (unmarshal (Body resp) zeroPeriodResponse)))))
                     : M (result ScheduledDowntimePeriod))) as (_ & _ & Hd).
      rewrite Hd in He. discriminate He.
Qed.

(** X19. [CreateScheduledDowntimePeriod] and [UpdateScheduledDowntimePeriod]
    send the same command, [setScheduledDowntimePeriod], with the host, the
    four schedule fields as given, and [on] only when it is not empty; the
    requests of an update also hold [periodid], those of a creation never do.
    The period either returns has the arguments as its fields, and as its ID
    the period ID of the answer: an update does not return the ID it was
    called with. *)
Theorem period_writes_differ_in_periodid (unmarshal : periodDecoder) (c : Client)
    (w : World) (hostID periodID : Z) (start end_ timezone recurrence on : string) :
  let common (q : Request) : Prop :=
    carries c q "setScheduledDowntimePeriod" "hostid" (Itoa hostID)
    /\ Form q !! "start" = Some start
    /\ Form q !! "end" = Some end_
    /\ Form q !! "timezone" = Some timezone
    /\ Form q !! "recurrence" = Some recurrence
    /\ Form q !! "on" = (if String.eqb on "" then None else Some on) in
  let answered (p : ScheduledDowntimePeriod) : Prop :=
    exists (n : nat) (resp : Response),
      roundTrips w n = rtResp resp
      /\ 200 <= StatusCode resp < 300
      /\ PR_ErrorCode (fst (unmarshal (Body resp) zeroPeriodResponse)) = 0
      /\ p = mkPeriod (PR_PeriodID (fst (unmarshal (Body resp) zeroPeriodResponse)))
               hostID start end_ timezone recurrence on in
  let create :=
    CreateScheduledDowntimePeriod unmarshal c w hostID start end_ timezone
      recurrence on in
  let update :=
    UpdateScheduledDowntimePeriod unmarshal c w hostID periodID start end_ timezone
      recurrence on in
  Forall (fun q => common q /\ Form q !! "periodid" = None) (sent (fst create))
  /\ Forall (fun q => common q /\ Form q !! "periodid" = Some (Itoa periodID))
       (sent (fst update))
  /\ (forall p, snd create = Ok p -> answered p)
  /\ (forall p, snd update = Ok p -> answered p).
Proof.
  cbv zeta.
  destruct (period_write_shape unmarshal c w
              "failed to create scheduled downtime period: "
              "CreateScheduledDowntimePeriod API error response: %+v"
              (if negb (String.eqb on "")
               then <["on" := on]>
                      (<["hostid" := Itoa hostID]> (<["start" := start]>
                        (<["end" := end_]> (<["timezone" := timezone]>
                          {[ "recurrence" := recurrence ]}))))
               else <["hostid" := Itoa hostID]> (<["start" := start]>
                      (<["end" := end_]> (<["timezone" := timezone]>
                        {[ "recurrence" := recurrence ]}))))
              hostID start end_ timezone recurrence on) as (Hc & _ & Hcr).
  destruct (period_write_shape unmarshal c w
              "failed to update scheduled downtime period: "
              "UpdateScheduledDowntimePeriod API error response: %+v"
              (if negb (String.eqb on "")
               then <["on" := on]>
                      (<["hostid" := Itoa hostID]> (<["periodid" := Itoa periodID]>
                        (<["start" := start]> (<["end" := end_]>
                          (<["timezone" := timezone]>
                            {[ "recurrence" := recurrence ]})))))
               else <["hostid" := Itoa hostID]> (<["periodid" := Itoa periodID]>
                      (<["start" := start]> (<["end" := end_]>
                        (<["timezone" := timezone]>
                          {[ "recurrence" := recurrence ]})))))
              hostID start end_ timezone recurrence on) as (Hu & _ & Hur).
  split; [|split; [|split; [exact Hcr | exact Hur]]].
  - refine (Forall_the_form _ _ _ _ Hc). unfold carries.
    rewrite formRequest_Form, !formData_lookup.
    rewrite ?lookup_if_insert, ?lookup_insert_if, ?lookup_singleton_if.
    cbn [String.eqb Ascii.eqb Bool.eqb andb]. rewrite ?andb_false_r, ?andb_true_r.
    destruct (String.eqb on ""); cbn [negb]; repeat split.
  - refine (Forall_the_form _ _ _ _ Hu). unfold carries.
    rewrite formRequest_Form, !formData_lookup.
    rewrite ?lookup_if_insert, ?lookup_insert_if, ?lookup_singleton_if.
    cbn [String.eqb Ascii.eqb Bool.eqb andb]. rewrite ?andb_false_r, ?andb_true_r.
    destruct (String.eqb on ""); cbn [negb]; repeat split.
Qed.

(** *** HTTP sensors: create *)

(** What [sensorCreateParams] holds under each key it can set, and that it
    sets none of the three keys of the envelope. *)
Lemma sensorCreateParams_lookup (req : SensorHTTPCreateRequest) :
  let params := sensorCreateParams req in
  let opt (s : string) : option string := if String.eqb s "" then None else Some s in
  let num (n : Z) : option string := if n >? 0 then Some (Itoa n) else None in
  (params !! "cmd" = None /\ params !! "key" = None /\ params !! "response" = None)
  /\ params !! "hostid" = Some (Itoa (CR_HostID req))
  /\ params !! "url" = Some (CR_URL req)
  /\ params !! "nicename" = opt (CR_NiceName req)
  /\ params !! "timeout" = num (CR_Timeout req)
  /\ params !! "responsecode" = opt (CR_ResponseCode req)
  /\ params !! "verifysslcert" = Some (if CR_VerifySSLCert req then "1" else "0")
  /\ params !! "searchheaders" = Some (if CR_SearchHeaders req then "1" else "0")
  /\ params !! "expectedtext" = opt (CR_ExpectedText req)
  /\ params !! "unwantedtext" = opt (CR_UnwantedText req)
  /\ params !! "sslvalidity" = num (CR_SSLValidity req)
  /\ params !! "cookies" = opt (CR_Cookies req)
  /\ params !! "postparams" = opt (CR_PostParams req)
  /\ params !! "customrequestheaders" = opt (CR_CustomRequestHeaders req)
  /\ params !! "useragent" = opt (CR_UserAgent req)
  /\ params !! "forceresolve" = opt (CR_ForceResolve req).
Proof.
  cbv zeta.
  pose (step := fun (b : bool) (k v : string) (p : gmap string string) =>
                  if b then <[k := v]> p else p).
  pose (flag := fun (b : bool) (k : string) (p : gmap string string) =>
                  if b then <[k := "1"]> p else <[k := "0"]> p).
  assert (E : sensorCreateParams req
              = step (negb (String.eqb (CR_ForceResolve req) "")) "forceresolve"
                  (CR_ForceResolve req)
               (step (negb (String.eqb (CR_UserAgent req) "")) "useragent"
                  (CR_UserAgent req)
               (step (negb (String.eqb (CR_CustomRequestHeaders req) ""))
                  "customrequestheaders" (CR_CustomRequestHeaders req)
               (step (negb (String.eqb (CR_PostParams req) "")) "postparams"
                  (CR_PostParams req)
               (step (negb (String.eqb (CR_Cookies req) "")) "cookies"
                  (CR_Cookies req)
               (step (CR_SSLValidity req >? 0) "sslvalidity"
                  (Itoa (CR_SSLValidity req))
               (step (negb (String.eqb (CR_UnwantedText req) "")) "unwantedtext"
                  (CR_UnwantedText req)
               (step (negb (String.eqb (CR_ExpectedText req) "")) "expectedtext"
                  (CR_ExpectedText req)
               (flag (CR_SearchHeaders req) "searchheaders"
               (flag (CR_VerifySSLCert req) "verifysslcert"
               (step (negb (String.eqb (CR_ResponseCode req) "")) "responsecode"
                  (CR_ResponseCode req)
               (step (CR_Timeout req >? 0) "timeout" (Itoa (CR_Timeout req))
               (step (negb (String.eqb (CR_NiceName req) "")) "nicename"
                  (CR_NiceName req)
               (<["hostid" := Itoa (CR_HostID req)]>
                  {[ "url" := CR_URL req ]}))))))))))))))
    by reflexivity.
  assert (Hstep : forall b k v p k',
             step b k v p !! k'
             = if (b && String.eqb k' k)%bool then Some v else p !! k')
    by (intros; apply lookup_if_insert).
  assert (Hflag : forall b k p k',
             flag b k p !! k'
             = if String.eqb k' k then Some (if b then "1" else "0") else p !! k')
    by (intros; apply lookup_if_insert2).
  rewrite E. clearbody step flag. clear E.
  rewrite !Hstep, !Hflag, !Hstep, !lookup_insert_if, !lookup_singleton_if.
  cbn [String.eqb Ascii.eqb Bool.eqb andb]. rewrite ?andb_false_r, ?andb_true_r.
  cbn [negb].
  repeat split;
    match goal with
    | |- context [negb ?b] => destruct b; reflexivity
    | |- context [?n >? 0] => destruct (n >? 0); reflexivity
    | |- _ => reflexivity
    end.
Qed.

(** X20. Every request of [CreateSensorHTTP] is the [addHostSensor_HTTP] form
    with the host and the URL; [verifysslcert] and [searchheaders] are always
    sent, as "1" or "0"; a text field is sent only when it is not empty and a
    number only when it is positive. The sensor returned echoes the request
    field by field, sent or not, is marked enabled, and has as its ID the
    sensor ID of an answer served 2xx with error code 0. *)
Theorem CreateSensorHTTP_form (unmarshal : sensorDecoder) (c : Client) (w : World)
    (req : SensorHTTPCreateRequest) :
  let opt (s : string) : option string := if String.eqb s "" then None else Some s in
  let num (n : Z) : option string := if n >? 0 then Some (Itoa n) else None in
  Forall (fun q =>
            carries c q "addHostSensor_HTTP" "hostid" (Itoa (CR_HostID req))
            /\ Form q !! "url" = Some (CR_URL req)
            /\ Form q !! "nicename" = opt (CR_NiceName req)
            /\ Form q !! "timeout" = num (CR_Timeout req)
            /\ Form q !! "responsecode" = opt (CR_ResponseCode req)
            /\ Form q !! "verifysslcert"
               = Some (if CR_VerifySSLCert req then "1" else "0")
            /\ Form q !! "searchheaders"
               = Some (if CR_SearchHeaders req then "1" else "0")
            /\ Form q !! "expectedtext" = opt (CR_ExpectedText req)
            /\ Form q !! "unwantedtext" = opt (CR_UnwantedText req)
            /\ Form q !! "sslvalidity" = num (CR_SSLValidity req)
            /\ Form q !! "cookies" = opt (CR_Cookies req)
            /\ Form q !! "postparams" = opt (CR_PostParams req)
            /\ Form q !! "customrequestheaders" = opt (CR_CustomRequestHeaders req)
            /\ Form q !! "useragent" = opt (CR_UserAgent req)
            /\ Form q !! "forceresolve" = opt (CR_ForceResolve req))
    (sent (fst (CreateSensorHTTP unmarshal c w req)))
  /\ forall s : SensorHTTP,
       snd (CreateSensorHTTP unmarshal c w req) = Ok s ->
       exists (n : nat) (resp : Response),
         roundTrips w n = rtResp resp
         /\ 200 <= StatusCode resp < 300
         /\ SR_ErrorCode (fst (unmarshal (Body resp) zeroSensorResponse)) = 0
         /\ s = mkSensorHTTP
                  (SR_HostSensorID (fst (unmarshal (Body resp) zeroSensorResponse)))
                  (CR_HostID req) (CR_URL req) (CR_NiceName req) true
                  (CR_Timeout req) (CR_ResponseCode req) (CR_VerifySSLCert req)
                  (CR_SearchHeaders req) (CR_ExpectedText req) (CR_UnwantedText req)
                  (CR_SSLValidity req) (CR_Cookies req) (CR_PostParams req)
                  (CR_CustomRequestHeaders req) (CR_UserAgent req)
                  (CR_ForceResolve req).
Proof.
  cbv zeta.
  pose (body := fun response : WormlyHTTPSensorResponse =>
          if negb (SR_ErrorCode response =? 0)
          then ret (Err (apiError (SR_ErrorCode response) (SR_Message response)))
          else
            ret (Ok (mkSensorHTTP (SR_HostSensorID response) (CR_HostID req)
                       (CR_URL req) (CR_NiceName req) true (CR_Timeout req)
                       (CR_ResponseCode req) (CR_VerifySSLCert req)
                       (CR_SearchHeaders req) (CR_ExpectedText req)
                       (CR_UnwantedText req) (CR_SSLValidity req) (CR_Cookies req)
                       (CR_PostParams req) (CR_CustomRequestHeaders req)
                       (CR_UserAgent req) (CR_ForceResolve req)))).
  assert (Hbody : forall x, sent (fst (body x)) = []
                            /\ acquisitions (fst (body x)) = 0%nat).
  { intros x. unfold body. destruct (negb (SR_ErrorCode x =? 0)); split; reflexivity. }
  destruct (op_shape unmarshal c w "addHostSensor_HTTP" (sensorCreateParams req)
              zeroSensorResponse
              (fun err => Err (Errorf_w "failed to create HTTP sensor: " (Some err)))
              body Hbody) as (Hsent & _ & Hres).
  split.
  - refine (Forall_the_form _ _ _ _ Hsent). unfold carries.
    rewrite formRequest_Form, !formData_lookup.
    destruct (sensorCreateParams_lookup req)
      as ((E1 & E2 & E3) & E4 & E5 & E6 & E7 & E8 & E9 & E10 & E11 & E12 & E13
          & E14 & E15 & E16 & E17 & E18).
    rewrite E1, E2, E3, E4, E5, E6, E7, E8, E9, E10, E11, E12, E13, E14, E15, E16,
      E17, E18.
    cbn [String.eqb Ascii.eqb Bool.eqb].
    repeat split; try reflexivity;
      match goal with
      | |- match ?X with Some _ => _ | None => _ end = _ => destruct X; reflexivity
      end.
  - intros s Hs.
    destruct Hres as [(err & He) | (n & resp & Hn & Hst & Hb & Hu & He)];
      pose proof (eq_trans (eq_sym Hs) He) as He'; [discriminate He'|].
    unfold body in He'.
    destruct (SR_ErrorCode (fst (unmarshal (Body resp) zeroSensorResponse)) =? 0)
      eqn:E; cbn [negb ret snd] in He'; [|discriminate He'].
    injection He' as ->. apply Z.eqb_eq in E. exists n, resp. auto.
Qed.

(** *** Commands that return only an error *)

(** A command that makes one call and then reads the error code of the
    envelope. *)
Lemma command_shape {R : Type} (unmarshal : string -> R -> R * option error)
    (c : Client) (w : World) (command prefix : string)
    (params : gmap string string) (zero : R) (code : R -> Z) (mkErr : R -> error) :
  let call : M (option error) :=
    (r <- makeFormRequest unmarshal c w command params (Some zero) ;;
     match snd r with
     | Some err => ret (Some (Errorf_w prefix (Some err)))
     | None =>
         if negb (code (default zero (fst r)) =? 0)
         then ret (Some (mkErr (default zero (fst r))))
         else ret None
     end) in
  (snd call = None -> answeredZero unmarshal zero code w)
  /\ Forall (fun q => q = formRequest c command params) (sent (fst call))
  /\ acquisitions (fst call) = 1%nat.
Proof.
  cbv zeta.
  pose (body := fun response : R =>
          if negb (code response =? 0)
          then ret (Some (mkErr response)) else (ret None : M (option error))).
  assert (Hbody : forall x, sent (fst (body x)) = []
                            /\ acquisitions (fst (body x)) = 0%nat).
  { intros x. unfold body. destruct (negb (code x =? 0)); split; reflexivity. }
  destruct (op_shape unmarshal c w command params zero
              (fun err => Some (Errorf_w prefix (Some err))) body Hbody)
    as (Hsent & Hacq & Hres).
  split; [|split; [exact Hsent | exact Hacq]].
  intros Hnone.
  destruct Hres as [(err & He) | (n & resp & Hn & Hs & Hb & Hu & He)];
    pose proof (eq_trans (eq_sym Hnone) He) as He'; [discriminate He'|].
  unfold body in He'.
  destruct (code (fst (unmarshal (Body resp) zero)) =? 0) eqn:E;
    cbn [negb ret snd] in He'; [|discriminate He'].
  apply Z.eqb_eq in E. exists n, resp. auto.
Qed.

Lemma hsid_params (id : Z) :
  let params : gmap string string := {[ "hsid" := Itoa id ]} in
  params !! "cmd" = None /\ params !! "key" = None /\ params !! "response" = None
  /\ params !! "hsid" = Some (Itoa id).
Proof.
  cbv zeta. rewrite !lookup_singleton_if. repeat split.
Qed.

(** The three sensor commands. *)
Lemma sensor_commands_shape (unmarshal : sensorDecoder) (c : Client) (w : World)
    (id : Z) :
  let sound (call : M (option error)) (command : string) : Prop :=
    (snd call = None -> answeredZero unmarshal zeroSensorResponse SR_ErrorCode w)
    /\ Forall (fun q => carries c q command "hsid" (Itoa id)
                        /\ Form q !! "hostid" = None)
         (sent (fst call))
    /\ acquisitions (fst call) = 1%nat in
  sound (DeleteSensorHTTP unmarshal c w id) "deleteSensor"
  /\ sound (EnableSensorHTTP unmarshal c w id) "enableSensor"
  /\ sound (DisableSensorHTTP unmarshal c w id) "disableSensor".
Proof.
  cbv zeta.
  assert (Hform : forall command : string,
             carries c (formRequest c command {[ "hsid" := Itoa id ]})
               command "hsid" (Itoa id)
             /\ Form (formRequest c command {[ "hsid" := Itoa id ]}) !! "hostid"
                = None).
  { intros command. destruct (hsid_params id) as (P1 & P2 & P3 & P4).
    split; [apply carries_formRequest; assumption|].
    rewrite formRequest_Form, formData_lookup, lookup_singleton_if. reflexivity. }
  split; [|split].
  - destruct (command_shape unmarshal c w "deleteSensor"
                "failed to delete HTTP sensor: "
                ({[ "hsid" := Itoa id ]} : gmap string string) zeroSensorResponse
                SR_ErrorCode
                (fun response => apiError (SR_ErrorCode response) (SR_Message response)))
      as (H1 & H2 & H3).
    split; [exact H1|]. split; [|exact H3].
    exact (Forall_the_form _ _ _ (Hform "deleteSensor") H2).
  - destruct (command_shape unmarshal c w "enableSensor"
                "failed to enable HTTP sensor: "
                ({[ "hsid" := Itoa id ]} : gmap string string) zeroSensorResponse
                SR_ErrorCode
                (fun response => apiError (SR_ErrorCode response) (SR_Message response)))
      as (H1 & H2 & H3).
    split; [exact H1|]. split; [|exact H3].
    exact (Forall_the_form _ _ _ (Hform "enableSensor") H2).
  - destruct (command_shape unmarshal c w "disableSensor"
                "failed to disable HTTP sensor: "
                ({[ "hsid" := Itoa id ]} : gmap string string) zeroSensorResponse
                SR_ErrorCode
                (fun response => apiError (SR_ErrorCode response) (SR_Message response)))
      as (H1 & H2 & H3).
    split; [exact H1|]. split; [|exact H3].
    exact (Forall_the_form _ _ _ (Hform "disableSensor") H2).
Qed.

(** The deletion of a period. *)
Lemma period_delete_shape (unmarshal : periodDecoder)
    (c : Client) (w : World) (hostID periodID : Z) :
  let call := DeleteScheduledDowntimePeriod unmarshal c w hostID periodID in
  (snd call = None -> answeredZero unmarshal zeroPeriodResponse PR_ErrorCode w)
  /\ Forall (fun q => carries c q "deleteScheduledDowntimePeriod" "hostid"
                        (Itoa hostID)
                      /\ Form q !! "periodid" = Some (Itoa periodID))
       (sent (fst call))
  /\ acquisitions (fst call) = 1%nat.
Proof.
  cbv zeta.
  destruct (command_shape unmarshal c w "deleteScheduledDowntimePeriod"
              "failed to delete scheduled downtime period: "
              (<["hostid" := Itoa hostID]> {[ "periodid" := Itoa periodID ]})
              zeroPeriodResponse PR_ErrorCode
              (fun response => apiError (PR_ErrorCode response) (PR_Message response)))
    as (H1 & H2 & H3).
  split; [exact H1|]. split; [|exact H3].
  refine (Forall_the_form _ _ _ _ H2). unfold carries.
  rewrite formRequest_Form, !formData_lookup, !lookup_insert_if,
    !lookup_singleton_if.
  repeat split.
Qed.

(** The global alert mute. *)
Lemma alert_mute_shape
    (unmarshal : string -> GlobalAlertMuteResponse
                 -> GlobalAlertMuteResponse * option error)
    (c : Client) (w : World) (enabled : bool) :
  let call := SetGlobalAlertMute unmarshal c w enabled in
  (snd call = None -> answeredZero unmarshal (mkMuteResponse 0) GM_ErrorCode w)
  /\ Forall (fun q => carries c q "setGlobalAlertMute" "alertsmuted"
                        (if enabled then "1" else "0"))
       (sent (fst call))
  /\ acquisitions (fst call) = 1%nat.
Proof.
  cbv zeta.
  destruct (command_shape unmarshal c w "setGlobalAlertMute"
              "failed to set global alert mute: "
              ({[ "alertsmuted" := if enabled then "1" else "0" ]}
                 : gmap string string)
              (mkMuteResponse 0) GM_ErrorCode
              (fun response => apiErrorCode (GM_ErrorCode response)))
    as (H1 & H2 & H3).
  split; [exact H1|]. split; [|exact H3].
  refine (Forall_the_form _ _ _ _ H2). unfold carries.
  rewrite formRequest_Form, !formData_lookup, !lookup_singleton_if.
  repeat split.
Qed.

(** X21. The other commands that return only an error, [DeleteSensorHTTP],
    [EnableSensorHTTP], [DisableSensorHTTP], [DeleteScheduledDowntimePeriod]
    and [SetGlobalAlertMute], report success only when some attempt was
    answered 2xx with an envelope that decodes without error and whose error
    code is 0, and each is one logical call. A sensor command names its
    command ([deleteSensor], [enableSensor], [disableSensor]) and carries the
    sensor ID in decimal as [hsid], and no host ID; the deletion of a period
    carries both the host and the period; the mute is sent as [alertsmuted]
    with "1" to mute and "0" to unmute. *)
Theorem other_commands_sound (unmarshalSensor : sensorDecoder)
    (unmarshalPeriod : periodDecoder)
    (unmarshalMute : string -> GlobalAlertMuteResponse
                     -> GlobalAlertMuteResponse * option error)
    (c : Client) (w : World) (id hostID periodID : Z) (enabled : bool) :
  (let sound (call : M (option error)) (command : string) : Prop :=
     (snd call = None ->
      answeredZero unmarshalSensor zeroSensorResponse SR_ErrorCode w)
     /\ Forall (fun q => carries c q command "hsid" (Itoa id)
                         /\ Form q !! "hostid" = None)
          (sent (fst call))
     /\ acquisitions (fst call) = 1%nat in
   sound (DeleteSensorHTTP unmarshalSensor c w id) "deleteSensor"
   /\ sound (EnableSensorHTTP unmarshalSensor c w id) "enableSensor"
   /\ sound (DisableSensorHTTP unmarshalSensor c w id) "disableSensor")
  /\ (let call := DeleteScheduledDowntimePeriod unmarshalPeriod c w hostID periodID in
      (snd call = None ->
       answeredZero unmarshalPeriod zeroPeriodResponse PR_ErrorCode w)
      /\ Forall (fun q => carries c q "deleteScheduledDowntimePeriod" "hostid"
                            (Itoa hostID)
                          /\ Form q !! "periodid" = Some (Itoa periodID))
           (sent (fst call))
      /\ acquisitions (fst call) = 1%nat)
  /\ (let call := SetGlobalAlertMute unmarshalMute c w enabled in
      (snd call = None ->
       answeredZero unmarshalMute (mkMuteResponse 0) GM_ErrorCode w)
      /\ Forall (fun q => carries c q "setGlobalAlertMute" "alertsmuted"
                            (if enabled then "1" else "0"))
           (sent (fst call))
      /\ acquisitions (fst call) = 1%nat).
Proof.
  split; [|split].
  - exact (sensor_commands_shape unmarshalSensor c w id).
  - exact (period_delete_shape unmarshalPeriod c w hostID periodID).
  - exact (alert_mute_shape unmarshalMute c w enabled).
Qed.

(** *** When the server answers *)

Lemma requests_app_nil (t1 t2 : list event) :
  requests t2 = 0%nat -> requests (t1 ++ t2) = requests t1.
Proof. intros H. rewrite requests_app, H. lia. Qed.

(** A call with a target that is answered at attempt [k] returns the decoded
    answer after [k + 1] requests. *)
Lemma makeFormRequest_answered {R : Type}
    (unmarshal : string -> R -> R * option error) (c : Client) (w : World)
    (command : string) (params : gmap string string) (zero : R)
    (k : nat) (resp : Response) :
  answeredAt unmarshal zero c w k resp ->
  snd (makeFormRequest unmarshal c w command params (Some zero))
  = (Some (fst (unmarshal (Body resp) zero)), None)
  /\ requests (fst (makeFormRequest unmarshal c w command params (Some zero))) = S k.
Proof.
  intros (Hwait & Hurl & HR & Hk & Hbefore & Hresp & Hs & Hb & Hu).
  assert (Hfuel : Z.to_nat (maxRetries c + 1) = S (Z.to_nat (maxRetries c))) by lia.
  assert (Hsum : Z.of_nat 0 + Z.of_nat (Z.to_nat (maxRetries c)) = maxRetries c) by lia.
  assert (Hstop : transientOutcome (roundTrips w (0 + k)) = false).
  { cbn [Nat.add]. rewrite Hresp. cbn [transientOutcome].
    apply success_not_transient. exact Hs. }
  destruct (formLoop_first_stop unmarshal c w command (formRequest c command params)
              (Some zero) k (Z.to_nat (maxRetries c)) 0 (initialBackoff c) None)
    as (H3 & H4 & _);
    [exact Hk | exact Hsum | intros n Hn; apply Hbefore; lia | exact Hstop |].
  cbn [Nat.add] in H4. rewrite Hresp in H4. cbn [formOutcome] in H4.
  unfold makeFormRequest. rewrite Hwait, Hurl, Hfuel.
  change 0 with (Z.of_nat 0). trace. rewrite H3, H4.
  split; [|reflexivity].
  unfold formFinish.
  assert (E : ((StatusCode resp <? 200) || (StatusCode resp >=? 300)) = false).
  { apply orb_false_iff.
    split; [apply Z.ltb_ge; lia | rewrite Z.geb_leb; apply Z.leb_gt; lia]. }
  rewrite E, Hb. trace.
  destruct (unmarshal (Body resp) zero) as [v' [err|]]; [discriminate Hu|].
  reflexivity.
Qed.

(** An operation whose call is answered at attempt [k] returns what its
    [body] makes of the decoded answer, after [k + 1] requests. *)
Lemma op_answered {R A : Type} (unmarshal : string -> R -> R * option error)
    (c : Client) (w : World) (command : string) (params : gmap string string)
    (zero : R) (onErr : error -> A) (body : R -> M A) (k : nat) (resp : Response) :
  answeredAt unmarshal zero c w k resp ->
  (forall x : R, requests (fst (body x)) = 0%nat) ->
  let call : M A :=
    (r <- makeFormRequest unmarshal c w command params (Some zero) ;;
     match snd r with
     | Some err => ret (onErr err)
     | None => body (default zero (fst r))
     end) in
  snd call = snd (body (fst (unmarshal (Body resp) zero)))
  /\ requests (fst call) = S k.
Proof.
  intros Hans Hbody. cbv zeta.
  destruct (makeFormRequest_answered unmarshal c w command params zero k resp Hans)
    as (Hres & Hreq).
  rewrite bind_snd, bind_fst, Hres. cbn [fst snd default from_option Datatypes.id].
  unfold Datatypes.id. split; [reflexivity|].
  rewrite requests_app_nil; [exact Hreq | apply Hbody].
Qed.

(** The client of the retry tests, answered 200 after one 500. *)
Lemma answered_after_one_500 {R : Type}
    (unmarshal : string -> R -> R * option error) (zero : R) :
  snd (unmarshal (Body scenario.response200) zero) = None ->
  answeredAt unmarshal zero scenario.client3
    (scenario.answering [scenario.response500; scenario.response200])
    1 scenario.response200.
Proof.
  intros Hu. unfold answeredAt.
  split; [reflexivity|]. split; [reflexivity|]. split; [cbn; lia|].
  split; [cbn; lia|]. split.
  - intros n Hn. assert (n = 0%nat) as -> by lia. reflexivity.
  - split; [reflexivity|]. split; [cbn; lia|]. split; [reflexivity | exact Hu].
Qed.

(** X22. When the call of [GetHost] is answered at attempt [k], [GetHost]
    returns after [k + 1] requests, and what it returns is decided by the
    answer alone: an error code other than 0 gives the error that prints the
    code, whatever the status list holds; with code 0, the first entry with
    the ID gives the host, and a list without such an entry, the empty list
    included, gives the not-found error. *)
Theorem GetHost_when_answered
    (unmarshal : string -> WormlyHostStatusResponse
                 -> WormlyHostStatusResponse * option error)
    (c : Client) (w : World) (id : Z) (k : nat) (resp : Response) :
  answeredAt unmarshal zeroHostStatusResponse c w k resp ->
  let response := fst (unmarshal (Body resp) zeroHostStatusResponse) in
  let found := List.find (fun host => HS_HostID host =? id) (HSR_Status response) in
  requests (fst (GetHost unmarshal c w id)) = S k
  /\ (HSR_ErrorCode response <> 0 ->
      snd (GetHost unmarshal c w id)
      = Err (errorString ("API returned error code "
                            ++ Itoa (HSR_ErrorCode response))))
  /\ (HSR_ErrorCode response = 0 ->
      forall entry : HostStatus,
        found = Some entry ->
        snd (GetHost unmarshal c w id)
        = Ok (mkHost id (HS_Name entry) 60
                (HS_UptimeMonitored entry || HS_HealthMonitored entry)))
  /\ (HSR_ErrorCode response = 0 ->
      found = None ->
      snd (GetHost unmarshal c w id) = Err (hostNotFound id)).
Proof.
  intros Hans. cbv zeta.
  destruct (op_answered unmarshal c w "getHostStatus"
              ({[ "hostid" := Itoa id ]} : gmap string string)
              zeroHostStatusResponse
              (fun err => Err (Errorf_w "failed to get host: " (Some err)))
              (fun response => ret (pickHost response id)) k resp Hans
              (fun _ => eq_refl)) as (Hres & Hreq).
  change (snd (GetHost unmarshal c w id)
          = pickHost (fst (unmarshal (Body resp) zeroHostStatusResponse)) id) in Hres.
  change (requests (fst (GetHost unmarshal c w id)) = S k) in Hreq.
  split; [exact Hreq|]. rewrite Hres. unfold pickHost.
  split; [|split].
  - intros Hcode. apply Z.eqb_neq in Hcode. rewrite Hcode. reflexivity.
  - intros Hcode entry Hfind. rewrite Hcode. cbn [Z.eqb negb].
    rewrite Hfind.
    destruct (List.find_some _ _ Hfind) as (Hin & Hid). apply Z.eqb_eq in Hid.
    destruct (HSR_Status (fst (unmarshal (Body resp) zeroHostStatusResponse)))
      as [|e l]; [destruct Hin|].
    cbn [length]. rewrite Hid.
    destruct (Z.of_nat (S (length l)) =? 0) eqn:E; [apply Z.eqb_eq in E; lia|].
    reflexivity.
  - intros Hcode Hfind. rewrite Hcode. cbn [Z.eqb negb]. rewrite Hfind.
    destruct (Z.of_nat _ =? 0); reflexivity.
Qed.

Lemma GetHost_when_answered_witness :
  let unmarshal :=
    served.statusAnswer [served.entry 7 "db" true true;
                         served.entry 5 "web" false true] in
  let w := scenario.answering [scenario.response500; scenario.response200] in
  requests (fst (GetHost unmarshal scenario.client3 w 5)) = 2%nat
  /\ snd (GetHost unmarshal scenario.client3 w 5) = Ok (mkHost 5 "web" 60 true)
  /\ snd (GetHost unmarshal scenario.client3 w 9) = Err (hostNotFound 9).
Proof.
  cbv zeta.
  pose proof (answered_after_one_500
                (served.statusAnswer [served.entry 7 "db" true true;
                                      served.entry 5 "web" false true])
                zeroHostStatusResponse eq_refl) as Hans.
  destruct (GetHost_when_answered _ scenario.client3 _ 5 1 scenario.response200 Hans)
    as (H1 & _ & H2 & _).
  destruct (GetHost_when_answered _ scenario.client3 _ 9 1 scenario.response200 Hans)
    as (_ & _ & _ & H3).
  split; [exact H1|]. split.
  - exact (H2 eq_refl (served.entry 5 "web" false true) eq_refl).
  - exact (H3 eq_refl eq_refl).
Defined.

(** X23. When the call of [DeleteHost], [DisableHostUptimeMonitoring] or
    [EnableHostUptimeMonitoring] is answered at attempt [k], the command
    returns after [k + 1] requests: nil when the error code of the envelope
    is 0, and otherwise the error that prints the code and the message. An
    error reported in the envelope of a 2xx answer is never retried. *)
Theorem host_commands_when_answered (unmarshal : hostDecoder) (c : Client)
    (w : World) (id : Z) (k : nat) (resp : Response) :
  answeredAt unmarshal zeroHostResponse c w k resp ->
  let response := fst (unmarshal (Body resp) zeroHostResponse) in
  let outcome :=
    if HR_ErrorCode response =? 0 then None
    else Some (apiError (HR_ErrorCode response) (HR_Message response)) in
  (snd (DeleteHost unmarshal c w id) = outcome
   /\ requests (fst (DeleteHost unmarshal c w id)) = S k)
  /\ (snd (DisableHostUptimeMonitoring unmarshal c w id) = outcome
      /\ requests (fst (DisableHostUptimeMonitoring unmarshal c w id)) = S k)
  /\ (snd (EnableHostUptimeMonitoring unmarshal c w id) = outcome
      /\ requests (fst (EnableHostUptimeMonitoring unmarshal c w id)) = S k).
Proof.
  intros Hans. cbv zeta.
  pose (body := fun response : WormlyHostResponse =>
          if negb (HR_ErrorCode response =? 0)
          then ret (Some (apiError (HR_ErrorCode response) (HR_Message response)))
          else (ret None : M (option error))).
  assert (Hbody : forall x, requests (fst (body x)) = 0%nat).
  { intros x. unfold body. destruct (negb (HR_ErrorCode x =? 0)); reflexivity. }
  assert (Hout : snd (body (fst (unmarshal (Body resp) zeroHostResponse)))
                 = if HR_ErrorCode (fst (unmarshal (Body resp) zeroHostResponse)) =? 0
                   then None
                   else Some (apiError
                                (HR_ErrorCode (fst (unmarshal (Body resp) zeroHostResponse)))
                                (HR_Message (fst (unmarshal (Body resp) zeroHostResponse))))).
  { unfold body.
    destruct (HR_ErrorCode (fst (unmarshal (Body resp) zeroHostResponse)) =? 0);
      reflexivity. }
  rewrite <- Hout.
  split; [|split].
  - exact (op_answered unmarshal c w "deleteHost"
             ({[ "hostid" := Itoa id ]} : gmap string string) zeroHostResponse
             (fun err => Some (Errorf_w "failed to delete host: " (Some err)))
             body k resp Hans Hbody).
  - exact (op_answered unmarshal c w "disableHostUptimeMonitoring"
             ({[ "hostid" := Itoa id ]} : gmap string string) zeroHostResponse
             (fun err => Some (Errorf_w "failed to disable host uptime monitoring: "
                                 (Some err)))
             body k resp Hans Hbody).
  - exact (op_answered unmarshal c w "enableHostUptimeMonitoring"
             ({[ "hostid" := Itoa id ]} : gmap string string) zeroHostResponse
             (fun err => Some (Errorf_w "failed to enable host uptime monitoring: "
                                 (Some err)))
             body k resp Hans Hbody).
Qed.

Lemma host_commands_when_answered_witness :
  let unmarshal := served.hostAnswer 17 5 "no such host" in
  let w := scenario.answering [scenario.response500; scenario.response200] in
  let outcome := Some (apiError 17 "no such host") in
  (snd (DeleteHost unmarshal scenario.client3 w 5) = outcome
   /\ requests (fst (DeleteHost unmarshal scenario.client3 w 5)) = 2%nat)
  /\ (snd (DisableHostUptimeMonitoring unmarshal scenario.client3 w 5) = outcome
      /\ requests (fst (DisableHostUptimeMonitoring unmarshal scenario.client3 w 5))
         = 2%nat)
  /\ (snd (EnableHostUptimeMonitoring unmarshal scenario.client3 w 5) = outcome
      /\ requests (fst (EnableHostUptimeMonitoring unmarshal scenario.client3 w 5))
         = 2%nat).
Proof.
  exact (host_commands_when_answered (served.hostAnswer 17 5 "no such host")
           scenario.client3
           (scenario.answering [scenario.response500; scenario.response200])
           5 1 scenario.response200
           (answered_after_one_500 (served.hostAnswer 17 5 "no such host")
              zeroHostResponse eq_refl)).
Defined.

(** *** CreateHost *)

Lemma CreateHost_body_quiet (c : Client) (name : string) (testInterval : Z)
    (enabled : bool) (response : WormlyHostResponse) :
  let body : M (result Host) :=
    if negb (HR_ErrorCode response =? 0) then
      DebugLog c "CreateHost API error response: %+v"
        [argInt (HR_ErrorCode response); argString (HR_Message response);
         argInt (HR_HostID response)] ;;;
      ret (Err (apiError (HR_ErrorCode response) (HR_Message response)))
    else ret (Ok (mkHost (HR_HostID response) name testInterval enabled)) in
  sent (fst body) = [] /\ acquisitions (fst body) = 0%nat
  /\ snd body
     = if HR_ErrorCode response =? 0
       then Ok (mkHost (HR_HostID response) name testInterval enabled)
       else Err (apiError (HR_ErrorCode response) (HR_Message response)).
Proof.
  cbv zeta. destruct (HR_ErrorCode response =? 0); cbn [negb].
  - repeat split.
  - destruct (DebugLog_then c "CreateHost API error response: %+v"
                [argInt (HR_ErrorCode response); argString (HR_Message response);
                 argInt (HR_HostID response)]
                (ret (Err (apiError (HR_ErrorCode response) (HR_Message response)))
                   : M (result Host))) as (-> & -> & ->).
    repeat split.
Qed.

(** X24. [CreateHost] does not tell the server whether the host is to be
    enabled: every request is the [createHost] form with the name and the
    test interval and without an [enabled] key, and the requests of a call
    are the same for either value of the argument. The host it returns has
    the three arguments as its fields, [Enabled] included, and as its ID the
    host ID of an answer served 2xx with error code 0. *)
Theorem CreateHost_does_not_send_enabled (unmarshal : hostDecoder) (c : Client)
    (w : World) (name : string) (testInterval : Z) (enabled : bool) :
  sent (fst (CreateHost unmarshal c w name testInterval enabled))
  = sent (fst (CreateHost unmarshal c w name testInterval (negb enabled)))
  /\ Forall (fun q => carries c q "createHost" "name" name
                      /\ Form q !! "testinterval" = Some (Itoa testInterval)
                      /\ Form q !! "enabled" = None)
       (sent (fst (CreateHost unmarshal c w name testInterval enabled)))
  /\ forall h : Host,
       snd (CreateHost unmarshal c w name testInterval enabled) = Ok h ->
       exists (n : nat) (resp : Response),
         roundTrips w n = rtResp resp
         /\ 200 <= StatusCode resp < 300
         /\ HR_ErrorCode (fst (unmarshal (Body resp) zeroHostResponse)) = 0
         /\ h = mkHost (HR_HostID (fst (unmarshal (Body resp) zeroHostResponse)))
                  name testInterval enabled.
Proof.
  pose (params := <["name" := name]> {[ "testinterval" := Itoa testInterval ]}
                  : gmap string string).
  pose (body := fun (e : bool) (response : WormlyHostResponse) =>
          if negb (HR_ErrorCode response =? 0) then
            DebugLog c "CreateHost API error response: %+v"
              [argInt (HR_ErrorCode response); argString (HR_Message response);
               argInt (HR_HostID response)] ;;;
            ret (Err (apiError (HR_ErrorCode response) (HR_Message response)))
          else ret (Ok (mkHost (HR_HostID response) name testInterval e))).
  assert (Hbody : forall e x, sent (fst (body e x)) = []
                              /\ acquisitions (fst (body e x)) = 0%nat).
  { intros e x.
    destruct (CreateHost_body_quiet c name testInterval e x) as (H1 & H2 & _).
    split; [exact H1 | exact H2]. }
  assert (Hsame : forall e,
             sent (fst (CreateHost unmarshal c w name testInterval e))
             = sent (fst (makeFormRequest unmarshal c w "createHost" params
                            (Some zeroHostResponse)))).
  { intros e. unfold CreateHost. cbv zeta. rewrite bind_fst, sent_app.
    fold params.
    destruct (snd (snd (makeFormRequest unmarshal c w "createHost" params
                          (Some zeroHostResponse)))) as [err|].
    - apply List.app_nil_r.
    - destruct (Hbody e (default zeroHostResponse
                           (fst (snd (makeFormRequest unmarshal c w "createHost"
                                        params (Some zeroHostResponse))))))
        as (Hs & _).
      unfold body in Hs. rewrite Hs. apply List.app_nil_r. }
  destruct (op_shape unmarshal c w "createHost" params zeroHostResponse
              (fun err => Err (Errorf_w "failed to create host: " (Some err)))
              (body enabled) (Hbody enabled)) as (Hsent & _ & Hres).
  split; [rewrite !Hsame; reflexivity|]. split.
  - refine (Forall_the_form _ _ _ _ Hsent). unfold carries, params.
    rewrite formRequest_Form, !formData_lookup, !lookup_insert_if,
      !lookup_singleton_if.
    repeat split.
  - intros h Hh.
    destruct Hres as [(err & He) | (n & resp & Hn & Hs & Hb & Hu & He)];
      pose proof (eq_trans (eq_sym Hh) He) as He'; [discriminate He'|].
    destruct (CreateHost_body_quiet c name testInterval enabled
                (fst (unmarshal (Body resp) zeroHostResponse))) as (_ & _ & Hv).
    unfold body in He'. rewrite Hv in He'.
    destruct (HR_ErrorCode (fst (unmarshal (Body resp) zeroHostResponse)) =? 0)
      eqn:E; [|discriminate He'].
    injection He' as ->. apply Z.eqb_eq in E. exists n, resp. auto.
Qed.

(** *** The period decoder: what it rejects *)





(** ** Part VIII. Identifiers: written by one operation, parsed by the next *)

(** *** Itoa, then Atoi *)

Lemma string_of_uint_digits (d : Decimal.uint) :
  NilEmpty.string_of_uint d = digitsString (uintDigits d).
Proof.
  induction d; cbn [NilEmpty.string_of_uint uintDigits digitsString];
    [reflexivity | rewrite IHd; reflexivity ..].
Qed.

Lemma uintDigits_isDigit (d : Decimal.uint) : Forall isDigit (uintDigits d).
Proof.
  induction d; cbn [uintDigits]; constructor; try assumption; unfold isDigit; lia.
Qed.

Lemma of_uint_acc_value (d : Decimal.uint) :
  forall acc : positive,
  Z.pos (Pos.of_uint_acc d acc) = digitsValueFrom (Z.pos acc) (uintDigits d).
Proof.
  induction d; intros acc; cbn [Pos.of_uint_acc uintDigits digitsValueFrom];
    [reflexivity | rewrite IHd; f_equal; lia ..].
Qed.

Lemma of_uint_value (d : Decimal.uint) :
  Z.of_N (Pos.of_uint d) = digitsValue (uintDigits d).
Proof.
  unfold digitsValue.
  induction d; cbn [Pos.of_uint uintDigits digitsValueFrom Z.of_N];
    [reflexivity | exact IHd | rewrite of_uint_acc_value; reflexivity ..].
Qed.

(** What [Itoa] writes: a minus sign for a negative number, then the digits
    of the absolute value, of which there is at least one. *)
Lemma Itoa_shape (n : Z) :
  exists ds : list Z,
    ds <> [] /\ Forall isDigit ds /\ digitsValue ds = Z.abs n
    /\ Itoa n = if n <? 0 then String "-" (digitsString ds) else digitsString ds.
Proof.
  assert (Hpos : forall p : positive,
             uintDigits (Pos.to_uint p) <> []
             /\ digitsValue (uintDigits (Pos.to_uint p)) = Z.pos p
             /\ NilZero.string_of_uint (Pos.to_uint p)
                = digitsString (uintDigits (Pos.to_uint p))).
  { intros p. pose proof (DecimalPos.Unsigned.to_uint_nonnil p) as Hnil.
    split; [|split].
    - destruct (Pos.to_uint p); [congruence | discriminate ..].
    - rewrite <- of_uint_value, DecimalPos.Unsigned.of_to. reflexivity.
    - rewrite <- string_of_uint_digits.
      destruct (Pos.to_uint p); [congruence | reflexivity ..]. }
  destruct n as [|p|p].
  - exists [0]. split; [discriminate|].
    split; [repeat constructor; unfold isDigit; lia|]. split; reflexivity.
  - destruct (Hpos p) as (H1 & H2 & H3).
    exists (uintDigits (Pos.to_uint p)).
    split; [exact H1|]. split; [apply uintDigits_isDigit|]. split; [exact H2|].
    exact H3.
  - destruct (Hpos p) as (H1 & H2 & H3).
    exists (uintDigits (Pos.to_uint p)).
    split; [exact H1|]. split; [apply uintDigits_isDigit|]. split; [exact H2|].
    unfold Itoa. cbn [Z.to_int NilZero.string_of_int Z.ltb Z.compare].
    rewrite H3. reflexivity.
Qed.

(** [Atoi] on a minus sign and a numeral of at most 2^63. *)
Lemma Atoi_negative_numeral (ds : list Z) :
  ds <> [] -> Forall isDigit ds -> digitsValue ds <= 2 ^ 63 ->
  Atoi (String "-" (digitsString ds)) = (- digitsValue ds, None).
Proof.
  intros Hne Hds Hfit.
  assert (Hscan : scanDigits (digitsString ds) 0 = scanOk (digitsValue ds)).
  { apply scanDigits_numeral; [lia | exact Hds |].
    unfold digitsValue in Hfit. change (2 ^ 63) with 9223372036854775808 in Hfit.
    change (2 ^ 64) with 18446744073709551616. lia. }
  unfold Atoi.
  change (Ascii.eqb "-" (ascii_of_nat 43)) with false.
  change (Ascii.eqb "-" (ascii_of_nat 45)) with true.
  cbn [orb]. rewrite Hscan.
  destruct ds as [|d ds]; [congruence|]. cbn [digitsString negb andb].
  assert (E : (digitsValue (d :: ds) >? 2 ^ 63) = false)
    by (rewrite Z.gtb_ltb; apply Z.ltb_ge; exact Hfit).
  rewrite E. reflexivity.
Qed.

(** [strconv.Atoi(strconv.Itoa(n))] is [n] for every [int]. *)
Lemma Atoi_Itoa (n : Z) :
  minInt64 <= n <= maxInt64 -> Atoi (Itoa n) = (n, None).
Proof.
  unfold minInt64, maxInt64. intros Hn.
  destruct (Itoa_shape n) as (ds & Hne & Hds & Hv & ->).
  destruct (Z.ltb_spec n 0).
  - rewrite Atoi_negative_numeral; [f_equal; lia | assumption | assumption | lia].
  - rewrite Atoi_numeral; [f_equal; lia | assumption | assumption | lia].
Qed.

(** *** Splitting at the slash *)

Lemma Split_app (s t : string) (sep : ascii) :
  Split s sep = [s] ->
  Split (s ++ String sep t) sep = s :: Split t sep.
Proof.
  induction s as [|a s IH]; intros Hs.
  - change (EmptyString ++ String sep t) with (String sep t).
    cbn [Split]. rewrite Ascii.eqb_refl. reflexivity.
  - change (String a s ++ String sep t) with (String a (s ++ String sep t)).
    cbn [Split] in *.
    destruct (Ascii.eqb a sep); [discriminate Hs|].
    destruct (Split s sep) as [|x xs] eqn:E.
    + injection Hs as Hs. subst s. discriminate E.
    + injection Hs as -> ->. rewrite (IH eq_refl). reflexivity.
Qed.

Lemma Split_digits (ds : list Z) :
  Forall isDigit ds -> Split (digitsString ds) "/" = [digitsString ds].
Proof.
  induction 1 as [|d ds Hd Hds IH]; [reflexivity|].
  cbn [digitsString Split]. rewrite IH.
  assert (E : Ascii.eqb (digitChar d) "/" = false).
  { unfold isDigit in Hd.
    assert (H : d = 0 \/ d = 1 \/ d = 2 \/ d = 3 \/ d = 4 \/ d = 5 \/ d = 6
                \/ d = 7 \/ d = 8 \/ d = 9) by lia.
    repeat (destruct H as [-> | H]; [reflexivity|]). subst d. reflexivity. }
  rewrite E. reflexivity.
Qed.

(** What [Itoa] writes holds no slash. *)
Lemma Split_Itoa (n : Z) : Split (Itoa n) "/" = [Itoa n].
Proof.
  destruct (Itoa_shape n) as (ds & _ & Hds & _ & ->).
  destruct (n <? 0); [|apply Split_digits; exact Hds].
  cbn [Split]. change (Ascii.eqb "-" "/") with false. cbv iota.
  rewrite (Split_digits ds Hds). reflexivity.
Qed.

(** X26. The ID that [Create] of the HTTP sensor resource stores, the host
    and the sensor in decimal with a slash between, is read back by
    [parseSensorID] as the same two numbers, for every pair of [int]s, the
    negative ones included; [ImportState] accepts it and sets [host_id] to
    the host. The ID of a host resource, a number alone, is refused as an ID
    of the wrong format. *)
Theorem sensor_id_round_trip (hostID sensorID : Z) :
  minInt64 <= hostID <= maxInt64 ->
  minInt64 <= sensorID <= maxInt64 ->
  sensorResource.parseSensorID (sensorResource.resourceID hostID sensorID)
  = (hostID, sensorID, None)
  /\ sensorResource.ImportState (sensorResource.resourceID hostID sensorID)
     = inr (sensorResource.resourceID hostID sensorID, hostID)
  /\ sensorResource.parseSensorID (Itoa hostID)
     = (0, 0, Some (errorString "invalid ID format, expected host_id/sensor_id")).
Proof.
  intros Hh Hs.
  assert (Hparse : sensorResource.parseSensorID
                     (sensorResource.resourceID hostID sensorID)
                   = (hostID, sensorID, None)).
  { unfold sensorResource.parseSensorID, sensorResource.resourceID.
    change (Itoa hostID ++ "/" ++ Itoa sensorID)
      with (Itoa hostID ++ String "/" (Itoa sensorID)).
    rewrite (Split_app _ _ _ (Split_Itoa hostID)), Split_Itoa.
    rewrite (Atoi_Itoa hostID Hh), (Atoi_Itoa sensorID Hs). reflexivity. }
  split; [exact Hparse|]. split.
  - unfold sensorResource.ImportState. rewrite Hparse. reflexivity.
  - unfold sensorResource.parseSensorID. rewrite Split_Itoa. reflexivity.
Qed.

Lemma sensor_id_round_trip_witness :
  sensorResource.parseSensorID (sensorResource.resourceID 12345 67890)
  = (12345, 67890, None)
  /\ sensorResource.ImportState (sensorResource.resourceID 12345 67890)
     = inr (sensorResource.resourceID 12345 67890, 12345)
  /\ sensorResource.parseSensorID (Itoa 12345)
     = (0, 0, Some (errorString "invalid ID format, expected host_id/sensor_id")).
Proof.
  apply (sensor_id_round_trip 12345 67890); split; discriminate.
Defined.

(** *** The host resource: create, update, delete *)

(** X27. When [Create] of the host resource saves a state, the host was
    created and then switched to the planned monitoring state, in that order
    and by these two calls alone, and both succeeded. The saved state holds
    the ID of the created host in decimal, the name and the interval the
    client returned, and the planned switch as a known value. That ID parses
    back to the number of the host, so [Delete] on the saved state deletes
    the host that was created, with one call. *)
Theorem host_create_then_delete (api : hostResource.API)
    (plan m : hostResource.Model) :
  hostResource.State (hostResource.Create api plan []) = tf.Saved m ->
  exists host : Host,
    hostResource.CreateHost api (tf.ValueString (hostResource.Name plan))
      (tf.ValueInt64 (hostResource.TestInterval plan))
      (tf.ValueBool (hostResource.Enabled plan)) = Ok host
    /\ (if tf.ValueBool (hostResource.Enabled plan)
        then hostResource.EnableHostUptimeMonitoring api (Host_ID host)
        else hostResource.DisableHostUptimeMonitoring api (Host_ID host)) = None
    /\ m = hostResource.mkModel (tf.Value (Itoa (Host_ID host)))
             (tf.Value (Host_Name host)) (tf.Value (Host_TestInterval host))
             (tf.Value (tf.ValueBool (hostResource.Enabled plan)))
    /\ hostResource.Calls (hostResource.Create api plan [])
       = [hostResource.CallCreateHost (tf.ValueString (hostResource.Name plan))
            (tf.ValueInt64 (hostResource.TestInterval plan))
            (tf.ValueBool (hostResource.Enabled plan));
          if tf.ValueBool (hostResource.Enabled plan)
          then hostResource.CallEnable (Host_ID host)
          else hostResource.CallDisable (Host_ID host)]
    /\ hostResource.Diagnostics (hostResource.Create api plan []) = []
    /\ (minInt64 <= Host_ID host <= maxInt64 ->
        Atoi (tf.ValueString (hostResource.ID m)) = (Host_ID host, None)
        /\ hostResource.Calls (hostResource.Delete api m [])
           = [hostResource.CallDeleteHost (Host_ID host)]).
Proof.
  unfold hostResource.Create. cbv zeta.
  destruct (hostResource.CreateHost api _ _ _) as [host|err]; [|discriminate].
  intros H. exists host. split; [reflexivity|].
  destruct (tf.ValueBool (hostResource.Enabled plan)).
  - destruct (hostResource.EnableHostUptimeMonitoring api (Host_ID host));
      [discriminate H|].
    cbn [hostResource.State hostResource.Calls hostResource.Diagnostics] in *.
    injection H as <-. repeat split.
    + cbn [hostResource.ID tf.ValueString]. apply Atoi_Itoa. assumption.
    + unfold hostResource.Delete. cbn [hostResource.ID tf.ValueString].
      rewrite Atoi_Itoa by assumption.
      destruct (hostResource.DeleteHost api (Host_ID host)); reflexivity.
  - destruct (hostResource.DisableHostUptimeMonitoring api (Host_ID host));
      [discriminate H|].
    cbn [hostResource.State hostResource.Calls hostResource.Diagnostics] in *.
    injection H as <-. repeat split.
    + cbn [hostResource.ID tf.ValueString]. apply Atoi_Itoa. assumption.
    + unfold hostResource.Delete. cbn [hostResource.ID tf.ValueString].
      rewrite Atoi_Itoa by assumption.
      destruct (hostResource.DeleteHost api (Host_ID host)); reflexivity.
Qed.

(** X28. When [Update] of the host resource saves a state, that state has
    the ID, the name and the test interval of the prior state, whatever the
    plan holds for them, and the planned switch. [Update] calls the API only
    when the planned switch differs from the one in the state, as a value or
    in being null or unknown, and then once: it enables or disables
    monitoring of the host whose ID the prior state holds. It never creates,
    deletes or renames a host. *)
Theorem host_update_only_toggles (api : hostResource.API)
    (plan state m : hostResource.Model) :
  hostResource.State (hostResource.Update api plan state [] []) = tf.Saved m ->
  m = hostResource.mkModel (hostResource.ID state) (hostResource.Name state)
        (hostResource.TestInterval state) (hostResource.Enabled plan)
  /\ exists id : Z,
       Atoi (tf.ValueString (hostResource.ID state)) = (id, None)
       /\ hostResource.Calls (hostResource.Update api plan state [] [])
          = if tf.BoolEqual (hostResource.Enabled plan) (hostResource.Enabled state)
            then []
            else [if tf.ValueBool (hostResource.Enabled plan)
                  then hostResource.CallEnable id
                  else hostResource.CallDisable id].
Proof.
  unfold hostResource.Update. cbv zeta.
  destruct (Atoi (tf.ValueString (hostResource.ID state))) as [id [err|]];
    [discriminate|].
  destruct (tf.BoolEqual (hostResource.Enabled plan) (hostResource.Enabled state));
    cbn [negb].
  - intros [= <-]. split; [reflexivity|]. exists id. split; reflexivity.
  - destruct (tf.ValueBool (hostResource.Enabled plan)); cbn [negb].
    + destruct (hostResource.EnableHostUptimeMonitoring api id); [discriminate|].
      intros [= <-]. split; [reflexivity|]. exists id. split; reflexivity.
    + destruct (hostResource.DisableHostUptimeMonitoring api id); [discriminate|].
      intros [= <-]. split; [reflexivity|]. exists id. split; reflexivity.
Qed.

Lemma host_create_then_delete_witness :
  exists host : Host,
    hostResource.CreateHost served.hostAPI42 "web" 60 true = Ok host
    /\ hostResource.EnableHostUptimeMonitoring served.hostAPI42 (Host_ID host) = None
    /\ served.stateWeb true
       = hostResource.mkModel (tf.Value (Itoa (Host_ID host)))
           (tf.Value (Host_Name host)) (tf.Value (Host_TestInterval host))
           (tf.Value true)
    /\ hostResource.Calls (hostResource.Create served.hostAPI42 (served.planWeb true) [])
       = [hostResource.CallCreateHost "web" 60 true;
          hostResource.CallEnable (Host_ID host)]
    /\ hostResource.Diagnostics
         (hostResource.Create served.hostAPI42 (served.planWeb true) []) = []
    /\ (minInt64 <= Host_ID host <= maxInt64 ->
        Atoi "42" = (Host_ID host, None)
        /\ hostResource.Calls
             (hostResource.Delete served.hostAPI42 (served.stateWeb true) [])
           = [hostResource.CallDeleteHost (Host_ID host)]).
Proof.
  exact (host_create_then_delete served.hostAPI42 (served.planWeb true)
           (served.stateWeb true) eq_refl).
Defined.

Lemma host_update_only_toggles_witness :
  hostResource.mkModel (tf.Value "42") (tf.Value "web") (tf.Value 60) (tf.Value false)
  = hostResource.mkModel (tf.Value "42") (tf.Value "web") (tf.Value 60)
      (tf.Value false)
  /\ exists id : Z,
       Atoi "42" = (id, None)
       /\ hostResource.Calls
            (hostResource.Update served.hostAPI42 served.planRenamed
               (served.stateWeb true) [] [])
          = [hostResource.CallDisable id].
Proof.
  exact (host_update_only_toggles served.hostAPI42 served.planRenamed
           (served.stateWeb true)
           (hostResource.mkModel (tf.Value "42") (tf.Value "web") (tf.Value 60)
              (tf.Value false))
           eq_refl).
Defined.

(** *** The scheduled downtime period resource on the real client *)

Lemma GetScheduledDowntimePeriod_Ok (unmarshal : periodsDecoder) (c : Client)
    (w : World) (hostID periodID : Z) (p : ScheduledDowntimePeriod) :
  snd (GetScheduledDowntimePeriod unmarshal c w hostID periodID) = Ok p ->
  SDP_ID p = periodID /\ SDP_HostID p = hostID.
Proof.
  intros H.
  pose proof (GetScheduledDowntimePeriods_Ok unmarshal c w hostID) as Hst.
  unfold GetScheduledDowntimePeriod in H. rewrite bind_snd in H.
  destruct (snd (GetScheduledDowntimePeriods unmarshal c w hostID))
    as [periods|err]; [|discriminate H].
  destruct (List.find _ periods) as [p0|] eqn:F; [|discriminate H].
  cbn [ret snd] in H. injection H as ->.
  destruct (List.find_some _ _ F) as (Hin & Hid). apply Z.eqb_eq in Hid.
  destruct (Hst periods eq_refl) as (_ & n & resp & _ & _ & _ & Hmap).
  split; [exact Hid|].
  rewrite Hmap in Hin. apply List.in_map_iff in Hin.
  destruct Hin as (p0 & <- & _). reflexivity.
Qed.

Lemma GetScheduledDowntimePeriod_Err (unmarshal : periodsDecoder) (c : Client)
    (w : World) (hostID periodID : Z) (err : error) :
  snd (GetScheduledDowntimePeriod unmarshal c w hostID periodID) = Err err ->
  provider.isNotFoundError (Some err) = false.
Proof.
  unfold GetScheduledDowntimePeriod. rewrite bind_snd.
  destruct (snd (GetScheduledDowntimePeriods unmarshal c w hostID))
    as [periods|e].
  - destruct (List.find _ periods); cbn [ret snd]; [discriminate|].
    intros [= <-]. unfold periodNotFound. apply isNotFoundError_text. reflexivity.
  - cbn [ret snd]. intros [= <-]. apply isNotFoundError_wrapped. reflexivity.
Qed.

(** X29. [Read] of the scheduled downtime period resource on the real client
    never removes the resource from the state: no error of
    [GetScheduledDowntimePeriod] passes [isNotFoundError], the one for a
    period that is not in the list included. When it saves a state, the ID
    of the prior state parsed as a number, the period with that number was in
    the list of the host of the prior state, and the saved state keeps the
    ID as it was, holds that host, the four schedule fields of the period,
    and [on] as null when the period has none. *)
Theorem period_Read_on_real_client (unmarshalPeriods : periodsDecoder)
    (unmarshalPeriod : periodDecoder) (c : Client) (w : World)
    (prior : periodResource.Model) (stateDiags : list provider.Diagnostic) :
  let r :=
    periodResource.Read
      (periodResource.clientAPI unmarshalPeriods unmarshalPeriod c w)
      prior stateDiags in
  periodResource.State r <> tf.Removed
  /\ forall m : periodResource.Model,
       periodResource.State r = tf.Saved m ->
       exists (id : Z) (period : ScheduledDowntimePeriod),
         Atoi (tf.ValueString (periodResource.ID prior)) = (id, None)
         /\ snd (GetScheduledDowntimePeriod unmarshalPeriods c w
                   (tf.ValueInt64 (periodResource.HostID prior)) id) = Ok period
         /\ SDP_ID period = id
         /\ m = periodResource.mkModel (periodResource.ID prior)
                  (tf.Value (tf.ValueInt64 (periodResource.HostID prior)))
                  (tf.Value (SDP_Start period)) (tf.Value (SDP_End period))
                  (tf.Value (SDP_Timezone period))
                  (tf.Value (SDP_Recurrence period))
                  (if String.eqb (SDP_On period) "" then tf.Null
                   else tf.Value (SDP_On period)).
Proof.
  cbv zeta. unfold periodResource.Read.
  destruct stateDiags as [|d ds]; [|split; [discriminate | intros m; discriminate]].
  destruct (Atoi (tf.ValueString (periodResource.ID prior))) as [id [e|]];
    [split; [discriminate | intros m; discriminate]|].
  cbn [periodResource.GetScheduledDowntimePeriod periodResource.clientAPI].
  destruct (snd (GetScheduledDowntimePeriod unmarshalPeriods c w
                   (tf.ValueInt64 (periodResource.HostID prior)) id))
    as [period|err] eqn:E.
  - split; [discriminate|]. intros m [= <-].
    destruct (GetScheduledDowntimePeriod_Ok _ _ _ _ _ _ E) as (Hid & Hhost).
    exists id, period. split; [reflexivity|]. split; [exact E|].
    split; [exact Hid|].
    unfold periodResource.fromPeriod. rewrite Hhost.
    destruct (String.eqb (SDP_On period) ""); reflexivity.
  - rewrite (GetScheduledDowntimePeriod_Err _ _ _ _ _ _ E).
    split; [discriminate | intros m; discriminate].
Qed.

(** X30. When [Update] of the scheduled downtime period resource on the
    real client saves a state, every request of the update carried as
    [periodid] the ID of the prior state, and the ID of the saved state is
    the period ID of the answer, in decimal: not the ID of the prior state,
    and "0" when the answer holds no period ID. The other fields are the
    known values of the plan, [on] being null when the plan has none or an
    empty one. *)
Theorem period_Update_takes_answered_id (unmarshalPeriods : periodsDecoder)
    (unmarshalPeriod : periodDecoder) (c : Client) (w : World)
    (plan state m : periodResource.Model) :
  periodResource.State
    (periodResource.Update
       (periodResource.clientAPI unmarshalPeriods unmarshalPeriod c w)
       plan state [] []) = tf.Saved m ->
  exists (id : Z) (n : nat) (resp : Response),
    Atoi (tf.ValueString (periodResource.ID state)) = (id, None)
    /\ roundTrips w n = rtResp resp
    /\ 200 <= StatusCode resp < 300
    /\ PR_ErrorCode (fst (unmarshalPeriod (Body resp) zeroPeriodResponse)) = 0
    /\ m = periodResource.mkModel
             (tf.Value (Itoa (PR_PeriodID
                                (fst (unmarshalPeriod (Body resp) zeroPeriodResponse)))))
             (tf.Value (tf.ValueInt64 (periodResource.HostID plan)))
             (tf.Value (tf.ValueString (periodResource.Start plan)))
             (tf.Value (tf.ValueString (periodResource.End_ plan)))
             (tf.Value (tf.ValueString (periodResource.Timezone plan)))
             (tf.Value (tf.ValueString (periodResource.Recurrence plan)))
             (if String.eqb (tf.ValueString (periodResource.On plan)) ""
              then tf.Null
              else tf.Value (tf.ValueString (periodResource.On plan)))
    /\ Forall (fun q => Form q !! "periodid" = Some (Itoa id))
         (sent (fst (UpdateScheduledDowntimePeriod unmarshalPeriod c w
                       (tf.ValueInt64 (periodResource.HostID plan)) id
                       (tf.ValueString (periodResource.Start plan))
                       (tf.ValueString (periodResource.End_ plan))
                       (tf.ValueString (periodResource.Timezone plan))
                       (tf.ValueString (periodResource.Recurrence plan))
                       (tf.ValueString (periodResource.On plan))))).
Proof.
  unfold periodResource.Update.
  destruct (Atoi (tf.ValueString (periodResource.ID state))) as [id [e|]];
    [discriminate|].
  cbn [periodResource.UpdateScheduledDowntimePeriod periodResource.clientAPI].
  set (hostID := tf.ValueInt64 (periodResource.HostID plan)).
  set (start := tf.ValueString (periodResource.Start plan)).
  set (end_ := tf.ValueString (periodResource.End_ plan)).
  set (timezone := tf.ValueString (periodResource.Timezone plan)).
  set (recurrence := tf.ValueString (periodResource.Recurrence plan)).
  set (on := tf.ValueString (periodResource.On plan)).
  set (params :=
         (if negb (String.eqb on "")
          then <["on" := on]>
                 (<["hostid" := Itoa hostID]> (<["periodid" := Itoa id]>
                   (<["start" := start]> (<["end" := end_]>
                     (<["timezone" := timezone]>
                       {[ "recurrence" := recurrence ]})))))
          else <["hostid" := Itoa hostID]> (<["periodid" := Itoa id]>
                 (<["start" := start]> (<["end" := end_]>
                   (<["timezone" := timezone]>
                     {[ "recurrence" := recurrence ]})))))
         : gmap string string).
  destruct (period_write_shape unmarshalPeriod c w
              "failed to update scheduled downtime period: "
              "UpdateScheduledDowntimePeriod API error response: %+v"
              params hostID start end_ timezone recurrence on) as (Hu & _ & Hur).
  change (Forall (fun q => q = formRequest c "setScheduledDowntimePeriod" params)
            (sent (fst (UpdateScheduledDowntimePeriod unmarshalPeriod c w hostID id
                          start end_ timezone recurrence on)))) in Hu.
  destruct (snd (UpdateScheduledDowntimePeriod unmarshalPeriod c w hostID id
                   start end_ timezone recurrence on)) as [period|err] eqn:E;
    [|discriminate].
  intros [= <-].
  destruct (Hur period E) as (n & resp & Hn & Hs & Hc & ->).
  exists id, n, resp. split; [reflexivity|]. split; [exact Hn|].
  split; [exact Hs|]. split; [exact Hc|]. split.
  - unfold periodResource.fromPeriod.
    cbn [SDP_ID SDP_HostID SDP_Start SDP_End SDP_Timezone SDP_Recurrence SDP_On].
    destruct (String.eqb on ""); reflexivity.
  - refine (Forall_the_form _ _ _ _ Hu). unfold params.
    rewrite formRequest_Form, !formData_lookup.
    rewrite ?lookup_if_insert, ?lookup_insert_if, ?lookup_singleton_if.
    cbn [String.eqb Ascii.eqb Bool.eqb andb]. rewrite ?andb_false_r.
    reflexivity.
Qed.

Lemma period_Update_takes_answered_id_witness :
  exists (id : Z) (n : nat) (resp : Response),
    Atoi "7" = (id, None)
    /\ roundTrips served.ok200 n = rtResp resp
    /\ 200 <= StatusCode resp < 300
    /\ PR_ErrorCode (fst (served.periodAnswer 0 0 "" (Body resp) zeroPeriodResponse))
       = 0
    /\ periodResource.mkModel (tf.Value "0") (tf.Value 9) (tf.Value "23:00")
         (tf.Value "06:00") (tf.Value "GMT") (tf.Value "DAILY") tf.Null
       = periodResource.mkModel
           (tf.Value (Itoa (PR_PeriodID
                              (fst (served.periodAnswer 0 0 "" (Body resp)
                                      zeroPeriodResponse)))))
           (tf.Value 9) (tf.Value "23:00") (tf.Value "06:00") (tf.Value "GMT")
           (tf.Value "DAILY") tf.Null
    /\ Forall (fun q => Form q !! "periodid" = Some (Itoa id))
         (sent (fst (UpdateScheduledDowntimePeriod (served.periodAnswer 0 0 "")
                       scenario.client3 served.ok200 9 id "23:00" "06:00" "GMT"
                       "DAILY" ""))).
Proof.
  exact (period_Update_takes_answered_id (served.periodsAnswer 0 [])
           (served.periodAnswer 0 0 "") scenario.client3 served.ok200
           served.planPeriod7 served.statePeriod7
           (periodResource.mkModel (tf.Value "0") (tf.Value 9) (tf.Value "23:00")
              (tf.Value "06:00") (tf.Value "GMT") (tf.Value "DAILY") tf.Null)
           eq_refl).
Defined.
